(** * The Ripple build-sign-verify pipeline of the cross-chain router

    A shallow embedding of [tokens/ripple/buildtx.go] and
    [tokens/ripple/signtx.go], followed by the chain registry of
    [tokens/cosmos/init.go].  Go values are modelled as follows:
    - [big.Int] and the fixed-width integers are [Z];
    - a byte is a [Z] in [0, 256), a [[]byte] is a [list Z] or, where the
      code re-slices it, a [slice] that carries its capacity;
    - a Go [string] is a [string] (a sequence of 8-bit characters);
    - a run-time panic is the [Panic] outcome;
    - packages that are not part of the two files (ledger RPC, router
      registry, the rubblelabs data package, the signing oracle, the curve
      library) are fields of the records [Registry], [Ledger], [DataLib]
      and [Signer]. *)

From Stdlib Require Import ZArith List String Ascii Lia Bool DecimalString.
From stdpp Require Import base option list strings gmap.

Set Warnings "-register-all".

Local Open Scope Z_scope.

(** ** Panics *)

Inductive outcome (A : Type) : Type :=
| Done (a : A)
| Panic.
Arguments Done {A} a.
Arguments Panic {A}.

#[global] Instance outcome_ret : MRet outcome := fun A a => Done a.

#[global] Instance outcome_bind : MBind outcome := fun A B k m =>
  match m with
  | Done a => k a
  | Panic => Panic
  end.

(** Dereferencing a pointer: nil panics. *)
Definition deref {A} (p : option A) : outcome A :=
  match p with
  | Some a => Done a
  | None => Panic
  end.

(** ** Go slices of bytes

    [backing] is the part of the underlying array that starts at the
    slice's first element, so its length is the capacity; the first [len]
    entries are the elements. *)

Record slice := mkSlice { backing : list Z; len : nat }.

Definition cap (s : slice) : nat := length (backing s).
Definition elems (s : slice) : list Z := take (len s) (backing s).

(** The slice expression [s[lo:hi]]: for a slice operand the upper bound
    is the capacity, not the length. *)
Definition reslice (s : slice) (lo hi : nat) : outcome slice :=
  if (lo <=? hi)%nat && (hi <=? cap s)%nat
  then Done (mkSlice (drop lo (backing s)) (hi - lo))
  else Panic.

(** ** encoding/hex *)

Module hex.

Definition hextable : list ascii := list_ascii_of_string "0123456789abcdef".
Definition hextableUpper : list ascii := list_ascii_of_string "0123456789ABCDEF".

Definition lowerDigit (d : Z) : ascii := nth (Z.to_nat d) hextable "0"%char.
Definition upperDigit (d : Z) : ascii := nth (Z.to_nat d) hextableUpper "0"%char.

(** [reverseHexTable]: the value of a hex character, upper or lower case. *)
Definition fromHexChar (c : ascii) : option Z :=
  let n := Z.of_N (N_of_ascii c) in
  if (48 <=? n) && (n <=? 57) then Some (n - 48)
  else if (97 <=? n) && (n <=? 102) then Some (n - 87)
  else if (65 <=? n) && (n <=? 70) then Some (n - 55)
  else None.

Inductive hexError :=
| InvalidByteError (c : ascii)
| ErrLength.

(** [Encode]: two lower-case characters per byte, [hextable[v>>4]] and
    [hextable[v&0x0f]]. *)
Fixpoint encode (src : list Z) : list ascii :=
  match src with
  | [] => []
  | v :: rest => lowerDigit (Z.shiftr v 4) :: lowerDigit (Z.land v 15) :: encode rest
  end.

Definition EncodeToString (src : list Z) : string :=
  string_of_list_ascii (encode src).

(** The loop of [Decode]: the bytes written before the first error, and
    the error. *)
Fixpoint decode (src : list ascii) : list Z * option hexError :=
  match src with
  | [] => ([], None)
  | [p] =>
      match fromHexChar p with
      | None => ([], Some (InvalidByteError p))
      | Some _ => ([], Some ErrLength)
      end
  | p :: q :: rest =>
      match fromHexChar p, fromHexChar q with
      | None, _ => ([], Some (InvalidByteError p))
      | Some _, None => ([], Some (InvalidByteError q))
      | Some a, Some b =>
          let '(out, e) := decode rest in
          (Z.lor (Z.shiftl a 4) b :: out, e)
      end
  end.

(** [DecodeString]: a fresh zeroed buffer of [len(s)/2] bytes receives the
    decoded bytes; the result is the buffer re-sliced to the number of
    bytes written. *)
Definition DecodeString (s : string) : slice * option hexError :=
  let src := list_ascii_of_string s in
  let '(out, e) := decode src in
  (mkSlice (out ++ replicate (length src / 2 - length out)%nat 0) (length out), e).

End hex.

(** ** fmt and math/big *)

(** [n] hexadecimal digits of [z], most significant first. *)
Fixpoint digitsFixed (n : nat) (z : Z) : list Z :=
  match n with
  | O => []
  | S k => digitsFixed k (z / 16) ++ [z mod 16]
  end.

(** The number of hexadecimal digits of a natural number (one for zero). *)
Definition hexLen (z : Z) : nat :=
  if z =? 0 then 1%nat else S (Z.to_nat (Z.log2 z / 4)).

(** The digits of [|z|] without leading zeros, as [big.Int] prints them. *)
Definition utoa16 (z : Z) : list Z := digitsFixed (hexLen (Z.abs z)) (Z.abs z).

(** The verb [%064X] applied to a [big.Int]: sign, zero padding up to a
    width of 64, upper-case digits.  Longer numbers are not cut. *)
Definition fmt064X (z : Z) : list ascii :=
  let sign := if z <? 0 then ["-"%char] else [] in
  let digits := utoa16 z in
  sign ++ replicate (64 - length sign - length digits)%nat "0"%char
       ++ map hex.upperDigit digits.

(** The verb [%X] applied to a [[]byte]: two upper-case digits per byte. *)
Fixpoint fmtXbytes (src : list Z) : list ascii :=
  match src with
  | [] => []
  | v :: rest =>
      hex.upperDigit (Z.shiftr v 4) :: hex.upperDigit (Z.land v 15) :: fmtXbytes rest
  end.

(** [fmt.Sprintf("%X", sig)] *)
Definition Sprintf_X (sig : list Z) : string := string_of_list_ascii (fmtXbytes sig).

(** [fmt.Sprintf("%064X%064X00", r, s)] *)
Definition Sprintf_064X_064X_00 (r s : Z) : string :=
  string_of_list_ascii (fmt064X r ++ fmt064X s ++ ["0"%char; "0"%char]).

(** The digit scanner of [big.Int.SetString(s, 16)]: at least one digit,
    every character a hex digit. *)
Fixpoint scanDigits (acc : Z) (ds : list ascii) : option Z :=
  match ds with
  | [] => Some acc
  | c :: rest =>
      match hex.fromHexChar c with
      | Some d => scanDigits (16 * acc + d) rest
      | None => None
      end
  end.

Definition scanNat16 (ds : list ascii) : option Z :=
  match ds with
  | [] => None
  | _ => scanDigits 0 ds
  end.

(** [new(big.Int).SetString(s, 16)]; [None] is the nil result. *)
Definition SetString16 (s : string) : option Z :=
  match list_ascii_of_string s with
  | "-"%char :: ds => Z.opp <$> scanNat16 ds
  | "+"%char :: ds => scanNat16 ds
  | ds => scanNat16 ds
  end.

(** ** common *)

Definition has0xPrefix (s : list ascii) : bool :=
  match s with
  | "0"%char :: c :: _ => bool_decide (c = "x"%char) || bool_decide (c = "X"%char)
  | _ => false
  end.

(** Modelled from the spec: [common.FromHex] belongs to the router's
    [common] package, which is not among the source files.  The spec has
    the EdDSA RSV and the public key as hex strings of the raw bytes, so
    [FromHex] is hex decoding; as in that package an optional [0x] prefix
    is skipped, an odd number of digits is completed by a leading zero and
    a decoding error is dropped. *)
Definition FromHex (s : string) : list Z :=
  let cs := list_ascii_of_string s in
  let cs := if has0xPrefix cs then drop 2 cs else cs in
  let cs := if Nat.odd (length cs) then "0"%char :: cs else cs in
  fst (hex.decode cs).

(** ** Errors

    One constructor per error the two files create; [ErrExternal] stands
    for an error value that comes from another package. *)

Inductive error :=
| ErrToChainIDMismatch
| ErrSenderMismatch
| ErrSwapTypeNotSupported
| ErrMissMPCPublicKey
| ErrMissTokenConfig
| ErrNoBridgeForChainID
| ErrForbidEmptySender
| ErrInvalidReceiver
| ErrNonExistCurrency (currency : string)
| ErrAmountOverflow (amount : Z)
| ErrNonExistIssuer (issuer : string)
| ErrInsufficientNativeSender (account : string)
| ErrInsufficientNativeReceiver (account : string)
| ErrInsufficientIssued (currency issuer account : string)
| ErrCannotGetAccount (cause : error)
| ErrNotPaymentTransaction
| ErrNotPaymentAssertion
| ErrVerifyReceiver
| ErrSigningHashFailed (cause : error)
| ErrRequireOneRsv (have : nat) (keyID : string)
| ErrVerifySignature (valid : bool) (cause : option error)
| ErrSignTypeAssertion
| ErrSignHash (cause : error)
| ErrParseSignature (cause : error)
| ErrExternal (msg : string).

Inductive result (A : Type) : Type :=
| Ok (a : A)
| Err (e : error).
Arguments Ok {A} a.
Arguments Err {A} e.

(** ** Integer conversions *)

Definition uint32 (z : Z) : Z := z mod 2 ^ 32.
Definition uint64 (z : Z) : Z := z mod 2 ^ 64.
Definition int64 (z : Z) : Z := (z + 2 ^ 63) mod 2 ^ 64 - 2 ^ 63.

(** [big.Int.IsInt64] and [big.Int.Int64]: the latter takes the low 64
    bits of the magnitude and applies the sign. *)
Definition IsInt64 (x : Z) : bool := (- 2 ^ 63 <=? x) && (x <=? 2 ^ 63 - 1).
Definition Int64 (x : Z) : Z :=
  let v := int64 (Z.abs x mod 2 ^ 64) in
  if x <? 0 then int64 (- v) else v.

(** The built-in [copy(dst, src)] on byte slices. *)
Definition copy (dst src : list Z) : list Z :=
  take (length dst) src ++ drop (length src) dst.

(** The string slice [s[n:]]. *)
Definition strFrom (n : nat) (s : string) : outcome string :=
  if (n <=? String.length s)%nat
  then Done (string_of_list_ascii (drop n (list_ascii_of_string s)))
  else Panic.

Definition bytesOfString (s : string) : list Z :=
  (fun c => Z.of_N (N_of_ascii c)) <$> list_ascii_of_string s.

(** ** Signature codec (signtx.go) *)

Definition isEd25519Pubkey (pubkey : list Z) : bool :=
  (length pubkey =? 32 + 1)%nat &&
  match pubkey with
  | b0 :: _ => b0 =? 237
  | [] => false
  end.

Section Codec.

(** [btcec.Signature.Serialize] for the pair (R, S). *)
Variable Serialize : Z -> Z -> list Z.

Definition rsvToSig (rsv : string) (isEd : bool) : outcome (list Z) :=
  if isEd then Done (FromHex rsv)
  else
    let '(b, _) := hex.DecodeString rsv in
    b1 ← reslice b 0 32;
    let rx := hex.EncodeToString (elems b1) in
    b2 ← reslice b 32 64;
    let sx := hex.EncodeToString (elems b2) in
    let r := SetString16 rx in
    let s := SetString16 sx in
    r ← deref r;
    s ← deref s;
    Done (Serialize r s).

End Codec.

(** ** Data model *)

Inductive SwapType := ERC20SwapType | OtherSwapType (tag : nat).

Inductive SignType := SignTypeEC256K1 | SignTypeED25519.

Inductive TransactionType := PAYMENT | OtherTransactionType (tag : nat).

Record RippleExtra := mkRippleExtra {
  Currency : string;
  Issuer : string }.

Record TokenConfig := mkTokenConfig {
  Decimals : Z;
  TokenRippleExtra : RippleExtra }.

Record ERC20SwapInfo := mkERC20SwapInfo {
  Token : string;
  TokenID : string }.

(** [AllExtras]: both fields are pointers. *)
Record AllExtras := mkAllExtras {
  Sequence : option Z;
  Fee : option string }.

(** [ToChainID] and [FromChainID] hold the decimal text of the chain IDs,
    which is all the code reads of them. *)
Record BuildTxArgs := mkBuildTxArgs {
  SwapID : string;
  ArgsSwapType : SwapType;
  FromChainID : string;
  ToChainID : string;
  From : string;
  Bind : string;
  OriginFrom : string;
  OriginTxTo : string;
  OriginValue : Z;
  ArgsERC20SwapInfo : ERC20SwapInfo;
  Extra : option AllExtras }.

Definition setExtra (args : BuildTxArgs) (extra : AllExtras) : BuildTxArgs :=
  mkBuildTxArgs (SwapID args) (ArgsSwapType args) (FromChainID args)
    (ToChainID args) (From args) (Bind args) (OriginFrom args)
    (OriginTxTo args) (OriginValue args) (ArgsERC20SwapInfo args) (Some extra).

Record Memo := mkMemo {
  MemoType : list Z;
  MemoData : list Z }.

(** A request to the signing oracle. *)
Record SignCall := mkSignCall {
  callSignType : SignType;
  callPubkey : string;
  callContent : string;
  callContext : string }.

(** A key of the ripple crypto package: the three methods of the
    interface, each taking the optional key sequence. *)
Record Key := mkKey {
  KeyId : option Z -> list Z;
  KeyPublic : option Z -> list Z;
  KeyPrivate : option Z -> list Z }.

Section Pipeline.

(** The value, currency and path-set types of the rubblelabs data
    package. *)
Context {dataValue dataCurrency dataPathSet : Type}.

(** [data.Amount]. *)
Record Amount := mkAmount {
  AmountValue : dataValue;
  AmountCurrency : dataCurrency;
  AmountIssuer : list Z }.

(** [data.Payment] with the fields of its [TxBase]. *)
Record Payment := mkPayment {
  TxType : TransactionType;
  Flags : option Z;
  TxSequence : Z;
  TxFee : option dataValue;
  Account : list Z;
  SigningPubKey : option (list Z);
  TxnSignature : option (list Z);
  Hash : list Z;
  Destination : list Z;
  PaymentAmount : Amount;
  DestinationTag : option Z;
  Memos : list Memo;
  Paths : option dataPathSet }.

(** A value of type [interface{}] handed in as raw transaction. *)
Inductive RawTx :=
| TxPayment (p : Payment)
| TxOther.

(** The router registry and process configuration. *)
Record Registry := mkRegistry {
  IsTestMode : bool;
  ChainID : string;
  GetTokenID : BuildTxArgs -> string;
  GetRouterMPC : string -> string -> result string;
  IsEqualIgnoreCase : string -> string -> bool;
  GetMPCPublicKey : string -> string;
  GetCachedMultichainToken : string -> string -> string;
  GetTokenConfig : string -> option TokenConfig;
  IsValidAddress : string -> bool;
  GetBridgeByChainID : string -> option (string -> option TokenConfig);
  CalcSwapValue : string -> string -> Z -> Z -> Z -> string -> string -> Z;
  HasRouterConfig : bool;
  GetMinReserveFee : string -> option Z;
  AdjustNonce : string -> Z -> Z;
  SignWithPrivateKey : bool;
  GetSignerPrivateKey : string -> string;
  GetExtraArgsJSON : BuildTxArgs -> string }.

(** The ledger RPC client.  [GetBalance] returns a pointer and an
    error, either of which may be nil; [GetAccount] returns the account's
    sequence pointer. *)
Record Ledger := mkLedger {
  GetBalance : string -> option Z * option error;
  GetAccountLine : string -> string -> string -> result dataValue;
  GetAccount : string -> result (option Z) }.

(** The rubblelabs data package and the address helpers. *)
Record DataLib := mkDataLib {
  currencyMap : gmap string dataCurrency;
  issuerMap : gmap string (list Z);
  CurrencyIsNative : dataCurrency -> bool;
  RippleExtraIsNative : RippleExtra -> bool;
  NewAmount : Z -> result Amount;
  NewNativeValue : Z -> result dataValue;
  NewNonNativeValue : Z -> Z -> result dataValue;
  NewValue : string -> bool -> result dataValue;
  ValueString : option dataValue -> string;
  AmountString : Amount -> string;
  ValueCompare : dataValue -> dataValue -> Z;
  AccountString : list Z -> string;
  TxNoDirectRipple : Z;
  TxPartialPayment : Z;
  TxLimitQuality : Z;
  parseAccount : string -> option (list Z);
  parseAmount : string -> option Amount;
  parsePaths : string -> option dataPathSet;
  InitialiseForSigning : Payment -> Payment;
  SigningPrefix : Payment -> list Z;
  SigningHash : Payment -> result (list Z * list Z);
  Raw : Payment -> result (list Z * list Z);
  HashString : list Z -> string;
  ImportPublicKey : list Z -> Key }.

(** The signing oracle, the ripple crypto package, the curve library and
    the text helpers [common.ToHex] and [strings.EqualFold]. *)
Record Signer := mkSigner {
  DoSignOne : SignType -> string -> string -> string -> result (string * list string);
  Verify : list Z -> list Z -> list Z -> list Z -> bool * option error;
  Sign : list Z -> list Z -> list Z -> result (list Z);
  ParseSignature : list Z -> result (Z * Z);
  Serialize : Z -> Z -> list Z;
  HexToECDSA : string -> result Z;
  BigIntBytes : Z -> list Z;
  NewECDSAKeyFromPrivKeyBytes : list Z -> Key;
  ToHex : list Z -> string;
  EqualFold : string -> string -> bool }.

Variable reg : Registry.
Variable rpc : Ledger.
Variable lib : DataLib.
Variable sgn : Signer.

Definition defaultFee : Z := 10.
Definition accountReserve : Z := 10000000.

(** *** buildtx.go *)

Definition getReceiverAndAmount (args : BuildTxArgs) (multichainToken : string)
  : string * option Z * option error :=
  let erc20SwapInfo := ArgsERC20SwapInfo args in
  let receiver := Bind args in
  if bool_decide (receiver = "") || negb (IsValidAddress reg (Bind args))
  then (receiver, None, Some ErrInvalidReceiver)
  else
    match GetBridgeByChainID reg (FromChainID args) with
    | None => (receiver, None, Some ErrNoBridgeForChainID)
    | Some fromBridgeGetTokenConfig =>
        match fromBridgeGetTokenConfig (Token erc20SwapInfo) with
        | None => (receiver, None, Some ErrMissTokenConfig)
        | Some fromTokenCfg =>
            match GetTokenConfig reg multichainToken with
            | None => (receiver, None, Some ErrMissTokenConfig)
            | Some toTokenCfg =>
                let amount :=
                  CalcSwapValue reg (TokenID erc20SwapInfo) (ChainID reg)
                    (OriginValue args) (Decimals fromTokenCfg)
                    (Decimals toTokenCfg) (OriginFrom args) (OriginTxTo args) in
                (receiver, Some amount, None)
            end
        end
    end.

Definition getPaymentAmount (amount : Z) (token : TokenConfig) : result Amount :=
  match currencyMap lib !! Currency (TokenRippleExtra token) with
  | None => Err (ErrNonExistCurrency (Currency (TokenRippleExtra token)))
  | Some currency =>
      if negb (IsInt64 amount) then Err (ErrAmountOverflow amount)
      else if CurrencyIsNative lib currency then NewAmount lib (Int64 amount)
      else
        match issuerMap lib !! Issuer (TokenRippleExtra token) with
        | None => Err (ErrNonExistIssuer (Issuer (TokenRippleExtra token)))
        | Some issuer =>
            match NewNonNativeValue lib (Int64 amount) (- int64 (Decimals token)) with
            | Err err => Err err
            | Ok value => Ok (mkAmount value currency issuer)
            end
        end
  end.

Definition getMinReserveFee : Z :=
  if negb (HasRouterConfig reg) then 0
  else
    match GetMinReserveFee reg (ChainID reg) with
    | None => 100000
    | Some minReserve => minReserve
    end.

Definition GetPoolNonce (address : string) : result Z :=
  match GetAccount rpc address with
  | Err err => Err (ErrCannotGetAccount err)
  | Ok seq =>
      let nonce := match seq with Some s => s | None => 0 end in
      Ok (uint64 nonce)
  end.

(** [GetSeq] returns a pointer and an error; the pointer is nil exactly
    when the error is not. *)
Definition GetSeq (args : BuildTxArgs) : option Z * option error :=
  match GetPoolNonce (From args) with
  | Err err => (None, Some err)
  | Ok nonceVal => (Some (AdjustNonce reg (From args) nonceVal), None)
  end.

Definition swapoutDefaultArgs (txargs : BuildTxArgs) (multichainToken : string)
  : outcome AllExtras :=
  let args := mkAllExtras (Some 0) (Some "") in
  match GetTokenConfig reg multichainToken with
  | None => Done args
  | Some token =>
      let '(seq, err) := GetSeq txargs in
      seqv ← deref seq;
      let args := mkAllExtras (Some seqv) (Fee args) in
      let fee := defaultFee in
      let fei := match NewNativeValue lib fee with Ok v => Some v | Err _ => None end in
      let args := mkAllExtras (Sequence args) (Some (ValueString lib fei)) in
      Done args
  end.

Definition checkNativeBalance (account : string) (amount : option Z) (isPay : bool)
  : outcome (option error) :=
  let '(balance, err) := GetBalance rpc account in
  let balance :=
    match err, balance with
    | Some _, None => Some 0
    | _, _ => balance
    end in
  remain ←
    match amount with
    | Some amount =>
        balance ← deref balance;
        if isPay then Done (balance - amount) else Done (balance + amount)
    | None => deref balance
    end;
  if remain <? accountReserve then
    if isPay then Done (Some (ErrInsufficientNativeSender account))
    else Done (Some (ErrInsufficientNativeReceiver account))
  else Done None.

Definition checkNonNativeBalance (currency issuer account : string) (amount : Amount)
  : option error :=
  match GetAccountLine rpc currency issuer account with
  | Err err => Some err
  | Ok balance =>
      if ValueCompare lib balance (AmountValue amount) <? 0
      then Some (ErrInsufficientIssued currency issuer account)
      else None
  end.

Definition withSigningPubKey (p : Payment) (k : option (list Z)) : Payment :=
  mkPayment (TxType p) (Flags p) (TxSequence p) (TxFee p) (Account p) k
    (TxnSignature p) (Hash p) (Destination p) (PaymentAmount p)
    (DestinationTag p) (Memos p) (Paths p).

Definition withSignature (p : Payment) (sig : list Z) : Payment :=
  mkPayment (TxType p) (Flags p) (TxSequence p) (TxFee p) (Account p)
    (SigningPubKey p) (Some sig) (Hash p) (Destination p) (PaymentAmount p)
    (DestinationTag p) (Memos p) (Paths p).

Definition withHash (p : Payment) (h : list Z) : Payment :=
  mkPayment (TxType p) (Flags p) (TxSequence p) (TxFee p) (Account p)
    (SigningPubKey p) (TxnSignature p) h (Destination p) (PaymentAmount p)
    (DestinationTag p) (Memos p) (Paths p).

(** The returned triple is (transaction or nil, signing hash, message). *)
Definition NewUnsignedPaymentTransaction
    (key : Key) (keyseq : option Z) (txseq : Z) (dest : string)
    (destinationTag : option Z) (amt fee memo path : string)
    (nodirect partial limit : bool)
  : outcome (option Payment * list Z * list Z) :=
  let destination := parseAccount lib dest in
  let amount := parseAmount lib amt in
  destination ← deref destination;
  amount ← deref amount;
  let memos :=
    if bool_decide (memo = "") then []
    else [mkMemo (bytesOfString "BIND") (bytesOfString memo)] in
  let paths := if bool_decide (path = "") then None else parsePaths lib path in
  let flags := 0 in
  let flags := if nodirect then Z.lor flags (TxNoDirectRipple lib) else flags in
  let flags := if partial then Z.lor flags (TxPartialPayment lib) else flags in
  let flags := if limit then Z.lor flags (TxLimitQuality lib) else flags in
  match NewValue lib fee true with
  | Err _ => Done (None, replicate 32 0, [])
  | Ok fei =>
      let account := copy (replicate 20 0) (KeyId key keyseq) in
      let payment :=
        mkPayment PAYMENT (Some flags) txseq (Some fei) account None None
          (replicate 32 0) destination amount destinationTag memos paths in
      let payment := InitialiseForSigning lib payment in
      let payment :=
        withSigningPubKey payment
          ((fun pk => copy pk (KeyPublic key keyseq)) <$> SigningPubKey payment) in
      match SigningHash lib payment with
      | Err _ => Done (None, replicate 32 0, [])
      | Ok (hash, msg) => Done (Some payment, hash, msg)
      end
  end.

(** [BuildRawTransaction] returns the request (whose [Extra] slot it may
    fill), the raw transaction or nil, and the error or nil. *)
Definition BuildRawTransaction (args : BuildTxArgs)
  : outcome (BuildTxArgs * option Payment * option error) :=
  let fail (a : BuildTxArgs) (e : error) := Done (a, None, Some e) in
  if negb (IsTestMode reg) && negb (bool_decide (ToChainID args = ChainID reg))
  then fail args ErrToChainIDMismatch
  else if bool_decide (From args = "") then fail args ErrForbidEmptySender
  else
  match GetRouterMPC reg (GetTokenID reg args) (ChainID reg) with
  | Err err => fail args err
  | Ok routerMPC =>
  if negb (IsEqualIgnoreCase reg (From args) routerMPC)
  then fail args ErrSenderMismatch
  else
  match ArgsSwapType args with
  | OtherSwapType _ => fail args ErrSwapTypeNotSupported
  | ERC20SwapType =>
  let mpcPubkey := GetMPCPublicKey reg (From args) in
  if bool_decide (mpcPubkey = "") then fail args ErrMissMPCPublicKey
  else
  let erc20SwapInfo := ArgsERC20SwapInfo args in
  let multichainToken :=
    GetCachedMultichainToken reg (TokenID erc20SwapInfo) (ToChainID args) in
  if bool_decide (multichainToken = "") then fail args ErrMissTokenConfig
  else
  match GetTokenConfig reg multichainToken with
  | None => fail args ErrMissTokenConfig
  | Some token =>
  match getReceiverAndAmount args multichainToken with
  | (_, _, Some err) => fail args err
  | (receiver, amount, None) =>
  let toTag : option Z := None in
  st ←
    match Extra args with
    | None =>
        extra ← swapoutDefaultArgs args multichainToken;
        sequence ← deref (Sequence extra);
        fee ← deref (Fee extra);
        Done (setExtra args extra, sequence, fee)
    | Some extra =>
        let sequence := match Sequence extra with Some s => s | None => 0 end in
        let fee := match Fee extra with Some f => f | None => "" end in
        Done (args, sequence, fee)
    end;
  let '(args, sequence, fee) := st in
  amount ← deref amount;
  match getPaymentAmount amount token with
  | Err err => fail args err
  | Ok amt =>
  checked ←
    (if RippleExtraIsNative lib (TokenRippleExtra token) then
       let needAmount := amount + getMinReserveFee in
       err ← checkNativeBalance (From args) (Some needAmount) true;
       match err with
       | Some err => Done (Some err)
       | None => checkNativeBalance receiver (Some amount) false
       end
     else
       err ← checkNativeBalance receiver None false;
       match err with
       | Some err => Done (Some err)
       | None =>
           Done (checkNonNativeBalance (Currency (TokenRippleExtra token))
                   (Issuer (TokenRippleExtra token)) (From args) amt)
       end);
  match checked with
  | Some err => fail args err
  | None =>
      let err : option error := None in
      let ripplePubKey := ImportPublicKey lib (FromHex mpcPubkey) in
      built ←
        NewUnsignedPaymentTransaction ripplePubKey None (uint32 sequence)
          receiver toTag (AmountString lib amt) fee "" "" false false false;
      let '(rawtx, _, _) := built in
      Done (args, rawtx, err)
  end
  end
  end
  end
  end
  end.

(** *** signtx.go *)

Definition verifyTransactionWithArgs (tx : Payment) (args : BuildTxArgs)
  : option error :=
  match TxType tx with
  | OtherTransactionType _ => Some ErrNotPaymentTransaction
  | PAYMENT =>
      let to := AccountString lib (Destination tx) in
      let checkReceiver := Bind args in
      if negb (EqualFold sgn to checkReceiver) then Some ErrVerifyReceiver
      else None
  end.

(** The transaction is changed in place; the model returns the changed
    transaction. *)
Definition MakeSignedTransaction (pubkey : list Z) (rsv : string) (transaction : RawTx)
  : outcome (option Payment * option error) :=
  sig ← rsvToSig (Serialize sgn) rsv (isEd25519Pubkey pubkey);
  match transaction with
  | TxOther => Done (None, Some ErrNotPaymentAssertion)
  | TxPayment tx =>
      _ ← deref (TxnSignature tx);
      let tx := withSignature tx sig in
      match Raw lib tx with
      | Err err => Done (None, Some err)
      | Ok (hash, _) =>
          let tx := withHash tx (copy (Hash tx) hash) in
          Done (Some tx, None)
      end
  end.

Definition SignTransactionWithRippleKey (rawTx : RawTx) (key : Key) (keyseq : option Z)
  : outcome (option Payment * string * option error) :=
  match rawTx with
  | TxOther => Done (None, "", Some ErrSignTypeAssertion)
  | TxPayment tx =>
      match SigningHash lib tx with
      | Err err => Done (None, "", Some err)
      | Ok (msgHash, msg) =>
          let msg := SigningPrefix lib tx ++ msg in
          match Sign sgn (KeyPrivate key keyseq) msgHash msg with
          | Err err => Done (None, "", Some (ErrSignHash err))
          | Ok sig =>
              let pubkey := KeyPublic key keyseq in
              let '(valid, err) := Verify sgn pubkey msgHash msg sig in
              if negb valid || bool_decide (err <> None)
              then Done (None, "", Some (ErrVerifySignature valid err))
              else
                let rsv :=
                  if isEd25519Pubkey pubkey then Ok (Sprintf_X sig)
                  else
                    match ParseSignature sgn sig with
                    | Err errf => Err (ErrParseSignature errf)
                    | Ok (r, s) => Ok (Sprintf_064X_064X_00 r s)
                    end in
                match rsv with
                | Err e => Done (None, "", Some e)
                | Ok rsv =>
                    made ← MakeSignedTransaction pubkey rsv (TxPayment tx);
                    match made with
                    | (Some stx, None) => Done (Some stx, HashString lib (Hash stx), None)
                    | (_, Some err) => Done (None, "", Some err)
                    | (None, None) => Done (None, HashString lib (Hash tx), None)
                    end
                end
          end
      end
  end.

Definition SignTransactionWithPrivateKey (rawTx : RawTx) (privKeyD : Z)
  : outcome (option Payment * string * option error) :=
  SignTransactionWithRippleKey rawTx
    (NewECDSAKeyFromPrivKeyBytes sgn (BigIntBytes sgn privKeyD)) None.

(** [MPCSignTransaction] returns, next to its results, the requests it
    sent to the signing oracle. *)
Definition MPCSignTransaction (rawTx : RawTx) (args : BuildTxArgs)
  : list SignCall * outcome (option Payment * string * option error) :=
  match rawTx with
  | TxOther => ([], Done (None, "", Some ErrNotPaymentAssertion))
  | TxPayment tx =>
  match verifyTransactionWithArgs tx args with
  | Some err => ([], Done (None, "", Some err))
  | None =>
  if SignWithPrivateKey reg then
    let privKey := GetSignerPrivateKey reg (ChainID reg) in
    match HexToECDSA sgn privKey with
    | Err errf => ([], Done (None, "", Some errf))
    | Ok ecPrikey => ([], SignTransactionWithPrivateKey rawTx ecPrikey)
    end
  else
  let msgContext := GetExtraArgsJSON reg args in
  match SigningHash lib tx with
  | Err err => ([], Done (None, "", Some (ErrSigningHashFailed err)))
  | Ok (msgHash, msg) =>
  let msg := SigningPrefix lib tx ++ msg in
  let pubkeyStr := GetMPCPublicKey reg (From args) in
  let pubkey := FromHex pubkeyStr in
  let isEd := isEd25519Pubkey pubkey in
  let request : outcome SignCall :=
    if isEd then
      pubkeyStr ← strFrom 2 pubkeyStr;
      Done (mkSignCall SignTypeEC256K1 pubkeyStr (ToHex sgn msg) msgContext)
    else
      Done (mkSignCall SignTypeED25519 pubkeyStr (HashString lib msgHash) msgContext) in
  match request with
  | Panic => ([], Panic)
  | Done call =>
  ([call],
   match DoSignOne sgn (callSignType call) (callPubkey call) (callContent call)
           (callContext call) with
   | Err err => Done (None, "", Some err)
   | Ok (keyID, rsvs) =>
       if negb (length rsvs =? 1)%nat
       then Done (None, "", Some (ErrRequireOneRsv (length rsvs) keyID))
       else
         rsv ← deref (head rsvs);
         sig ← rsvToSig (Serialize sgn) rsv isEd;
         let '(valid, err) := Verify sgn pubkey msgHash msg sig in
         if negb valid || bool_decide (err <> None)
         then Done (None, "", Some (ErrVerifySignature valid err))
         else
           made ← MakeSignedTransaction pubkey rsv rawTx;
           match made with
           | (signedTx, Some err) => Done (signedTx, "", Some err)
           | (Some signedTx, None) =>
               Done (Some signedTx, HashString lib (Hash signedTx), None)
           | (None, None) => Panic
           end
   end)
  end
  end
  end
  end.

End Pipeline.

(** * Specification vocabulary *)

Definition isDigit (d : Z) : Prop := 0 <= d < 16.
Definition isByte (v : Z) : Prop := 0 <= v < 256.

(** Two hexadecimal digits per byte, most significant first. *)
Fixpoint pack (ds : list Z) : list Z :=
  match ds with
  | a :: b :: rest => Z.lor (Z.shiftl a 4) b :: pack rest
  | _ => []
  end.

Definition hexValue (ds : list Z) : Z :=
  fold_left (fun acc d => 16 * acc + d) ds 0.

Section Statements.

Context {dataValue dataCurrency dataPathSet : Type}.
Variable reg : Registry.
Variable rpc : @Ledger dataValue.
Variable lib : @DataLib dataValue dataCurrency dataPathSet.

(** The native balance [checkNativeBalance] works with: the fetched one,
    or zero when the fetch failed without a balance. *)
Definition nativeBalance (account : string) : option Z :=
  match GetBalance rpc account with
  | (Some balance, _) => Some balance
  | (None, Some _) => Some 0
  | (None, None) => None
  end.

(** The request passes every check of [BuildRawTransaction] that comes
    before the [Extra] slot is read, and resolves to [token], [receiver]
    and [amount]. *)
Definition preflightOk (args : BuildTxArgs) (token : TokenConfig)
    (receiver : string) (amount : Z) : Prop :=
  let multichainToken :=
    GetCachedMultichainToken reg (TokenID (ArgsERC20SwapInfo args)) (ToChainID args) in
  (IsTestMode reg = true \/ ToChainID args = ChainID reg) /\
  From args <> "" /\
  (exists routerMPC,
     GetRouterMPC reg (GetTokenID reg args) (ChainID reg) = Ok routerMPC /\
     IsEqualIgnoreCase reg (From args) routerMPC = true) /\
  ArgsSwapType args = ERC20SwapType /\
  GetMPCPublicKey reg (From args) <> "" /\
  multichainToken <> "" /\
  GetTokenConfig reg multichainToken = Some token /\
  getReceiverAndAmount reg args multichainToken = (receiver, Some amount, None).

(** The [Extra] slot is given by the caller, or the sender's account can
    be fetched for the default one. *)
Definition extraOk (args : BuildTxArgs) : Prop :=
  is_Some (Extra args) \/ exists seq, GetAccount rpc (From args) = Ok seq.

(** Every balance check of [BuildRawTransaction] passes. *)
Definition solvent (args : BuildTxArgs) (token : TokenConfig)
    (receiver : string) (amount : Z) (amt : Amount) : Prop :=
  if RippleExtraIsNative lib (TokenRippleExtra token) then
    checkNativeBalance rpc (From args) (Some (amount + getMinReserveFee reg)) true = Done None /\
    checkNativeBalance rpc receiver (Some amount) false = Done None
  else
    checkNativeBalance rpc receiver None false = Done None /\
    checkNonNativeBalance rpc lib (Currency (TokenRippleExtra token))
      (Issuer (TokenRippleExtra token)) (From args) amt = None.

End Statements.

(** * A small ledger for the examples

    Values are integers, currencies are their codes. *)

Module Demo.

Definition xrp : TokenConfig := mkTokenConfig 6 (mkRippleExtra "XRP" "").
Definition usd : TokenConfig := mkTokenConfig 2 (mkRippleExtra "USD" "rIssuer").

Definition edPubkeyHex : string :=
  "ED0102030405060708090A0B0C0D0E0F101112131415161718191A1B1C1D1E1F20".
Definition ecPubkeyHex : string :=
  "020102030405060708090A0B0C0D0E0F101112131415161718191A1B1C1D1E1F20".

Definition registry (token : TokenConfig) (pubkeyHex : string) (local : bool) : Registry :=
  mkRegistry false "ripple" (fun a => TokenID (ArgsERC20SwapInfo a))
    (fun _ _ => Ok "rRouter") String.eqb (fun _ => pubkeyHex)
    (fun _ _ => "xrp-token") (fun _ => Some token) (fun _ => true)
    (fun _ => Some (fun _ => Some token)) (fun _ _ v _ _ _ _ => v)
    true (fun _ => None) (fun _ n => n) local (fun _ => "") (fun _ => "{}").

Definition ledger (sender receiver line : Z) (account : result (option Z)) : @Ledger Z :=
  mkLedger
    (fun a => if String.eqb a "rRouter" then (Some sender, None) else (Some receiver, None))
    (fun _ _ _ => Ok line)
    (fun _ => account).

Definition key : Key := mkKey (fun _ => [1; 2; 3]) (fun _ => [2; 1]) (fun _ => [9]).

Definition lib : @DataLib Z string unit :=
  mkDataLib
    {[ "XRP" := "XRP"; "USD" := "USD" ]}
    {[ "rIssuer" := [7] ]}
    (String.eqb "XRP")
    (fun r => String.eqb (Currency r) "XRP")
    (fun n => Ok (mkAmount n "XRP" []))
    (fun n => Ok n)
    (fun n _ => Ok n)
    (fun s _ => if String.eqb s "10" then Ok 10 else Err (ErrExternal "invalid value"))
    (fun _ => "10")
    (fun _ => "1")
    (fun a b => a - b)
    (fun _ => "rReceiver")
    65536 131072 262144
    (fun _ => Some [5])
    (fun _ => Some (mkAmount 1 "XRP" []))
    (fun _ => None)
    (fun p => p)
    (fun _ => [83; 84; 88; 0])
    (fun _ => Ok ([1; 1], [2; 2]))
    (fun _ => Ok ([3; 3], [4; 4]))
    (fun _ => "HASH")
    (fun _ => key).

Definition signer (answer : result (string * list string)) (valid : bool) : Signer :=
  mkSigner (fun _ _ _ _ => answer) (fun _ _ _ _ => (valid, None))
    (fun _ _ _ => Ok [1; 2; 3]) (fun _ => Ok (1, 2))
    (fun r s => [r; s]) (fun _ => Ok 1) (fun _ => [1]) (fun _ => key)
    (fun _ => "HEX") String.eqb.

Definition args (extra : option AllExtras) : BuildTxArgs :=
  mkBuildTxArgs "swap-1" ERC20SwapType "56" "ripple" "rRouter" "rReceiver"
    "0xfrom" "0xto" 15000000 (mkERC20SwapInfo "0xtoken" "XRP") extra.

Definition payment : @Payment Z string unit :=
  mkPayment PAYMENT (Some 0) 1 (Some 10) [1] (Some [2]) (Some []) [0]
    [5] (mkAmount 1 "XRP" []) None [] None.

End Demo.

(** * The Cosmos chain registry (tokens/cosmos/init.go)

    [strings.ToUpper], [big.Int.String] and the constant
    [tokens.StubChainIDBase] are parameters.  The package variables
    [supportedChainIDs] and [supportedChainIDsInit] are the [state] that
    [SupportsChainID] threads. *)

Module cosmos.

(** A call returns, ends the process in [log.Fatalf], or panics. *)
Inductive run (A : Type) : Type :=
| Returns (a : A)
| Fatalf (network : string)
| Panics.
Arguments Returns {A} a.
Arguments Fatalf {A} network.
Arguments Panics {A}.

#[global] Instance run_ret : MRet run := fun A a => Returns a.

#[global] Instance run_bind : MBind run := fun A B k m =>
  match m with
  | Returns a => k a
  | Fatalf n => Fatalf n
  | Panics => Panics
  end.

Definition ChainsList : list string := ["COSMOSHUB"; "OSMOSIS"; "COREUM"; "SEI"].

Definition mainnetNetWork : string := "mainnet".
Definition testnetNetWork : string := "testnet".
Definition devnetNetWork : string := "devnet".

(** [big.Int.SetBytes]: the bytes as a big-endian natural number. *)
Definition SetBytes (b : list Z) : Z := fold_left (fun acc v => 256 * acc + v) b 0.

(** [big.Int.Mod]: Euclidean modulus, a panic for the modulus zero. *)
Definition Mod (x m : Z) : run Z :=
  if m =? 0 then Panics else Returns (x mod Z.abs m).

Record state := mkState {
  supportedChainIDs : gmap string bool;
  supportedChainIDsInit : bool }.

(** The package variables when the program starts. *)
Definition initialState : state := mkState ∅ false.

(** The three network names [GetStubChainID] knows. *)
Definition knownNetwork (network : string) : Prop :=
  network = mainnetNetWork \/ network = testnetNetWork \/ network = devnetNetWork.

(** The offset [GetStubChainID] adds for a network. *)
Definition networkOffset (network : string) : Z :=
  if bool_decide (network = testnetNetWork) then 1
  else if bool_decide (network = devnetNetWork) then 2
  else 0.

Section Registry.

Variable ToUpper : string -> string.
Variable BigString : Z -> string.
Variable StubChainIDBase : Z.

Definition GetStubChainID (chainName network : string) : run Z :=
  let chainName := ToUpper chainName in
  let stubChainID := SetBytes (bytesOfString chainName) in
  stubChainID ←
    (if bool_decide (network = mainnetNetWork) then Returns stubChainID
     else if bool_decide (network = testnetNetWork) then Returns (stubChainID + 1)
     else if bool_decide (network = devnetNetWork) then Returns (stubChainID + 2)
     else Fatalf network);
  stubChainID ← Mod stubChainID StubChainIDBase;
  Returns (stubChainID + StubChainIDBase).

(** The loop inside [supportedChainIDsInit.Do]. *)
Fixpoint registerChains (chains : list string) (m : gmap string bool)
  : run (gmap string bool) :=
  match chains with
  | [] => Returns m
  | chainName :: rest =>
      id ← GetStubChainID chainName mainnetNetWork;
      let m := <[BigString id := true]> m in
      id ← GetStubChainID chainName testnetNetWork;
      let m := <[BigString id := true]> m in
      id ← GetStubChainID chainName devnetNetWork;
      let m := <[BigString id := true]> m in
      registerChains rest m
  end.

Definition SupportsChainID (st : state) (chainID : Z) : run (bool * state) :=
  st ←
    (if supportedChainIDsInit st then Returns st
     else
       m ← registerChains ChainsList (supportedChainIDs st);
       Returns (mkState m true));
  Returns (default false (supportedChainIDs st !! BigString chainID), st).

(** The loop of [IsSupportedCosmosSubChain], which stops at the first
    match. *)
Fixpoint matchChain (chains : list string) (chainName : string) : bool :=
  match chains with
  | [] => false
  | chain :: rest =>
      if bool_decide (chain = chainName) then true else matchChain rest chainName
  end.

Definition IsSupportedCosmosSubChain (chainName : string) : bool :=
  let chainName := ToUpper chainName in
  matchChain ChainsList chainName.

(** The keys [registerChains] writes for a list of chains. *)
Definition registered (chains : list string) (key : string) : Prop :=
  exists chain network id,
    In chain chains /\ knownNetwork network /\
    GetStubChainID chain network = Returns id /\
    key = BigString id.

End Registry.

(** Upper-casing of the ASCII letters, for the examples. *)
Definition asciiUpper (s : string) : string :=
  string_of_list_ascii
    ((fun c =>
        let n := N_of_ascii c in
        if ((97 <=? n) && (n <=? 122))%N then ascii_of_N (n - 32) else c)
       <$> list_ascii_of_string s).

(** The decimal text of an integer, for the examples. *)
Definition decimal (z : Z) : string := NilEmpty.string_of_int (Z.to_int z).

End cosmos.

(** The bytes as a big-endian natural number. *)
Definition beValue (bs : list Z) : Z := fold_left (fun acc v => 256 * acc + v) bs 0.

(** How the request comes back from [BuildRawTransaction]: as it was when
    it carried an [Extra], and else with an [Extra] whose sequence and fee
    are set. *)
Definition extraKept (args args' : BuildTxArgs) : Prop :=
  match Extra args with
  | Some _ => args' = args
  | None => exists sequence fee,
      args' = setExtra args (mkAllExtras (Some sequence) (Some fee))
  end.

(** Two payments that differ at most in signature and hash. *)
Definition sameBody {dataValue dataCurrency dataPathSet : Type}
    (p q : @Payment dataValue dataCurrency dataPathSet) : Prop :=
  TxType p = TxType q /\ Flags p = Flags q /\ TxSequence p = TxSequence q /\
  TxFee p = TxFee q /\ Account p = Account q /\ SigningPubKey p = SigningPubKey q /\
  Destination p = Destination q /\ PaymentAmount p = PaymentAmount q /\
  DestinationTag p = DestinationTag q /\ Memos p = Memos q /\ Paths p = Paths q.

(** * Verification *)

(** ** Hexadecimal digits *)


Ltac enum16 n :=
  do 16 (destruct n as [|n]; [vm_compute; reflexivity|]).

Lemma fromHexChar_upperDigit d : isDigit d -> hex.fromHexChar (hex.upperDigit d) = Some d.
Proof.
  intros Hd. rewrite <- (Z2Nat.id d) at 2 by (unfold isDigit in Hd; lia).
  unfold hex.upperDigit.
  assert (Hn : (Z.to_nat d < 16)%nat) by (unfold isDigit in Hd; lia).
  revert Hn. generalize (Z.to_nat d) as n. intros n Hn.
  enum16 n. lia.
Qed.

Lemma fromHexChar_lowerDigit d : isDigit d -> hex.fromHexChar (hex.lowerDigit d) = Some d.
Proof.
  intros Hd. rewrite <- (Z2Nat.id d) at 2 by (unfold isDigit in Hd; lia).
  unfold hex.lowerDigit.
  assert (Hn : (Z.to_nat d < 16)%nat) by (unfold isDigit in Hd; lia).
  revert Hn. generalize (Z.to_nat d) as n. intros n Hn.
  enum16 n. lia.
Qed.

Lemma shiftr4_div v : Z.shiftr v 4 = v / 16.
Proof. rewrite Z.shiftr_div_pow2 by lia. reflexivity. Qed.

Lemma land15_mod v : Z.land v 15 = v mod 16.
Proof. change 15 with (Z.ones 4). rewrite Z.land_ones by lia. reflexivity. Qed.

Lemma byte_hi_digit v : isByte v -> isDigit (Z.shiftr v 4).
Proof.
  unfold isByte, isDigit. intros Hv. rewrite shiftr4_div.
  split; [apply Z.div_pos; lia | apply Z.div_lt_upper_bound; lia].
Qed.

Lemma byte_lo_digit v : isDigit (Z.land v 15).
Proof. unfold isDigit. rewrite land15_mod. apply Z.mod_pos_bound. lia. Qed.

(** Packing two digits into a byte, as the decode loop does. *)
Lemma pack_digits a b : isDigit a -> isDigit b -> Z.lor (Z.shiftl a 4) b = 16 * a + b.
Proof.
  unfold isDigit. intros Ha Hb.
  rewrite Z.shiftl_mul_pow2 by lia. change (2 ^ 4) with 16.
  assert (Hl : Z.land (a * 16) b = 0).
  { apply Z.bits_inj'. intros n Hn. rewrite Z.land_spec, Z.bits_0.
    destruct (Z.lt_ge_cases n 4) as [Hlt|Hge].
    - replace (a * 16) with (a * 2 ^ 4) by lia.
      rewrite Z.mul_pow2_bits_low by lia. reflexivity.
    - rewrite (Z.bits_above_log2 b n), andb_false_r; [reflexivity|lia|].
      destruct (Z.eq_dec b 0) as [->|]; [simpl; lia|].
      assert (Z.log2 b < 4) by (apply Z.log2_lt_pow2; lia). lia. }
  pose proof (Z.add_lor_land (a * 16) b). lia.
Qed.

Lemma pack_byte v : isByte v -> Z.lor (Z.shiftl (Z.shiftr v 4) 4) (Z.land v 15) = v.
Proof.
  intros Hv. rewrite pack_digits by auto using byte_hi_digit, byte_lo_digit.
  rewrite shiftr4_div, land15_mod. symmetry. apply Z.div_mod. lia.
Qed.

Lemma pair_ind {A} (P : list A -> Prop) :
  P [] -> (forall x, P [x]) -> (forall x y l, P l -> P (x :: y :: l)) ->
  forall l, P l.
Proof.
  intros H0 H1 H2.
  assert (H : forall l, P l /\ forall x, P (x :: l)).
  { induction l as [|y l [IH1 IH2]]; split; auto. }
  intros l. apply H.
Qed.

Lemma decode_upper ds :
  Forall isDigit ds -> Nat.even (length ds) = true ->
  hex.decode (hex.upperDigit <$> ds) = (pack ds, None).
Proof.
  induction ds as [|x|x y l IH] using pair_ind; intros Hd He.
  - reflexivity.
  - discriminate.
  - inversion Hd as [|? ? Hx Hd']; subst. inversion Hd' as [|? ? Hy Hl]; subst.
    cbn [fmap list_fmap hex.decode pack].
    change (list_fmap _ _ hex.upperDigit l) with (hex.upperDigit <$> l).
    rewrite !fromHexChar_upperDigit by assumption.
    rewrite IH by assumption. reflexivity.
Qed.

Lemma encode_pack ds :
  Forall isDigit ds -> Nat.even (length ds) = true ->
  hex.encode (pack ds) = hex.lowerDigit <$> ds.
Proof.
  induction ds as [|x|x y l IH] using pair_ind; intros Hd He.
  - reflexivity.
  - discriminate.
  - inversion Hd as [|? ? Hx Hd']; subst. inversion Hd' as [|? ? Hy Hl]; subst.
    cbn [fmap list_fmap hex.encode pack].
    change (list_fmap _ _ hex.lowerDigit l) with (hex.lowerDigit <$> l).
    rewrite IH by assumption.
    rewrite pack_digits, shiftr4_div, land15_mod by assumption.
    unfold isDigit in Hx, Hy.
    replace ((16 * x + y) / 16) with x by (apply Z.div_unique with y; lia).
    replace ((16 * x + y) mod 16) with y by (apply Z.mod_unique with x; lia).
    reflexivity.
Qed.

Lemma pack_app ds es :
  Nat.even (length ds) = true -> pack (ds ++ es) = pack ds ++ pack es.
Proof.
  induction ds as [|x|x y l IH] using pair_ind; intros He.
  - reflexivity.
  - discriminate.
  - cbn [app pack]. rewrite IH by assumption. reflexivity.
Qed.

Lemma length_pack ds :
  Nat.even (length ds) = true -> (2 * length (pack ds) = length ds)%nat.
Proof.
  induction ds as [|x|x y l IH] using pair_ind; intros He.
  - reflexivity.
  - discriminate.
  - cbn [length pack]. specialize (IH He). lia.
Qed.

Lemma scanDigits_lower ds acc :
  Forall isDigit ds ->
  scanDigits acc (hex.lowerDigit <$> ds) = Some (fold_left (fun a d => 16 * a + d) ds acc).
Proof.
  intros Hd. revert acc. induction Hd as [|d l Hx Hl IH]; intros acc.
  - reflexivity.
  - cbn [fmap list_fmap scanDigits fold_left].
    rewrite fromHexChar_lowerDigit by assumption. apply IH.
Qed.

Lemma length_digitsFixed n z : length (digitsFixed n z) = n.
Proof.
  revert z. induction n as [|n IH]; intros z; [reflexivity|].
  cbn [digitsFixed]. rewrite length_app, IH. simpl. lia.
Qed.

Lemma Forall_digitsFixed n z : Forall isDigit (digitsFixed n z).
Proof.
  revert z. induction n as [|n IH]; intros z; [constructor|].
  cbn [digitsFixed]. apply Forall_app. split; [apply IH|].
  constructor; [|constructor]. unfold isDigit. apply Z.mod_pos_bound. lia.
Qed.

Lemma hexValue_digitsFixed n z : hexValue (digitsFixed n z) = z mod 16 ^ Z.of_nat n.
Proof.
  unfold hexValue. revert z. induction n as [|n IH]; intros z.
  - simpl. rewrite Z.mod_1_r. reflexivity.
  - cbn [digitsFixed]. rewrite fold_left_app, IH. cbn [fold_left].
    rewrite Nat2Z.inj_succ, Z.pow_succ_r by lia.
    rewrite Z.rem_mul_r by lia. lia.
Qed.

Lemma digitsFixed_zero k : digitsFixed k 0 = replicate k 0.
Proof.
  induction k as [|k IH]; [reflexivity|].
  cbn [digitsFixed]. rewrite Zdiv_0_l, Zmod_0_l, IH.
  change [0] with (replicate 1 0). rewrite <- replicate_add.
  f_equal. lia.
Qed.

(** Leading zeros: more digits than needed only add zeros in front. *)
Lemma digitsFixed_pad n k z :
  0 <= z < 16 ^ Z.of_nat n ->
  digitsFixed (k + n) z = replicate k 0 ++ digitsFixed n z.
Proof.
  revert z. induction n as [|n IH]; intros z Hz.
  - simpl in Hz. assert (z = 0) by lia. subst z.
    rewrite Nat.add_0_r, digitsFixed_zero. simpl. rewrite app_nil_r. reflexivity.
  - rewrite Nat.add_succ_r. cbn [digitsFixed].
    rewrite IH, app_assoc; [reflexivity|].
    rewrite Nat2Z.inj_succ, Z.pow_succ_r in Hz by lia.
    split; [apply Z.div_pos; lia | apply Z.div_lt_upper_bound; lia].
Qed.

Lemma hexLen_bound z n :
  0 <= z < 16 ^ Z.of_nat n -> (0 < n)%nat -> (hexLen z <= n)%nat.
Proof.
  intros Hz Hn. unfold hexLen. destruct (Z.eqb_spec z 0) as [->|Hne]; [lia|].
  assert (Hlog : Z.log2 z < 4 * Z.of_nat n).
  { apply Z.log2_lt_pow2; [lia|].
    rewrite Z.pow_mul_r by lia. exact (proj2 Hz). }
  assert (Z.log2 z / 4 < Z.of_nat n) by (apply Z.div_lt_upper_bound; lia).
  assert (0 <= Z.log2 z / 4) by (apply Z.div_pos; [apply Z.log2_nonneg|lia]).
  lia.
Qed.

Lemma hexLen_enough z : 0 <= z -> z < 16 ^ Z.of_nat (hexLen z).
Proof.
  intros Hz. unfold hexLen. destruct (Z.eqb_spec z 0) as [->|Hne]; [reflexivity|].
  assert (Hq : 0 <= Z.log2 z / 4) by (apply Z.div_pos; [apply Z.log2_nonneg|lia]).
  rewrite Nat2Z.inj_succ, Z2Nat.id by assumption.
  change 16 with (2 ^ 4). rewrite <- Z.pow_mul_r by lia.
  apply Z.log2_lt_pow2; [lia|].
  pose proof (Z.mul_succ_div_gt (Z.log2 z) 4). lia.
Qed.

Lemma fmt064X_fixed z :
  0 <= z < 2 ^ 256 -> fmt064X z = hex.upperDigit <$> digitsFixed 64 z.
Proof.
  intros Hz. unfold fmt064X, utoa16.
  destruct (Z.ltb_spec z 0) as [?|_]; [lia|].
  rewrite Z.abs_eq by lia. cbn [app length]. rewrite length_digitsFixed.
  assert (Hle : (hexLen z <= 64)%nat) by (apply hexLen_bound; [exact Hz|lia]).
  replace 64%nat with ((64 - hexLen z) + hexLen z)%nat at 2 by lia.
  rewrite digitsFixed_pad by (split; [lia|apply hexLen_enough; lia]).
  rewrite fmap_app, fmap_replicate, Nat.sub_0_r. reflexivity.
Qed.

Lemma SetString16_unsigned c s :
  is_Some (hex.fromHexChar c) ->
  SetString16 (String c s) = scanNat16 (c :: list_ascii_of_string s).
Proof.
  intros [d Hd]. unfold SetString16. cbn [list_ascii_of_string].
  destruct c as [b0 b1 b2 b3 b4 b5 b6 b7].
  destruct b0, b1, b2, b3, b4, b5, b6, b7; try reflexivity; discriminate Hd.
Qed.

Lemma SetString16_digits ds :
  ds <> [] -> Forall isDigit ds ->
  SetString16 (string_of_list_ascii (hex.lowerDigit <$> ds)) = Some (hexValue ds).
Proof.
  intros Hne Hd. destruct ds as [|d ds]; [congruence|].
  cbn [fmap list_fmap string_of_list_ascii].
  rewrite SetString16_unsigned.
  - rewrite list_ascii_of_string_of_list_ascii.
    change (scanNat16 (?c :: ?l)) with (scanDigits 0 (c :: l)).
    apply (scanDigits_lower (d :: ds) 0 Hd).
  - inversion Hd; subst. rewrite fromHexChar_lowerDigit by assumption. eauto.
Qed.

Lemma upperDigit_not_x d :
  isDigit d -> hex.upperDigit d <> "x"%char /\ hex.upperDigit d <> "X"%char.
Proof.
  intros Hd. unfold hex.upperDigit.
  assert (Hn : (Z.to_nat d < 16)%nat) by (unfold isDigit in Hd; lia).
  revert Hn. generalize (Z.to_nat d) as n. intros n Hn.
  do 16 (destruct n as [|n]; [vm_compute; split; discriminate|]). lia.
Qed.

Lemma decode_fmtXbytes sig :
  Forall isByte sig -> hex.decode (fmtXbytes sig) = (sig, None).
Proof.
  induction 1 as [|v l Hv Hl IH]; [reflexivity|].
  cbn [fmtXbytes hex.decode].
  rewrite !fromHexChar_upperDigit by auto using byte_hi_digit, byte_lo_digit.
  rewrite IH, pack_byte by assumption. reflexivity.
Qed.

Lemma length_fmtXbytes sig : length (fmtXbytes sig) = (2 * length sig)%nat.
Proof. induction sig as [|v l IH]; cbn [fmtXbytes length]; lia. Qed.

Lemma has0xPrefix_fmtXbytes sig : Forall isByte sig -> has0xPrefix (fmtXbytes sig) = false.
Proof.
  intros [|v l Hv Hl]; [reflexivity|]. cbn [fmtXbytes has0xPrefix].
  destruct (upperDigit_not_x (Z.land v 15) (byte_lo_digit v)) as [H1 H2].
  rewrite !bool_decide_eq_false_2 by assumption.
  destruct (hex.upperDigit (Z.shiftr v 4)) as [[] [] [] [] [] [] [] []]; reflexivity.
Qed.

Lemma FromHex_Sprintf_X sig : Forall isByte sig -> FromHex (Sprintf_X sig) = sig.
Proof.
  intros Hs. unfold FromHex, Sprintf_X.
  rewrite list_ascii_of_string_of_list_ascii, has0xPrefix_fmtXbytes by assumption.
  rewrite length_fmtXbytes.
  replace (Nat.odd (2 * length sig)) with false.
  - rewrite decode_fmtXbytes by assumption. reflexivity.
  - symmetry. rewrite <- Nat.negb_even, Nat.even_mul. reflexivity.
Qed.

Lemma reslice_ok s lo hi :
  (lo <= hi)%nat -> (hi <= cap s)%nat ->
  reslice s lo hi = Done (mkSlice (drop lo (backing s)) (hi - lo)).
Proof.
  intros H1 H2. unfold reslice.
  rewrite (proj2 (Nat.leb_le _ _) H1), (proj2 (Nat.leb_le _ _) H2). reflexivity.
Qed.

Lemma reslice_panic s lo hi : (cap s < hi)%nat -> reslice s lo hi = Panic.
Proof.
  intros H. unfold reslice.
  rewrite (proj2 (Nat.leb_gt _ _) H), andb_false_r. reflexivity.
Qed.

Lemma rsvToSig_ecdsa_encoded (Serialize : Z -> Z -> list Z) (R S : Z) :
  0 <= R < 2 ^ 256 -> 0 <= S < 2 ^ 256 ->
  rsvToSig Serialize (Sprintf_064X_064X_00 R S) false = Done (Serialize R S).
Proof.
  intros HR HS.
  pose proof (Forall_digitsFixed 64 R) as HdR.
  pose proof (Forall_digitsFixed 64 S) as HdS.
  pose proof (length_digitsFixed 64 R) as HlR.
  pose proof (length_digitsFixed 64 S) as HlS.
  assert (HeR : Nat.even (length (digitsFixed 64 R)) = true) by (rewrite HlR; reflexivity).
  assert (HeS : Nat.even (length (digitsFixed 64 S)) = true) by (rewrite HlS; reflexivity).
  pose proof (length_pack _ HeR) as HpR. pose proof (length_pack _ HeS) as HpS.
  unfold rsvToSig, Sprintf_064X_064X_00, hex.DecodeString.
  rewrite !fmt064X_fixed by assumption.
  change ["0"%char; "0"%char] with (hex.upperDigit <$> [0; 0]).
  rewrite <- !fmap_app, list_ascii_of_string_of_list_ascii.
  rewrite decode_upper.
  2:{ rewrite !Forall_app. repeat split; try assumption.
      repeat constructor; unfold isDigit; lia. }
  2:{ rewrite !length_app, HlR, HlS. reflexivity. }
  rewrite !pack_app by (try assumption; reflexivity).
  change (pack [0; 0]) with [0].
  set (pR := pack (digitsFixed 64 R)) in *. set (pS := pack (digitsFixed 64 S)) in *.
  assert (HlpR : length pR = 32%nat) by lia.
  assert (HlpS : length pS = 32%nat) by lia.
  rewrite length_fmap, !length_app, HlR, HlS, HlpR, HlpS.
  cbn [length]. change (130 / 2 - 65)%nat with 0%nat.
  cbn [replicate]. rewrite app_nil_r.
  rewrite !reslice_ok by (unfold cap; cbn [backing]; rewrite ?length_app, ?HlpR, ?HlpS; cbn [length]; lia).
  cbn [mbind outcome_bind]. unfold elems. cbn [backing len drop].
  assert (E1 : take (32 - 0) (drop 0 (pR ++ pS ++ [0])) = pR).
  { rewrite drop_0. change (32 - 0)%nat with 32%nat.
    rewrite <- HlpR. apply take_app_length. }
  assert (E2 : take (64 - 32) (drop 32 (pR ++ pS ++ [0])) = pS).
  { change (64 - 32)%nat with 32%nat. rewrite <- HlpR at 2.
    rewrite drop_app_length, <- HlpS. apply take_app_length. }
  rewrite E1, E2. unfold hex.EncodeToString.
  subst pR pS. rewrite !encode_pack by assumption.
  rewrite !SetString16_digits by (try assumption; intros E; rewrite E in *; discriminate).
  rewrite !hexValue_digitsFixed. cbn [deref].
  change (16 ^ Z.of_nat 64) with (2 ^ 256).
  rewrite !Z.mod_small by assumption. reflexivity.
Qed.

Lemma length_string_of_list_ascii (l : list ascii) :
  String.length (string_of_list_ascii l) = length l.
Proof. induction l as [|c l IH]; cbn; [reflexivity|]. rewrite IH. reflexivity. Qed.

Lemma length_list_ascii_of_string (s : string) :
  length (list_ascii_of_string s) = String.length s.
Proof. induction s as [|c s IH]; cbn; [reflexivity|]. rewrite IH. reflexivity. Qed.

Lemma length_Sprintf_rsv (R S : Z) :
  0 <= R < 2 ^ 256 -> 0 <= S < 2 ^ 256 ->
  String.length (Sprintf_064X_064X_00 R S) = 130%nat.
Proof.
  intros HR HS. unfold Sprintf_064X_064X_00.
  rewrite length_string_of_list_ascii, !fmt064X_fixed by assumption.
  rewrite !length_app, !length_fmap, !length_digitsFixed. reflexivity.
Qed.

(** ** The signature codec *)

(** C9. The signature codec round-trips.  For R and S that fit in 32
    bytes the RSV text written by the signing path has 130 characters and
    [rsvToSig] turns it into the canonical serialization of the same pair
    (R, S); for an EdDSA signature, writing the RSV text and decoding it
    gives back the raw signature bytes. *)
Theorem rsv_codec_roundtrip (Serialize : Z -> Z -> list Z) :
  (forall R S : Z,
     0 <= R < 2 ^ 256 -> 0 <= S < 2 ^ 256 ->
     String.length (Sprintf_064X_064X_00 R S) = 130%nat /\
     rsvToSig Serialize (Sprintf_064X_064X_00 R S) false = Done (Serialize R S)) /\
  (forall sig : list Z,
     Forall isByte sig ->
     rsvToSig Serialize (Sprintf_X sig) true = Done sig).
Proof.
  split.
  - intros R S HR HS. split.
    + apply length_Sprintf_rsv; assumption.
    + apply rsvToSig_ecdsa_encoded; assumption.
  - intros sig Hs. unfold rsvToSig. rewrite FromHex_Sprintf_X by assumption.
    reflexivity.
Qed.

Lemma rsv_codec_roundtrip_witness :
  rsvToSig (fun r s => [r; s]) (Sprintf_064X_064X_00 (2 ^ 255 + 7) 1) false
    = Done [2 ^ 255 + 7; 1] /\
  rsvToSig (fun r s => [r; s]) (Sprintf_X [237; 0; 255]) true = Done [237; 0; 255].
Proof.
  destruct (rsv_codec_roundtrip (fun r s => [r; s])) as [Hec Hed]. split.
  - apply (Hec (2 ^ 255 + 7) 1); lia.
  - apply (Hed [237; 0; 255]). repeat constructor; unfold isByte; lia.
Defined.

Lemma decode_length src : (2 * length (fst (hex.decode src)) <= length src)%nat.
Proof.
  induction src as [|x|x y l IH] using pair_ind.
  - simpl. lia.
  - cbn [hex.decode]. destruct (hex.fromHexChar x); simpl; lia.
  - cbn [hex.decode].
    destruct (hex.fromHexChar x); [|simpl; lia].
    destruct (hex.fromHexChar y); [|simpl; lia].
    destruct (hex.decode l) as [out e]. cbn [fst length] in *. lia.
Qed.

(** The buffer [hex.DecodeString] returns has room for half the
    characters of the text, whatever was decoded. *)
Lemma cap_DecodeString rsv :
  cap (fst (hex.DecodeString rsv)) = (String.length rsv / 2)%nat.
Proof.
  unfold hex.DecodeString.
  pose proof (decode_length (list_ascii_of_string rsv)) as Hl.
  destruct (hex.decode (list_ascii_of_string rsv)) as [out e].
  cbn [fst] in *. unfold cap. cbn [backing].
  rewrite length_app, length_replicate, length_list_ascii_of_string in *.
  assert (length out <= String.length rsv / 2)%nat
    by (apply Nat.div_le_lower_bound; lia).
  lia.
Qed.

Lemma fromHexChar_lowerDigit_some d : is_Some (hex.fromHexChar (hex.lowerDigit d)).
Proof.
  unfold hex.lowerDigit. generalize (Z.to_nat d) as n. intros n.
  do 16 (destruct n as [|n]; [vm_compute; eauto|]).
  destruct n; vm_compute; eauto.
Qed.

Lemma scanDigits_encode l acc : is_Some (scanDigits acc (hex.encode l)).
Proof.
  revert acc. induction l as [|v l IH]; intros acc; cbn [hex.encode scanDigits].
  - eauto.
  - destruct (fromHexChar_lowerDigit_some (Z.shiftr v 4)) as [a ->].
    destruct (fromHexChar_lowerDigit_some (Z.land v 15)) as [b ->].
    apply IH.
Qed.

Lemma SetString16_encode l : l <> [] -> is_Some (SetString16 (hex.EncodeToString l)).
Proof.
  intros Hne. destruct l as [|v l]; [congruence|].
  unfold hex.EncodeToString. cbn [hex.encode].
  set (c := hex.lowerDigit (Z.shiftr v 4)).
  set (rest := hex.lowerDigit (Z.land v 15) :: hex.encode l).
  change (string_of_list_ascii (c :: rest)) with (String c (string_of_list_ascii rest)).
  rewrite SetString16_unsigned by apply fromHexChar_lowerDigit_some.
  rewrite list_ascii_of_string_of_list_ascii.
  apply (scanDigits_encode (v :: l) 0).
Qed.

Lemma rsvToSig_panic_iff (Serialize : Z -> Z -> list Z) rsv :
  rsvToSig Serialize rsv false = Panic <-> (cap (fst (hex.DecodeString rsv)) < 64)%nat.
Proof.
  unfold rsvToSig. destruct (hex.DecodeString rsv) as [b e]. cbn [fst].
  split.
  - intros H. destruct (Nat.lt_ge_cases (cap b) 64) as [Hlt|Hge]; [assumption|exfalso].
    rewrite (reslice_ok b 0 32) in H by lia. cbn [mbind outcome_bind] in H.
    rewrite (reslice_ok b 32 64) in H by lia. cbn [mbind outcome_bind] in H.
    unfold elems in H. cbn [backing len] in H.
    assert (Hn : forall lo, (lo + 32 <= cap b)%nat -> take 32 (drop lo (backing b)) <> []).
    { intros lo Hlo E. apply (f_equal length) in E.
      rewrite length_take, length_drop in E. unfold cap in Hlo.
      cbn [length] in E. lia. }
    destruct (SetString16_encode (take (32 - 0) (drop 0 (backing b)))) as [r Hr];
      [apply (Hn 0%nat); lia|].
    destruct (SetString16_encode (take (64 - 32) (drop 32 (backing b)))) as [s Hs];
      [apply (Hn 32%nat); lia|].
    rewrite Hr, Hs in H. discriminate H.
  - intros Hlt. destruct (Nat.lt_ge_cases (cap b) 32) as [H32|H32].
    + rewrite (reslice_panic b 0 32) by assumption. reflexivity.
    + rewrite (reslice_ok b 0 32) by lia. cbn [mbind outcome_bind].
      rewrite (reslice_panic b 32 64) by assumption. reflexivity.
Qed.

(** C10 (as amended).  On the ECDSA path [rsvToSig] is not total: it
    panics exactly when the buffer returned by [hex.DecodeString] has a
    capacity below 64 bytes.  That buffer has room for half the characters
    of the RSV text, so with a key that is not EdDSA
    [MakeSignedTransaction] panics, instead of returning an error, on
    every RSV text of fewer than 128 characters. *)
Theorem rsvToSig_short_rsv_panics
    {dataValue dataCurrency dataPathSet : Type}
    (lib : @DataLib dataValue dataCurrency dataPathSet) (sgn : Signer)
    (pubkey : list Z) (rsv : string) (transaction : RawTx) :
  (rsvToSig (Serialize sgn) rsv false = Panic <->
   (cap (fst (hex.DecodeString rsv)) < 64)%nat) /\
  cap (fst (hex.DecodeString rsv)) = (String.length rsv / 2)%nat /\
  (isEd25519Pubkey pubkey = false -> (String.length rsv < 128)%nat ->
   MakeSignedTransaction lib sgn pubkey rsv transaction = Panic).
Proof.
  split; [apply rsvToSig_panic_iff|]. split; [apply cap_DecodeString|].
  intros Hed Hlen. unfold MakeSignedTransaction. rewrite Hed.
  rewrite (proj2 (rsvToSig_panic_iff (Serialize sgn) rsv)); [reflexivity|].
  rewrite cap_DecodeString. apply Nat.Div0.div_lt_upper_bound. lia.
Qed.

Lemma rsvToSig_short_rsv_panics_witness :
  MakeSignedTransaction Demo.lib (Demo.signer (Err (ErrExternal "")) true)
    [2; 1] "00ff" (TxPayment Demo.payment) = Panic.
Proof.
  apply (proj2 (proj2 (rsvToSig_short_rsv_panics Demo.lib
                  (Demo.signer (Err (ErrExternal "")) true) [2; 1] "00ff"
                  (TxPayment Demo.payment)))).
  - reflexivity.
  - simpl. lia.
Defined.

(** A text that [hex.DecodeString] rejects at its first character and that
    decodes to no byte at all, yet is long enough for the two slice
    expressions: [rsvToSig] does not panic on it. *)
Lemma rsvToSig_rejected_long_rsv_no_panic :
  let rsv := String.append "zz" (string_of_list_ascii (replicate 128 "0"%char)) in
  snd (hex.DecodeString rsv) = Some (hex.InvalidByteError "z") /\
  (length (elems (fst (hex.DecodeString rsv))) < 64)%nat /\
  rsvToSig (fun r s => [r; s]) rsv false = Done [0; 0].
Proof. vm_compute. repeat split; lia. Qed.

(** ** The builder *)

Section Builder.

Context {dataValue dataCurrency dataPathSet : Type}.
Variable reg : Registry.
Variable rpc : @Ledger dataValue.
Variable lib : @DataLib dataValue dataCurrency dataPathSet.

Lemma checkNativeBalance_spec account amount isPay balance :
  nativeBalance rpc account = Some balance ->
  checkNativeBalance rpc account amount isPay =
  Done (let remain :=
          match amount with
          | Some a => if isPay then balance - a else balance + a
          | None => balance
          end in
        if remain <? accountReserve then
          Some (if isPay then ErrInsufficientNativeSender account
                else ErrInsufficientNativeReceiver account)
        else None).
Proof.
  unfold nativeBalance, checkNativeBalance.
  destruct (GetBalance rpc account) as [[b|] [e|]]; intros H;
    inversion H; subst; clear H;
    destruct amount as [a|], isPay; cbn [deref mbind outcome_bind];
    match goal with |- context [?x <? accountReserve] => destruct (x <? accountReserve) end;
    reflexivity.
Qed.

Lemma chain_check_passes args :
  IsTestMode reg = true \/ ToChainID args = ChainID reg ->
  negb (IsTestMode reg) && negb (bool_decide (ToChainID args = ChainID reg)) = false.
Proof.
  intros [->|H]; [reflexivity|].
  rewrite (bool_decide_eq_true_2 _ H). apply andb_false_r.
Qed.

(** Runs [BuildRawTransaction] in the goal up to the point where the
    [Extra] slot is read. *)
Ltac run_preflight H :=
  let Hchain := fresh "Hchain" in
  let Hfrom := fresh "Hfrom" in
  let routerMPC := fresh "routerMPC" in
  let Hmpc := fresh "Hmpc" in
  let Heq := fresh "Heq" in
  let Hswap := fresh "Hswap" in
  let Hpub := fresh "Hpub" in
  let Hmt := fresh "Hmt" in
  let Htok := fresh "Htok" in
  let Hrecv := fresh "Hrecv" in
  destruct H as (Hchain & Hfrom & (routerMPC & Hmpc & Heq) & Hswap & Hpub & Hmt & Htok & Hrecv);
  unfold BuildRawTransaction;
  rewrite (chain_check_passes _ Hchain), (bool_decide_eq_false_2 _ Hfrom),
    Hmpc, Heq, Hswap, (bool_decide_eq_false_2 _ Hpub),
    (bool_decide_eq_false_2 _ Hmt), Htok, Hrecv;
  cbn [negb].

(** Runs the resolution of the [Extra] slot. *)
Ltac run_extra H Htok :=
  let extra := fresh "extra" in
  let seq := fresh "seq" in
  let Hex := fresh "Hex" in
  let Hacc := fresh "Hacc" in
  destruct H as [[extra Hex]|[seq Hacc]];
  [ rewrite Hex
  | destruct (Extra _) as [extra|] eqn:Hex;
    [ | unfold swapoutDefaultArgs, GetSeq, GetPoolNonce; rewrite Htok, Hacc ] ];
  cbn [mbind outcome_bind deref Sequence Fee].

(** The reserve checks of a native send in terms of [getMinReserveFee]. *)
Lemma native_reserve_checks args token receiver amount amt :
  preflightOk reg args token receiver amount ->
  extraOk rpc args ->
  getPaymentAmount lib amount token = Ok amt ->
  RippleExtraIsNative lib (TokenRippleExtra token) = true ->
  (forall senderBalance,
     nativeBalance rpc (From args) = Some senderBalance ->
     senderBalance - amount - getMinReserveFee reg < 10000000 ->
     exists args',
       BuildRawTransaction reg rpc lib args =
       Done (args', None, Some (ErrInsufficientNativeSender (From args)))) /\
  (forall senderBalance receiverBalance,
     nativeBalance rpc (From args) = Some senderBalance ->
     10000000 <= senderBalance - amount - getMinReserveFee reg ->
     nativeBalance rpc receiver = Some receiverBalance ->
     receiverBalance + amount < 10000000 ->
     exists args',
       BuildRawTransaction reg rpc lib args =
       Done (args', None, Some (ErrInsufficientNativeReceiver receiver))) /\
  (nativeBalance rpc (From args) = Some 20000000 ->
   amount = 15000000 ->
   HasRouterConfig reg = true ->
   GetMinReserveFee reg (ChainID reg) = None ->
   exists args',
     BuildRawTransaction reg rpc lib args =
     Done (args', None, Some (ErrInsufficientNativeSender (From args)))).
Proof.
  intros Hpre Hextra Hamt Hnative.
  assert (Hsender : forall senderBalance,
     nativeBalance rpc (From args) = Some senderBalance ->
     senderBalance - amount - getMinReserveFee reg < 10000000 ->
     exists args',
       BuildRawTransaction reg rpc lib args =
       Done (args', None, Some (ErrInsufficientNativeSender (From args)))).
  { intros sb Hsb Hlt. run_preflight Hpre. run_extra Hextra Htok.
    all: rewrite Hamt, Hnative; cbn [From setExtra].
    all: rewrite (checkNativeBalance_spec _ _ _ _ Hsb); cbn [mbind outcome_bind].
    all: unfold accountReserve.
    all: destruct (Z.ltb_spec (sb - (amount + getMinReserveFee reg)) 10000000); [|lia].
    all: eexists; reflexivity. }
  split; [exact Hsender|]. split.
  - intros sb rb Hsb Hge Hrb Hlt. run_preflight Hpre. run_extra Hextra Htok.
    all: rewrite Hamt, Hnative; cbn [From setExtra].
    all: rewrite (checkNativeBalance_spec _ _ _ _ Hsb); cbn [mbind outcome_bind].
    all: unfold accountReserve.
    all: destruct (Z.ltb_spec (sb - (amount + getMinReserveFee reg)) 10000000); [lia|].
    all: rewrite (checkNativeBalance_spec _ _ _ _ Hrb); cbn [mbind outcome_bind].
    all: unfold accountReserve.
    all: destruct (Z.ltb_spec (rb + amount) 10000000); [|lia].
    all: eexists; reflexivity.
  - intros Hsb -> Hcfg Hmin. apply (Hsender _ Hsb).
    unfold getMinReserveFee. rewrite Hcfg, Hmin. cbn [negb]. lia.
Qed.

(** The fee [getMinReserveFee] returns: nothing without a router
    configuration, else the chain's configured fee, else 100,000. *)
Lemma getMinReserveFee_value :
  getMinReserveFee reg =
  if HasRouterConfig reg then default 100000 (GetMinReserveFee reg (ChainID reg)) else 0.
Proof.
  unfold getMinReserveFee. destruct (HasRouterConfig reg); [|reflexivity].
  destruct (GetMinReserveFee reg (ChainID reg)); reflexivity.
Qed.

(** C4 (as amended).  Reserve rule for native sends.  Take a request that
    passes the checks before the [Extra] slot, whose slot is given or
    whose sender account can be fetched, whose amount converts, and whose
    token is native; let minReserveFee be the chain's configured fee,
    100,000 when the chain has none, and 0 without a router configuration.
    The build fails with the sender's insufficient-native-balance error
    whenever senderBalance - amount - minReserveFee is below 10,000,000,
    and with the receiver's whenever the sender passes and receiverBalance
    + amount is below 10,000,000; a sender holding 20,000,000 that is to
    pay 15,000,000 under the default fee fails on the sender side. *)
Theorem native_reserve_rule args token receiver amount amt :
  preflightOk reg args token receiver amount ->
  extraOk rpc args ->
  getPaymentAmount lib amount token = Ok amt ->
  RippleExtraIsNative lib (TokenRippleExtra token) = true ->
  let minReserveFee :=
    if HasRouterConfig reg then default 100000 (GetMinReserveFee reg (ChainID reg))
    else 0 in
  (forall senderBalance,
     nativeBalance rpc (From args) = Some senderBalance ->
     senderBalance - amount - minReserveFee < 10000000 ->
     exists args',
       BuildRawTransaction reg rpc lib args =
       Done (args', None, Some (ErrInsufficientNativeSender (From args)))) /\
  (forall senderBalance receiverBalance,
     nativeBalance rpc (From args) = Some senderBalance ->
     10000000 <= senderBalance - amount - minReserveFee ->
     nativeBalance rpc receiver = Some receiverBalance ->
     receiverBalance + amount < 10000000 ->
     exists args',
       BuildRawTransaction reg rpc lib args =
       Done (args', None, Some (ErrInsufficientNativeReceiver receiver))) /\
  (nativeBalance rpc (From args) = Some 20000000 ->
   amount = 15000000 ->
   HasRouterConfig reg = true ->
   GetMinReserveFee reg (ChainID reg) = None ->
   minReserveFee = 100000 /\
   exists args',
     BuildRawTransaction reg rpc lib args =
     Done (args', None, Some (ErrInsufficientNativeSender (From args)))).
Proof.
  intros Hpre Hextra Hamt Hnative minReserveFee.
  destruct (native_reserve_checks args token receiver amount amt Hpre Hextra Hamt Hnative)
    as (Hsender & Hreceiver & Hscenario).
  rewrite getMinReserveFee_value in Hsender, Hreceiver. fold minReserveFee in Hsender, Hreceiver.
  split; [exact Hsender|]. split; [exact Hreceiver|].
  intros Hsb Hamount Hcfg Hmin. split.
  - subst minReserveFee. rewrite Hcfg, Hmin. reflexivity.
  - apply Hscenario; assumption.
Qed.

(** C7 (as amended).  Issued-asset rule.  For a request that passes the
    checks before the [Extra] slot, whose slot is given or whose sender
    account can be fetched, and whose amount converts: for such a request
    with an issued token, the build fails with the receiver's
    insufficient-native-balance error whenever the destination's native
    balance is below 10,000,000, whatever the amount; and, the destination
    being established, with the insufficient issued-balance error whenever
    the sender's trust line compares below the amount. *)
Theorem issued_asset_rule args token receiver amount amt :
  preflightOk reg args token receiver amount ->
  extraOk rpc args ->
  getPaymentAmount lib amount token = Ok amt ->
  RippleExtraIsNative lib (TokenRippleExtra token) = false ->
  (forall receiverBalance,
     nativeBalance rpc receiver = Some receiverBalance ->
     receiverBalance < 10000000 ->
     exists args',
       BuildRawTransaction reg rpc lib args =
       Done (args', None, Some (ErrInsufficientNativeReceiver receiver))) /\
  (forall receiverBalance lineBalance,
     nativeBalance rpc receiver = Some receiverBalance ->
     10000000 <= receiverBalance ->
     GetAccountLine rpc (Currency (TokenRippleExtra token))
       (Issuer (TokenRippleExtra token)) (From args) = Ok lineBalance ->
     ValueCompare lib lineBalance (AmountValue amt) < 0 ->
     exists args',
       BuildRawTransaction reg rpc lib args =
       Done (args', None,
             Some (ErrInsufficientIssued (Currency (TokenRippleExtra token))
                     (Issuer (TokenRippleExtra token)) (From args)))).
Proof.
  intros Hpre Hextra Hamt Hnative. split.
  - intros rb Hrb Hlt. run_preflight Hpre. run_extra Hextra Htok.
    all: rewrite Hamt, Hnative; cbn [From setExtra].
    all: rewrite (checkNativeBalance_spec _ _ _ _ Hrb); cbn [mbind outcome_bind].
    all: unfold accountReserve.
    all: destruct (Z.ltb_spec rb 10000000); [|lia].
    all: eexists; reflexivity.
  - intros rb lb Hrb Hge Hline Hcmp. run_preflight Hpre. run_extra Hextra Htok.
    all: rewrite Hamt, Hnative; cbn [From setExtra].
    all: rewrite (checkNativeBalance_spec _ _ _ _ Hrb); cbn [mbind outcome_bind].
    all: unfold accountReserve.
    all: destruct (Z.ltb_spec rb 10000000); [lia|].
    all: unfold checkNonNativeBalance; rewrite Hline.
    all: destruct (Z.ltb_spec (ValueCompare lib lb (AmountValue amt)) 0); [|lia].
    all: eexists; reflexivity.
Qed.

Lemma Int64_in_range amount : - 2 ^ 63 <= amount < 2 ^ 63 -> Int64 amount = amount.
Proof.
  intros H. unfold Int64, int64.
  destruct (Z.ltb_spec amount 0) as [Hneg|Hpos].
  - rewrite Z.abs_neq by lia.
    rewrite (Z.mod_small (- amount)) by lia.
    destruct (Z.eq_dec amount (- 2 ^ 63)) as [->|Hne].
    + reflexivity.
    + rewrite (Z.mod_small (- amount + 2 ^ 63)) by lia.
      replace (- (- amount + 2 ^ 63 - 2 ^ 63) + 2 ^ 63) with (amount + 2 ^ 63) by lia.
      rewrite Z.mod_small by lia. lia.
  - rewrite Z.abs_eq by lia. rewrite (Z.mod_small amount) by lia.
    rewrite Z.mod_small by lia. lia.
Qed.

Lemma IsInt64_spec amount : IsInt64 amount = true <-> - 2 ^ 63 <= amount < 2 ^ 63.
Proof. unfold IsInt64. rewrite andb_true_iff, !Z.leb_le. lia. Qed.

(** C6 (as amended).  [getPaymentAmount] accepts only amounts that are
    representable as a signed 64-bit integer.  Outside that range it
    always fails, and with the overflow error that names the amount
    whenever the token's currency is registered; inside the range the
    amount is handed on to the data package as it is, neither clamped nor
    wrapped nor truncated. *)
Theorem getPaymentAmount_overflow_guard amount token :
  (~ (- 2 ^ 63 <= amount < 2 ^ 63) ->
   exists e, getPaymentAmount lib amount token = Err e) /\
  (forall currency,
     currencyMap lib !! Currency (TokenRippleExtra token) = Some currency ->
     (~ (- 2 ^ 63 <= amount < 2 ^ 63) ->
      getPaymentAmount lib amount token = Err (ErrAmountOverflow amount)) /\
     (- 2 ^ 63 <= amount < 2 ^ 63 ->
      getPaymentAmount lib amount token =
      if CurrencyIsNative lib currency then NewAmount lib amount
      else
        match issuerMap lib !! Issuer (TokenRippleExtra token) with
        | None => Err (ErrNonExistIssuer (Issuer (TokenRippleExtra token)))
        | Some issuer =>
            match NewNonNativeValue lib amount (- int64 (Decimals token)) with
            | Err err => Err err
            | Ok value => Ok (mkAmount value currency issuer)
            end
        end)).
Proof.
  assert (Hout : ~ (- 2 ^ 63 <= amount < 2 ^ 63) -> IsInt64 amount = false).
  { intros H. destruct (IsInt64 amount) eqn:E; [|reflexivity].
    apply IsInt64_spec in E. contradiction. }
  split.
  - intros H. unfold getPaymentAmount.
    destruct (currencyMap lib !! Currency (TokenRippleExtra token)); [|eauto].
    rewrite (Hout H). cbn [negb]. eauto.
  - intros currency Hcur. split; intros H; unfold getPaymentAmount; rewrite Hcur.
    + rewrite (Hout H). reflexivity.
    + rewrite (proj2 (IsInt64_spec amount) H), (Int64_in_range amount H).
      reflexivity.
Qed.

(** C5 (what the code does).  When the sender's account cannot be fetched
    and the request carries no [Extra], [GetSeq] returns a nil pointer with
    the error, [swapoutDefaultArgs] dereferences it, and
    [BuildRawTransaction] panics. *)
Theorem sequence_fetch_failure_panics args token receiver amount e :
  preflightOk reg args token receiver amount ->
  Extra args = None ->
  GetAccount rpc (From args) = Err e ->
  GetSeq reg rpc args = (None, Some (ErrCannotGetAccount e)) /\
  BuildRawTransaction reg rpc lib args = Panic.
Proof.
  intros Hpre Hex Hacc.
  assert (Hseq : GetSeq reg rpc args = (None, Some (ErrCannotGetAccount e))).
  { unfold GetSeq, GetPoolNonce. rewrite Hacc. reflexivity. }
  split; [exact Hseq|].
  run_preflight Hpre. rewrite Hex. unfold swapoutDefaultArgs.
  rewrite Htok, Hseq. reflexivity.
Qed.

(** C2 (what the code does).  When every check passes and the fee text is
    malformed, or the signing hash cannot be computed,
    [NewUnsignedPaymentTransaction] returns no transaction and
    [BuildRawTransaction] returns a nil transaction together with a nil
    error. *)
Theorem build_failure_returns_nil_nil args token receiver amount amt extra dest parsed :
  preflightOk reg args token receiver amount ->
  Extra args = Some extra ->
  getPaymentAmount lib amount token = Ok amt ->
  solvent reg rpc lib args token receiver amount amt ->
  parseAccount lib receiver = Some dest ->
  parseAmount lib (AmountString lib amt) = Some parsed ->
  (exists e, NewValue lib (default "" (Fee extra)) true = Err e) \/
  (forall p, exists e, SigningHash lib p = Err e) ->
  BuildRawTransaction reg rpc lib args = Done (args, None, None).
Proof.
  intros Hpre Hex Hamt Hsolv Hdest Hparsed Hfail.
  run_preflight Hpre. rewrite Hex. cbn [mbind outcome_bind deref].
  rewrite Hamt. unfold solvent in Hsolv.
  destruct (RippleExtraIsNative lib (TokenRippleExtra token));
    destruct Hsolv as [H1 H2]; rewrite H1; cbn [mbind outcome_bind];
    rewrite H2; cbn [mbind outcome_bind].
  all: unfold NewUnsignedPaymentTransaction; rewrite Hdest, Hparsed.
  all: cbn [mbind outcome_bind deref].
  all: replace (match Fee extra with Some f => f | None => "" end)
         with (default "" (Fee extra)) by (destruct (Fee extra); reflexivity).
  all: destruct Hfail as [[e He]|Hhash].
  all: try (rewrite He; reflexivity).
  all: destruct (NewValue lib (default "" (Fee extra)) true); [|reflexivity].
  all: match goal with
       | |- context [SigningHash lib ?p] => destruct (Hhash p) as [e ->]
       end; reflexivity.
Qed.

End Builder.

(** ** Signing *)

Section Signing.

Context {dataValue dataCurrency dataPathSet : Type}.
Variable reg : Registry.
Variable lib : @DataLib dataValue dataCurrency dataPathSet.
Variable sgn : Signer.

(** What [MPCSignTransaction] does once it has sent [call] to the oracle. *)
Lemma MPCSignTransaction_after_call rawTx args call :
  fst (MPCSignTransaction reg lib sgn rawTx args) = [call] ->
  exists tx msgHash msg,
    rawTx = TxPayment tx /\
    SigningHash lib tx = Ok (msgHash, msg) /\
    let pubkey := FromHex (GetMPCPublicKey reg (From args)) in
    let isEd := isEd25519Pubkey pubkey in
    let msg := SigningPrefix lib tx ++ msg in
    snd (MPCSignTransaction reg lib sgn rawTx args) =
    match DoSignOne sgn (callSignType call) (callPubkey call) (callContent call)
            (callContext call) with
    | Err err => Done (None, "", Some err)
    | Ok (keyID, rsvs) =>
        if negb (length rsvs =? 1)%nat
        then Done (None, "", Some (ErrRequireOneRsv (length rsvs) keyID))
        else
          rsv ← deref (head rsvs);
          sig ← rsvToSig (Serialize sgn) rsv isEd;
          let '(valid, err) := Verify sgn pubkey msgHash msg sig in
          if negb valid || bool_decide (err <> None)
          then Done (None, "", Some (ErrVerifySignature valid err))
          else
            made ← MakeSignedTransaction lib sgn pubkey rsv rawTx;
            match made with
            | (signedTx, Some err) => Done (signedTx, "", Some err)
            | (Some signedTx, None) =>
                Done (Some signedTx, HashString lib (Hash signedTx), None)
            | (None, None) => Panic
            end
    end.
Proof.
  unfold MPCSignTransaction.
  destruct rawTx as [tx|]; [|discriminate].
  destruct (verifyTransactionWithArgs lib sgn tx args); [discriminate|].
  destruct (SignWithPrivateKey reg).
  { destruct (HexToECDSA sgn _); discriminate. }
  destruct (SigningHash lib tx) as [[msgHash msg]|] eqn:Hhash; [|discriminate].
  destruct (isEd25519Pubkey (FromHex (GetMPCPublicKey reg (From args)))) eqn:Hed.
  - destruct (strFrom 2 (GetMPCPublicKey reg (From args))) as [stripped|];
      cbn [mbind outcome_bind fst snd]; [|discriminate].
    intros H. inversion H; subst call; clear H.
    exists tx, msgHash, msg. repeat split; try assumption.
    all: cbn zeta; rewrite ?Hed; reflexivity.
  - cbn [fst snd]. intros H. inversion H; subst call; clear H.
    exists tx, msgHash, msg. repeat split; try assumption.
    all: cbn zeta; rewrite ?Hed; reflexivity.
Qed.

(** C8. Whenever the oracle answers the request of [MPCSignTransaction]
    with a number of signatures other than one, the result is the error
    that names that number and the key ID, and no transaction. *)
Theorem oracle_result_count_guard rawTx args call keyID rsvs :
  fst (MPCSignTransaction reg lib sgn rawTx args) = [call] ->
  DoSignOne sgn (callSignType call) (callPubkey call) (callContent call)
    (callContext call) = Ok (keyID, rsvs) ->
  length rsvs <> 1%nat ->
  snd (MPCSignTransaction reg lib sgn rawTx args) =
  Done (None, "", Some (ErrRequireOneRsv (length rsvs) keyID)).
Proof.
  intros Hcall Hsign Hlen.
  destruct (MPCSignTransaction_after_call _ _ _ Hcall) as (tx & msgHash & msg & _ & _ & ->).
  rewrite Hsign. rewrite (proj2 (Nat.eqb_neq _ _) Hlen). reflexivity.
Qed.

Lemma verify_gate_closed (valid : bool) (err : option error) :
  valid = false \/ err <> None -> negb valid || bool_decide (err <> None) = true.
Proof.
  intros [->|H]; [reflexivity|].
  rewrite (bool_decide_eq_true_2 _ H). apply orb_true_r.
Qed.

(** A transaction comes back from the local-key path only after
    [Verify] accepted the signature. *)
Lemma SignTransactionWithRippleKey_verified rawTx key keyseq stx h e :
  SignTransactionWithRippleKey lib sgn rawTx key keyseq = Done (Some stx, h, e) ->
  exists tx msgHash msg sig,
    rawTx = TxPayment tx /\
    SigningHash lib tx = Ok (msgHash, msg) /\
    Verify sgn (KeyPublic key keyseq) msgHash (SigningPrefix lib tx ++ msg) sig
      = (true, None).
Proof.
  unfold SignTransactionWithRippleKey.
  destruct rawTx as [tx|]; [|discriminate].
  destruct (SigningHash lib tx) as [[msgHash msg]|] eqn:Hhash; [|discriminate].
  destruct (Sign sgn _ _ _) as [sig|]; [|discriminate].
  destruct (Verify sgn _ _ _ _) as [valid err] eqn:Hver.
  destruct valid, err; try discriminate.
  intros _. exists tx, msgHash, msg, sig. auto.
Qed.

Lemma MPCSignTransaction_verified rawTx args stx h e :
  snd (MPCSignTransaction reg lib sgn rawTx args) = Done (Some stx, h, e) ->
  exists tx msgHash msg pubkey sig,
    rawTx = TxPayment tx /\
    SigningHash lib tx = Ok (msgHash, msg) /\
    Verify sgn pubkey msgHash (SigningPrefix lib tx ++ msg) sig = (true, None).
Proof.
  unfold MPCSignTransaction.
  destruct rawTx as [tx|]; [|discriminate].
  destruct (verifyTransactionWithArgs lib sgn tx args); [discriminate|].
  destruct (SignWithPrivateKey reg).
  { destruct (HexToECDSA sgn _) as [d|]; [|discriminate]. cbn [snd].
    unfold SignTransactionWithPrivateKey. intros H.
    apply SignTransactionWithRippleKey_verified in H.
    destruct H as (tx' & msgHash & msg & sig & Htx & Hhash & Hver).
    inversion Htx; subst tx'. eauto 10. }
  destruct (SigningHash lib tx) as [[msgHash msg]|] eqn:Hhash; [|discriminate].
  match goal with
  | |- context [match ?r with Done _ => _ | Panic => _ end] => destruct r as [call|]
  end; [|discriminate].
  cbn [snd].
  destruct (DoSignOne sgn _ _ _ _) as [[keyID rsvs]|]; [|discriminate].
  destruct (negb (length rsvs =? 1)%nat); [discriminate|].
  destruct (head rsvs) as [rsv|]; [|discriminate]. cbn [deref mbind outcome_bind].
  destruct (rsvToSig _ _ _) as [sig|]; [|discriminate]. cbn [mbind outcome_bind].
  destruct (Verify sgn _ _ _ _) as [valid err] eqn:Hver.
  destruct valid, err; try discriminate.
  intros _. exists tx, msgHash, msg. eauto 10.
Qed.
(** The verification gate where a signature is obtained.  On the remote
    path once the RSV text has been decoded, on the local-key path and on
    the local-key path entered through [MPCSignTransaction]: when the
    signature does not verify against the public key, the signing hash and
    the message, the result is the verification error and no transaction.
    Conversely, neither path ever returns a transaction unless [Verify]
    accepted a signature for the transaction's signing hash and
    message. *)
Theorem verification_gate :
  (forall tx args call keyID rsv msgHash msg sig valid err,
     fst (MPCSignTransaction reg lib sgn (TxPayment tx) args) = [call] ->
     SigningHash lib tx = Ok (msgHash, msg) ->
     DoSignOne sgn (callSignType call) (callPubkey call) (callContent call)
       (callContext call) = Ok (keyID, [rsv]) ->
     rsvToSig (Serialize sgn) rsv
       (isEd25519Pubkey (FromHex (GetMPCPublicKey reg (From args)))) = Done sig ->
     Verify sgn (FromHex (GetMPCPublicKey reg (From args))) msgHash
       (SigningPrefix lib tx ++ msg) sig = (valid, err) ->
     valid = false \/ err <> None ->
     snd (MPCSignTransaction reg lib sgn (TxPayment tx) args) =
     Done (None, "", Some (ErrVerifySignature valid err))) /\
  (forall tx key keyseq msgHash msg sig valid err,
     SigningHash lib tx = Ok (msgHash, msg) ->
     Sign sgn (KeyPrivate key keyseq) msgHash (SigningPrefix lib tx ++ msg) = Ok sig ->
     Verify sgn (KeyPublic key keyseq) msgHash (SigningPrefix lib tx ++ msg) sig
       = (valid, err) ->
     valid = false \/ err <> None ->
     SignTransactionWithRippleKey lib sgn (TxPayment tx) key keyseq =
     Done (None, "", Some (ErrVerifySignature valid err))) /\
  (forall tx args d msgHash msg sig valid err,
     verifyTransactionWithArgs lib sgn tx args = None ->
     SignWithPrivateKey reg = true ->
     HexToECDSA sgn (GetSignerPrivateKey reg (ChainID reg)) = Ok d ->
     let key := NewECDSAKeyFromPrivKeyBytes sgn (BigIntBytes sgn d) in
     SigningHash lib tx = Ok (msgHash, msg) ->
     Sign sgn (KeyPrivate key None) msgHash (SigningPrefix lib tx ++ msg) = Ok sig ->
     Verify sgn (KeyPublic key None) msgHash (SigningPrefix lib tx ++ msg) sig
       = (valid, err) ->
     valid = false \/ err <> None ->
     MPCSignTransaction reg lib sgn (TxPayment tx) args =
     ([], Done (None, "", Some (ErrVerifySignature valid err)))) /\
  (forall rawTx key keyseq stx h e,
     SignTransactionWithRippleKey lib sgn rawTx key keyseq = Done (Some stx, h, e) ->
     exists tx msgHash msg sig,
       rawTx = TxPayment tx /\
       SigningHash lib tx = Ok (msgHash, msg) /\
       Verify sgn (KeyPublic key keyseq) msgHash (SigningPrefix lib tx ++ msg) sig
         = (true, None)) /\
  (forall rawTx args stx h e,
     snd (MPCSignTransaction reg lib sgn rawTx args) = Done (Some stx, h, e) ->
     exists tx msgHash msg pubkey sig,
       rawTx = TxPayment tx /\
       SigningHash lib tx = Ok (msgHash, msg) /\
       Verify sgn pubkey msgHash (SigningPrefix lib tx ++ msg) sig = (true, None)).
Proof.
  assert (Hlocal : forall tx key keyseq msgHash msg sig valid err,
     SigningHash lib tx = Ok (msgHash, msg) ->
     Sign sgn (KeyPrivate key keyseq) msgHash (SigningPrefix lib tx ++ msg) = Ok sig ->
     Verify sgn (KeyPublic key keyseq) msgHash (SigningPrefix lib tx ++ msg) sig
       = (valid, err) ->
     valid = false \/ err <> None ->
     SignTransactionWithRippleKey lib sgn (TxPayment tx) key keyseq =
     Done (None, "", Some (ErrVerifySignature valid err))).
  { intros tx key keyseq msgHash msg sig valid err Hhash Hsign Hver Hbad.
    unfold SignTransactionWithRippleKey.
    rewrite Hhash, Hsign, Hver, (verify_gate_closed _ _ Hbad). reflexivity. }
  split; [|split; [exact Hlocal|split;
    [|split; [exact SignTransactionWithRippleKey_verified
             |exact MPCSignTransaction_verified]]]].
  - intros tx args call keyID rsv msgHash msg sig valid err
      Hcall Hhash Hsign Hsig Hver Hbad.
    destruct (MPCSignTransaction_after_call _ _ _ Hcall)
      as (tx' & msgHash' & msg' & Htx & Hhash' & ->).
    inversion Htx; subst tx'. rewrite Hhash in Hhash'.
    inversion Hhash'; subst msgHash' msg'.
    rewrite Hsign. cbn [length Nat.eqb negb head deref mbind outcome_bind].
    rewrite Hsig. cbn [mbind outcome_bind].
    rewrite Hver, (verify_gate_closed _ _ Hbad). reflexivity.
  - intros tx args d msgHash msg sig valid err Hok Hmode Hkey key Hhash Hsign Hver Hbad.
    subst key. unfold MPCSignTransaction. rewrite Hok, Hmode, Hkey.
    unfold SignTransactionWithPrivateKey.
    rewrite (Hlocal tx _ None msgHash msg sig valid err Hhash Hsign Hver Hbad).
    reflexivity.
Qed.

(** C1 (what the code does).  On the remote path the oracle's RSV text is
    decoded before it is verified.  When the sender's key is not EdDSA and
    the oracle answers the request with one RSV text of fewer than 128
    characters, [MPCSignTransaction] panics in [rsvToSig]: the signature
    is never verified and no error is returned. *)
Theorem remote_signing_panics_before_verify rawTx args call keyID rsv :
  fst (MPCSignTransaction reg lib sgn rawTx args) = [call] ->
  DoSignOne sgn (callSignType call) (callPubkey call) (callContent call)
    (callContext call) = Ok (keyID, [rsv]) ->
  isEd25519Pubkey (FromHex (GetMPCPublicKey reg (From args))) = false ->
  (String.length rsv < 128)%nat ->
  snd (MPCSignTransaction reg lib sgn rawTx args) = Panic.
Proof.
  intros Hcall Hsign Hed Hlen.
  destruct (MPCSignTransaction_after_call _ _ _ Hcall) as (tx & msgHash & msg & _ & _ & ->).
  rewrite Hsign, Hed. cbn [length Nat.eqb negb head deref mbind outcome_bind].
  rewrite (proj2 (rsvToSig_panic_iff (Serialize sgn) rsv)); [reflexivity|].
  rewrite cap_DecodeString. apply Nat.Div0.div_lt_upper_bound. lia.
Qed.

Lemma isEd25519Pubkey_spec pubkey :
  isEd25519Pubkey pubkey = true <-> length pubkey = 33%nat /\ head pubkey = Some 237.
Proof.
  unfold isEd25519Pubkey. rewrite andb_true_iff, Nat.eqb_eq.
  destruct pubkey as [|b0 rest]; cbn [head].
  - split; intros [? ?]; discriminate.
  - rewrite Z.eqb_eq. split; intros [? H]; split; try assumption; congruence.
Qed.

(** C3 (what the code does).  A public key of 33 bytes that starts with
    0xED is the EdDSA case: the first two characters of the key text are
    dropped and the content is the hex text of signing prefix and message,
    but the request carries the tag [SignTypeEC256K1]; every other key
    sends the text of the signing hash under the tag [SignTypeED25519]. *)
Theorem mpc_sign_request tx args msgHash msg :
  verifyTransactionWithArgs lib sgn tx args = None ->
  SignWithPrivateKey reg = false ->
  SigningHash lib tx = Ok (msgHash, msg) ->
  let pubkeyStr := GetMPCPublicKey reg (From args) in
  let pubkey := FromHex pubkeyStr in
  (length pubkey = 33%nat /\ head pubkey = Some 237 ->
   forall stripped, strFrom 2 pubkeyStr = Done stripped ->
   fst (MPCSignTransaction reg lib sgn (TxPayment tx) args) =
   [mkSignCall SignTypeEC256K1 stripped
      (ToHex sgn (SigningPrefix lib tx ++ msg)) (GetExtraArgsJSON reg args)]) /\
  (~ (length pubkey = 33%nat /\ head pubkey = Some 237) ->
   fst (MPCSignTransaction reg lib sgn (TxPayment tx) args) =
   [mkSignCall SignTypeED25519 pubkeyStr (HashString lib msgHash)
      (GetExtraArgsJSON reg args)]).
Proof.
  intros Hok Hmode Hhash pubkeyStr pubkey. split.
  - intros Hed stripped Hstrip. apply isEd25519Pubkey_spec in Hed.
    unfold MPCSignTransaction. rewrite Hok, Hmode, Hhash.
    fold pubkeyStr. fold pubkey. rewrite Hed, Hstrip. reflexivity.
  - intros Hed. rewrite <- isEd25519Pubkey_spec in Hed.
    apply not_true_is_false in Hed.
    unfold MPCSignTransaction. rewrite Hok, Hmode, Hhash.
    fold pubkeyStr. fold pubkey. rewrite Hed. reflexivity.
Qed.

End Signing.

(** ** The theorems at work on the example ledger *)

Lemma demo_preflight token pubkeyHex local extra :
  pubkeyHex <> "" ->
  preflightOk (Demo.registry token pubkeyHex local) (Demo.args extra)
    token "rReceiver" 15000000.
Proof.
  intros Hpk. unfold preflightOk. cbn.
  repeat split; try discriminate; try assumption.
  - right. reflexivity.
  - exists "rRouter". split; reflexivity.
Qed.

Lemma native_reserve_rule_witness :
  (exists args',
     BuildRawTransaction (Demo.registry Demo.xrp Demo.ecPubkeyHex false)
       (Demo.ledger 20000000 0 0 (Ok (Some 5))) Demo.lib (Demo.args None) =
     Done (args', None, Some (ErrInsufficientNativeSender "rRouter"))) /\
  (exists args',
     BuildRawTransaction (Demo.registry Demo.xrp Demo.ecPubkeyHex false)
       (Demo.ledger 25050000 0 0 (Ok (Some 5))) Demo.lib (Demo.args None) =
     Done (args', None, Some (ErrInsufficientNativeSender "rRouter"))).
Proof.
  split.
  - destruct (native_reserve_rule (Demo.registry Demo.xrp Demo.ecPubkeyHex false)
                (Demo.ledger 20000000 0 0 (Ok (Some 5))) Demo.lib (Demo.args None)
                Demo.xrp "rReceiver" 15000000 (mkAmount 15000000 "XRP" []))
      as (_ & _ & Hscenario).
    + apply demo_preflight. discriminate.
    + right. exists (Some 5). reflexivity.
    + reflexivity.
    + reflexivity.
    + apply Hscenario; reflexivity.
  - apply (proj1 (native_reserve_rule (Demo.registry Demo.xrp Demo.ecPubkeyHex false)
                    (Demo.ledger 25050000 0 0 (Ok (Some 5))) Demo.lib (Demo.args None)
                    Demo.xrp "rReceiver" 15000000 (mkAmount 15000000 "XRP" [])
                    (demo_preflight Demo.xrp Demo.ecPubkeyHex false None ltac:(discriminate))
                    (or_intror (ex_intro _ (Some 5) eq_refl)) eq_refl eq_refl) 25050000).
    + reflexivity.
    + vm_compute. reflexivity.
Defined.

Lemma issued_asset_rule_witness :
  (exists args',
     BuildRawTransaction (Demo.registry Demo.usd Demo.ecPubkeyHex false)
       (Demo.ledger 20000000 0 0 (Ok None)) Demo.lib (Demo.args None) =
     Done (args', None, Some (ErrInsufficientNativeReceiver "rReceiver"))) /\
  (exists args',
     BuildRawTransaction (Demo.registry Demo.usd Demo.ecPubkeyHex false)
       (Demo.ledger 20000000 10000000 5 (Ok None)) Demo.lib (Demo.args None) =
     Done (args', None, Some (ErrInsufficientIssued "USD" "rIssuer" "rRouter"))).
Proof.
  split.
  - apply (proj1 (issued_asset_rule (Demo.registry Demo.usd Demo.ecPubkeyHex false)
              (Demo.ledger 20000000 0 0 (Ok None)) Demo.lib (Demo.args None)
              Demo.usd "rReceiver" 15000000 (mkAmount 15000000 "USD" [7])
              (demo_preflight Demo.usd Demo.ecPubkeyHex false None ltac:(discriminate))
              (or_intror (ex_intro _ None eq_refl)) eq_refl eq_refl) 0);
      [reflexivity | lia].
  - apply (proj2 (issued_asset_rule (Demo.registry Demo.usd Demo.ecPubkeyHex false)
              (Demo.ledger 20000000 10000000 5 (Ok None)) Demo.lib (Demo.args None)
              Demo.usd "rReceiver" 15000000 (mkAmount 15000000 "USD" [7])
              (demo_preflight Demo.usd Demo.ecPubkeyHex false None ltac:(discriminate))
              (or_intror (ex_intro _ None eq_refl)) eq_refl eq_refl) 10000000 5);
      [reflexivity | lia | reflexivity | reflexivity].
Defined.

Lemma getPaymentAmount_overflow_guard_witness :
  getPaymentAmount Demo.lib (2 ^ 63) Demo.xrp = Err (ErrAmountOverflow (2 ^ 63)) /\
  getPaymentAmount Demo.lib (2 ^ 63 - 1) Demo.xrp = Ok (mkAmount (2 ^ 63 - 1) "XRP" []).
Proof.
  destruct (getPaymentAmount_overflow_guard Demo.lib (2 ^ 63) Demo.xrp) as [_ Hhi].
  destruct (getPaymentAmount_overflow_guard Demo.lib (2 ^ 63 - 1) Demo.xrp) as [_ Hlo].
  split.
  - apply (proj1 (Hhi "XRP" eq_refl)). lia.
  - rewrite (proj2 (Hlo "XRP" eq_refl)) by lia. reflexivity.
Defined.

(** The amount -1 is not a non-negative integer, and [getPaymentAmount]
    does not answer it with the overflow error: it hands -1 on. *)
Lemma getPaymentAmount_negative_amount_passes :
  ~ (0 <= -1) /\
  getPaymentAmount Demo.lib (-1) Demo.xrp = NewAmount Demo.lib (-1) /\
  getPaymentAmount Demo.lib (-1) Demo.xrp <> Err (ErrAmountOverflow (-1)).
Proof. split; [lia|]. split; [reflexivity|]. discriminate. Qed.

Lemma sequence_fetch_failure_panics_witness :
  BuildRawTransaction (Demo.registry Demo.xrp Demo.ecPubkeyHex false)
    (Demo.ledger 20000000 0 0 (Err (ErrExternal "actNotFound"))) Demo.lib
    (Demo.args None) = Panic.
Proof.
  apply (proj2 (sequence_fetch_failure_panics
                  (Demo.registry Demo.xrp Demo.ecPubkeyHex false)
                  (Demo.ledger 20000000 0 0 (Err (ErrExternal "actNotFound")))
                  Demo.lib (Demo.args None) Demo.xrp "rReceiver" 15000000
                  (ErrExternal "actNotFound")
                  (demo_preflight Demo.xrp Demo.ecPubkeyHex false None ltac:(discriminate)) eq_refl eq_refl)).
Defined.

Lemma build_failure_returns_nil_nil_witness :
  BuildRawTransaction (Demo.registry Demo.xrp Demo.ecPubkeyHex false)
    (Demo.ledger 100000000 50000000 0 (Ok None)) Demo.lib
    (Demo.args (Some (mkAllExtras (Some 7) (Some "ten")))) =
  Done (Demo.args (Some (mkAllExtras (Some 7) (Some "ten"))), None, None).
Proof.
  apply (build_failure_returns_nil_nil
           (Demo.registry Demo.xrp Demo.ecPubkeyHex false)
           (Demo.ledger 100000000 50000000 0 (Ok None)) Demo.lib
           (Demo.args (Some (mkAllExtras (Some 7) (Some "ten"))))
           Demo.xrp "rReceiver" 15000000 (mkAmount 15000000 "XRP" [])
           (mkAllExtras (Some 7) (Some "ten")) [5] (mkAmount 1 "XRP" [])).
  - apply demo_preflight. discriminate.
  - reflexivity.
  - reflexivity.
  - split; reflexivity.
  - reflexivity.
  - reflexivity.
  - left. exists (ErrExternal "invalid value"). reflexivity.
Defined.

Lemma oracle_result_count_guard_witness :
  snd (MPCSignTransaction (Demo.registry Demo.xrp Demo.ecPubkeyHex false) Demo.lib
         (Demo.signer (Ok ("key-1", ["aa"; "bb"])) true)
         (TxPayment Demo.payment) (Demo.args None)) =
  Done (None, "", Some (ErrRequireOneRsv 2 "key-1")).
Proof.
  apply (oracle_result_count_guard (Demo.registry Demo.xrp Demo.ecPubkeyHex false)
           Demo.lib (Demo.signer (Ok ("key-1", ["aa"; "bb"])) true)
           (TxPayment Demo.payment) (Demo.args None)
           (mkSignCall SignTypeED25519 Demo.ecPubkeyHex "HASH" "{}") "key-1" ["aa"; "bb"]).
  - reflexivity.
  - reflexivity.
  - discriminate.
Defined.

Lemma verification_gate_witness :
  snd (MPCSignTransaction (Demo.registry Demo.xrp Demo.edPubkeyHex false) Demo.lib
         (Demo.signer (Ok ("key-1", ["0102"])) false)
         (TxPayment Demo.payment) (Demo.args None)) =
  Done (None, "", Some (ErrVerifySignature false None)) /\
  SignTransactionWithRippleKey Demo.lib (Demo.signer (Err (ErrExternal "")) false)
    (TxPayment Demo.payment) Demo.key None =
  Done (None, "", Some (ErrVerifySignature false None)) /\
  MPCSignTransaction (Demo.registry Demo.xrp Demo.edPubkeyHex true) Demo.lib
    (Demo.signer (Err (ErrExternal "")) false) (TxPayment Demo.payment) (Demo.args None) =
  ([], Done (None, "", Some (ErrVerifySignature false None))) /\
  (exists tx msgHash msg sig,
     TxPayment Demo.payment = TxPayment tx /\
     SigningHash Demo.lib tx = Ok (msgHash, msg) /\
     Verify (Demo.signer (Err (ErrExternal "")) true) (KeyPublic Demo.key None)
       msgHash (SigningPrefix Demo.lib tx ++ msg) sig = (true, None)).
Proof.
  split; [|split; [|split]].
  - apply (proj1 (verification_gate (Demo.registry Demo.xrp Demo.edPubkeyHex false)
                    Demo.lib (Demo.signer (Ok ("key-1", ["0102"])) false))
             Demo.payment (Demo.args None)
             (mkSignCall SignTypeEC256K1
                "0102030405060708090A0B0C0D0E0F101112131415161718191A1B1C1D1E1F20"
                "HEX" "{}")
             "key-1" "0102" [1; 1] [2; 2] [1; 2] false None);
      try reflexivity. left. reflexivity.
  - apply (proj1 (proj2 (verification_gate (Demo.registry Demo.xrp Demo.edPubkeyHex false)
                    Demo.lib (Demo.signer (Err (ErrExternal "")) false)))
             Demo.payment Demo.key None [1; 1] [2; 2] [1; 2; 3] false None);
      try reflexivity. left. reflexivity.
  - apply (proj1 (proj2 (proj2 (verification_gate
                    (Demo.registry Demo.xrp Demo.edPubkeyHex true)
                    Demo.lib (Demo.signer (Err (ErrExternal "")) false))))
             Demo.payment (Demo.args None) 1 [1; 1] [2; 2] [1; 2; 3] false None);
      try reflexivity. left. reflexivity.
  - eapply (proj1 (proj2 (proj2 (proj2 (verification_gate
                    (Demo.registry Demo.xrp Demo.edPubkeyHex false)
                    Demo.lib (Demo.signer (Err (ErrExternal "")) true)))))
              (TxPayment Demo.payment) Demo.key None).
    vm_compute. reflexivity.
Defined.

Lemma mpc_sign_request_witness :
  fst (MPCSignTransaction (Demo.registry Demo.xrp Demo.edPubkeyHex false) Demo.lib
         (Demo.signer (Err (ErrExternal "")) true)
         (TxPayment Demo.payment) (Demo.args None)) =
  [mkSignCall SignTypeEC256K1
     "0102030405060708090A0B0C0D0E0F101112131415161718191A1B1C1D1E1F20"
     "HEX" "{}"] /\
  fst (MPCSignTransaction (Demo.registry Demo.xrp Demo.ecPubkeyHex false) Demo.lib
         (Demo.signer (Err (ErrExternal "")) true)
         (TxPayment Demo.payment) (Demo.args None)) =
  [mkSignCall SignTypeED25519 Demo.ecPubkeyHex "HASH" "{}"].
Proof.
  split.
  - apply (proj1 (mpc_sign_request (Demo.registry Demo.xrp Demo.edPubkeyHex false)
                    Demo.lib (Demo.signer (Err (ErrExternal "")) true)
                    Demo.payment (Demo.args None) [1; 1] [2; 2]
                    eq_refl eq_refl eq_refl)).
    + split; reflexivity.
    + reflexivity.
  - apply (proj2 (mpc_sign_request (Demo.registry Demo.xrp Demo.ecPubkeyHex false)
                    Demo.lib (Demo.signer (Err (ErrExternal "")) true)
                    Demo.payment (Demo.args None) [1; 1] [2; 2]
                    eq_refl eq_refl eq_refl)).
    intros [_ H]. vm_compute in H. discriminate H.
Defined.

Lemma remote_signing_panics_before_verify_witness :
  snd (MPCSignTransaction (Demo.registry Demo.xrp Demo.ecPubkeyHex false) Demo.lib
         (Demo.signer (Ok ("key-1", ["00ff"])) false)
         (TxPayment Demo.payment) (Demo.args None)) = Panic.
Proof.
  apply (remote_signing_panics_before_verify
           (Demo.registry Demo.xrp Demo.ecPubkeyHex false) Demo.lib
           (Demo.signer (Ok ("key-1", ["00ff"])) false)
           (TxPayment Demo.payment) (Demo.args None)
           (mkSignCall SignTypeED25519 Demo.ecPubkeyHex "HASH" "{}") "key-1" "00ff").
  - reflexivity.
  - reflexivity.
  - reflexivity.
  - simpl. lia.
Defined.

(** Three native sends on which the reserve rule, taken without its
    conditions, fails.  An amount of 2^63 leaves the sender far below the
    floor, yet the build ends with the overflow error of the amount
    conversion, which comes before the balance checks.  With an amount of 1
    the receiver stays below the floor, yet the build ends with the
    sender's error, whose check comes first.  And the sender holding
    20,000,000 that is to pay 15,000,000 under the default fee gets no
    error at all when the [Extra] slot is empty and the account fetch
    fails: the build panics. *)
Lemma native_reserve_rule_unconditional_fails :
  (20000000 - 2 ^ 63 - 100000 < 10000000 /\
   BuildRawTransaction (Demo.registry Demo.xrp Demo.ecPubkeyHex false)
     (Demo.ledger 20000000 50000000 0 (Ok (Some 5))) Demo.lib
     (mkBuildTxArgs "swap-1" ERC20SwapType "56" "ripple" "rRouter" "rReceiver"
        "0xfrom" "0xto" (2 ^ 63) (mkERC20SwapInfo "0xtoken" "XRP")
        (Some (mkAllExtras (Some 7) (Some "10")))) =
   Done (mkBuildTxArgs "swap-1" ERC20SwapType "56" "ripple" "rRouter" "rReceiver"
           "0xfrom" "0xto" (2 ^ 63) (mkERC20SwapInfo "0xtoken" "XRP")
           (Some (mkAllExtras (Some 7) (Some "10"))),
         None, Some (ErrAmountOverflow (2 ^ 63)))) /\
  (0 + 1 < 10000000 /\
   BuildRawTransaction (Demo.registry Demo.xrp Demo.ecPubkeyHex false)
     (Demo.ledger 5000000 0 0 (Ok (Some 5))) Demo.lib
     (mkBuildTxArgs "swap-1" ERC20SwapType "56" "ripple" "rRouter" "rReceiver"
        "0xfrom" "0xto" 1 (mkERC20SwapInfo "0xtoken" "XRP")
        (Some (mkAllExtras (Some 7) (Some "10")))) =
   Done (mkBuildTxArgs "swap-1" ERC20SwapType "56" "ripple" "rRouter" "rReceiver"
           "0xfrom" "0xto" 1 (mkERC20SwapInfo "0xtoken" "XRP")
           (Some (mkAllExtras (Some 7) (Some "10"))),
         None, Some (ErrInsufficientNativeSender "rRouter"))) /\
  (20000000 - OriginValue (Demo.args None) - 100000 < 10000000 /\
   getMinReserveFee (Demo.registry Demo.xrp Demo.ecPubkeyHex false) = 100000 /\
   BuildRawTransaction (Demo.registry Demo.xrp Demo.ecPubkeyHex false)
     (Demo.ledger 20000000 50000000 0 (Err (ErrExternal "actNotFound"))) Demo.lib
     (Demo.args None) = Panic).
Proof.
  split; [split; [lia|vm_compute; reflexivity]|].
  split; [split; [lia|vm_compute; reflexivity]|].
  split; [vm_compute; reflexivity|]. split; reflexivity.
Qed.

(** Three issued-asset sends on which the rule, taken without its
    conditions, fails.  To a destination without native balance the build
    does not end with the receiver's error when the amount is 2^63: it
    does not convert, and the overflow error comes before the balance
    checks.  With a trust line of 5 against an amount of 15,000,000 the
    build ends with the receiver's error, not the issued-balance error,
    when the destination is below the floor: that check comes first.  And
    with an empty [Extra] slot and a failing account fetch the build
    panics. *)
Lemma issued_asset_rule_unconditional_fails :
  (0 < 10000000 /\
   BuildRawTransaction (Demo.registry Demo.usd Demo.ecPubkeyHex false)
     (Demo.ledger 20000000 0 0 (Ok (Some 5))) Demo.lib
     (mkBuildTxArgs "swap-1" ERC20SwapType "56" "ripple" "rRouter" "rReceiver"
        "0xfrom" "0xto" (2 ^ 63) (mkERC20SwapInfo "0xtoken" "XRP")
        (Some (mkAllExtras (Some 7) (Some "10")))) =
   Done (mkBuildTxArgs "swap-1" ERC20SwapType "56" "ripple" "rRouter" "rReceiver"
           "0xfrom" "0xto" (2 ^ 63) (mkERC20SwapInfo "0xtoken" "XRP")
           (Some (mkAllExtras (Some 7) (Some "10"))),
         None, Some (ErrAmountOverflow (2 ^ 63)))) /\
  (5 < OriginValue (Demo.args None) /\
   BuildRawTransaction (Demo.registry Demo.usd Demo.ecPubkeyHex false)
     (Demo.ledger 20000000 0 5 (Ok (Some 5))) Demo.lib
     (Demo.args (Some (mkAllExtras (Some 7) (Some "10")))) =
   Done (Demo.args (Some (mkAllExtras (Some 7) (Some "10"))),
         None, Some (ErrInsufficientNativeReceiver "rReceiver"))) /\
  (0 < 10000000 /\
   BuildRawTransaction (Demo.registry Demo.usd Demo.ecPubkeyHex false)
     (Demo.ledger 20000000 0 0 (Err (ErrExternal "actNotFound"))) Demo.lib
     (Demo.args None) = Panic).
Proof.
  split; [split; [lia|vm_compute; reflexivity]|].
  split; [split; [vm_compute; reflexivity|vm_compute; reflexivity]|].
  split; [lia|reflexivity].
Qed.

(** * Further properties *)

(** ** The Cosmos chain registry *)

Section CosmosRegistry.

Variable ToUpper : string -> string.
Variable BigString : Z -> string.
Variable StubChainIDBase : Z.

Lemma GetStubChainID_known chainName network :
  StubChainIDBase <> 0 -> cosmos.knownNetwork network ->
  cosmos.GetStubChainID ToUpper StubChainIDBase chainName network =
  cosmos.Returns
    ((cosmos.SetBytes (bytesOfString (ToUpper chainName)) + cosmos.networkOffset network)
       mod Z.abs StubChainIDBase + StubChainIDBase).
Proof.
  intros Hb Hn. unfold cosmos.GetStubChainID, cosmos.Mod, cosmos.networkOffset.
  destruct Hn as [-> | [-> | ->]]; cbn [bool_decide decide_rel]; simpl bool_decide;
    cbn [mbind cosmos.run_bind]; rewrite (proj2 (Z.eqb_neq _ _) Hb);
    cbn [mbind cosmos.run_bind]; rewrite ?Z.add_0_r; reflexivity.
Qed.

Lemma GetStubChainID_range_aux chainName network :
  StubChainIDBase <> 0 -> cosmos.knownNetwork network ->
  exists id,
    cosmos.GetStubChainID ToUpper StubChainIDBase chainName network = cosmos.Returns id.
Proof. intros Hb Hn. eexists. apply GetStubChainID_known; assumption. Qed.

(** X1. For each of the three networks and a base that is not zero,
    [GetStubChainID] returns an ID in the window of width |base| that
    starts at the base: for a positive base, base <= id < 2 * base. *)
Theorem GetStubChainID_range chainName network :
  StubChainIDBase <> 0 -> cosmos.knownNetwork network ->
  exists id,
    cosmos.GetStubChainID ToUpper StubChainIDBase chainName network = cosmos.Returns id /\
    StubChainIDBase <= id < StubChainIDBase + Z.abs StubChainIDBase.
Proof.
  intros Hb Hn. eexists. split; [apply GetStubChainID_known; assumption|].
  pose proof (Z.mod_pos_bound
    (cosmos.SetBytes (bytesOfString (ToUpper chainName)) + cosmos.networkOffset network)
    (Z.abs StubChainIDBase)) as H.
  lia.
Qed.

(** X2. [GetStubChainID] does not return for any other network name: the
    process ends in [log.Fatalf], whatever the chain name and the base;
    and for a base of zero it panics on every known network. *)
Theorem GetStubChainID_unknown_network chainName network :
  (~ cosmos.knownNetwork network ->
   cosmos.GetStubChainID ToUpper StubChainIDBase chainName network =
   cosmos.Fatalf network) /\
  (cosmos.knownNetwork network -> StubChainIDBase = 0 ->
   cosmos.GetStubChainID ToUpper StubChainIDBase chainName network = cosmos.Panics).
Proof.
  clear BigString.
  unfold cosmos.knownNetwork, cosmos.GetStubChainID. split.
  - intros Hn.
    rewrite !bool_decide_eq_false_2 by tauto. reflexivity.
  - intros Hn ->. unfold cosmos.Mod.
    destruct Hn as [-> | [-> | ->]]; reflexivity.
Qed.

(** X3. The test and development networks of a chain get the IDs that
    follow the main network's, wrapping around inside the window. *)
Theorem GetStubChainID_consecutive chainName main :
  0 < StubChainIDBase ->
  cosmos.GetStubChainID ToUpper StubChainIDBase chainName cosmos.mainnetNetWork =
    cosmos.Returns main ->
  cosmos.GetStubChainID ToUpper StubChainIDBase chainName cosmos.testnetNetWork =
    cosmos.Returns ((main - StubChainIDBase + 1) mod StubChainIDBase + StubChainIDBase) /\
  cosmos.GetStubChainID ToUpper StubChainIDBase chainName cosmos.devnetNetWork =
    cosmos.Returns ((main - StubChainIDBase + 2) mod StubChainIDBase + StubChainIDBase).
Proof.
  intros Hb Hmain.
  rewrite GetStubChainID_known in Hmain by (unfold cosmos.knownNetwork; auto; lia).
  inversion Hmain as [Hm]. clear Hmain.
  rewrite !GetStubChainID_known by (unfold cosmos.knownNetwork; auto; lia).
  rewrite Z.abs_eq in * by lia.
  change (cosmos.networkOffset cosmos.mainnetNetWork) with 0.
  change (cosmos.networkOffset cosmos.testnetNetWork) with 1.
  change (cosmos.networkOffset cosmos.devnetNetWork) with 2.
  rewrite Z.add_0_r.
  set (v := cosmos.SetBytes (bytesOfString (ToUpper chainName))).
  replace (v mod StubChainIDBase + StubChainIDBase - StubChainIDBase + 1)
    with (v mod StubChainIDBase + 1) by lia.
  replace (v mod StubChainIDBase + StubChainIDBase - StubChainIDBase + 2)
    with (v mod StubChainIDBase + 2) by lia.
  rewrite !Z.add_mod_idemp_l by lia. split; reflexivity.
Qed.

Lemma registerChains_spec chains m :
  StubChainIDBase <> 0 ->
  exists m',
    cosmos.registerChains ToUpper BigString StubChainIDBase chains m = cosmos.Returns m' /\
    forall key,
      default false (m' !! key) = true <->
      default false (m !! key) = true \/ cosmos.registered ToUpper BigString StubChainIDBase chains key.
Proof.
  intros Hb. revert m. induction chains as [|chain rest IH]; intros m.
  - exists m. split; [reflexivity|]. intros key. split; [auto|].
    intros [H|(c & n & id & [] & _)]. exact H.
  - cbn [cosmos.registerChains].
    destruct (GetStubChainID_range_aux chain cosmos.mainnetNetWork Hb) as (i0 & E0);
      [unfold cosmos.knownNetwork; auto|].
    destruct (GetStubChainID_range_aux chain cosmos.testnetNetWork Hb) as (i1 & E1);
      [unfold cosmos.knownNetwork; auto|].
    destruct (GetStubChainID_range_aux chain cosmos.devnetNetWork Hb) as (i2 & E2);
      [unfold cosmos.knownNetwork; auto|].
    rewrite E0, E1, E2. cbn [mbind cosmos.run_bind].
    destruct (IH (<[BigString i2:=true]> (<[BigString i1:=true]> (<[BigString i0:=true]> m))))
      as (m' & Em & Hm).
    exists m'. split; [exact Em|]. intros key. rewrite Hm.
    rewrite !lookup_insert. split.
    + intros [H|(c & n & id & Hin & Hn & Hid & Hk)].
      * repeat case_decide; subst.
        -- right. exists chain, cosmos.devnetNetWork, i2.
           unfold cosmos.knownNetwork. cbn [In]. auto 10.
        -- right. exists chain, cosmos.testnetNetWork, i1.
           unfold cosmos.knownNetwork. cbn [In]. auto 10.
        -- right. exists chain, cosmos.mainnetNetWork, i0.
           unfold cosmos.knownNetwork. cbn [In]. auto 10.
        -- left. exact H.
      * right. exists c, n, id. cbn [In]. auto.
    + intros [H|(c & n & id & [<-|Hin] & Hn & Hid & Hk)].
      * left. repeat case_decide; auto.
      * left. subst key.
        destruct Hn as [-> | [-> | ->]]; rewrite Hid in *.
        -- inversion E0; subst. repeat case_decide; try reflexivity; congruence.
        -- inversion E1; subst. repeat case_decide; try reflexivity; congruence.
        -- inversion E2; subst. repeat case_decide; try reflexivity; congruence.
      * right. exists c, n, id. auto.
Qed.

(** X4. From the program's initial state and with a base that is not
    zero, [SupportsChainID] returns and answers true exactly for the IDs
    whose decimal text is that of the stub ID of a listed chain on one of
    the three networks; the state it leaves is initialised. *)
Theorem SupportsChainID_initial chainID :
  StubChainIDBase <> 0 ->
  exists answer st,
    cosmos.SupportsChainID ToUpper BigString StubChainIDBase cosmos.initialState chainID
      = cosmos.Returns (answer, st) /\
    cosmos.supportedChainIDsInit st = true /\
    (answer = true <-> cosmos.registered ToUpper BigString StubChainIDBase cosmos.ChainsList (BigString chainID)).
Proof.
  intros Hb. unfold cosmos.SupportsChainID. cbn [cosmos.initialState cosmos.supportedChainIDsInit cosmos.supportedChainIDs].
  destruct (registerChains_spec cosmos.ChainsList ∅ Hb) as (m' & Em & Hm).
  rewrite Em. cbn [mbind cosmos.run_bind cosmos.supportedChainIDs].
  eexists _, _. split; [reflexivity|]. split; [reflexivity|].
  rewrite Hm, lookup_empty. cbn [default]. split; [intros [H|H]; [discriminate|exact H]|auto].
Qed.

Lemma SupportsChainID_registered id :
  StubChainIDBase <> 0 ->
  cosmos.registered ToUpper BigString StubChainIDBase cosmos.ChainsList (BigString id) ->
  exists st,
    cosmos.SupportsChainID ToUpper BigString StubChainIDBase cosmos.initialState id
      = cosmos.Returns (true, st).
Proof.
  intros Hb Hreg. unfold cosmos.SupportsChainID.
  cbn [cosmos.initialState cosmos.supportedChainIDsInit cosmos.supportedChainIDs].
  destruct (registerChains_spec cosmos.ChainsList ∅ Hb) as (m' & Em & Hm).
  rewrite Em. cbn [mbind cosmos.run_bind cosmos.supportedChainIDs].
  eexists. replace (default false (m' !! BigString id)) with true; [reflexivity|].
  symmetry. apply Hm. right. exact Hreg.
Qed.

(** X5. Every listed chain is supported on each of the three networks:
    the ID [GetStubChainID] gives for it is answered with true. *)
Theorem SupportsChainID_listed chain network :
  StubChainIDBase <> 0 -> In chain cosmos.ChainsList -> cosmos.knownNetwork network ->
  exists id st,
    cosmos.GetStubChainID ToUpper StubChainIDBase chain network = cosmos.Returns id /\
    cosmos.SupportsChainID ToUpper BigString StubChainIDBase cosmos.initialState id
      = cosmos.Returns (true, st).
Proof.
  intros Hb Hin Hn.
  destruct (GetStubChainID_range_aux chain network Hb Hn) as (id & Eid).
  destruct (SupportsChainID_registered id Hb) as [st Hst].
  - exists chain, network, id. auto.
  - exists id, st. auto.
Qed.

(** X6. The registry is filled once: a call on the state that an earlier
    call left answers like a call on the initial state and leaves that
    state as it is. *)
Theorem SupportsChainID_once first st answer chainID :
  cosmos.SupportsChainID ToUpper BigString StubChainIDBase cosmos.initialState first
    = cosmos.Returns (answer, st) ->
  exists answer',
    cosmos.SupportsChainID ToUpper BigString StubChainIDBase st chainID
      = cosmos.Returns (answer', st) /\
    cosmos.SupportsChainID ToUpper BigString StubChainIDBase cosmos.initialState chainID
      = cosmos.Returns (answer', st).
Proof.
  unfold cosmos.SupportsChainID.
  cbn [cosmos.initialState cosmos.supportedChainIDsInit cosmos.supportedChainIDs].
  destruct (cosmos.registerChains ToUpper BigString StubChainIDBase cosmos.ChainsList ∅)
    as [m| |]; cbn [mbind cosmos.run_bind]; try discriminate.
  intros H. inversion H; subst. cbn [cosmos.supportedChainIDsInit cosmos.supportedChainIDs].
  eexists. split; reflexivity.
Qed.

Lemma matchChain_In chains chainName :
  cosmos.matchChain chains chainName = true <-> In chainName chains.
Proof.
  induction chains as [|c rest IH]; cbn [cosmos.matchChain In]; [split; [discriminate|tauto]|].
  case_bool_decide; [subst; tauto|]. rewrite IH. split; [auto|intros [?|?]; congruence].
Qed.

(** X7. A chain name that [IsSupportedCosmosSubChain] accepts has its
    stub IDs supported on all three networks, provided [ToUpper] leaves
    the listed names as they are. *)
Theorem IsSupportedCosmosSubChain_supported chainName network :
  StubChainIDBase <> 0 ->
  Forall (fun chain => ToUpper chain = chain) cosmos.ChainsList ->
  cosmos.IsSupportedCosmosSubChain ToUpper chainName = true ->
  cosmos.knownNetwork network ->
  exists id st,
    cosmos.GetStubChainID ToUpper StubChainIDBase chainName network = cosmos.Returns id /\
    cosmos.SupportsChainID ToUpper BigString StubChainIDBase cosmos.initialState id
      = cosmos.Returns (true, st).
Proof.
  intros Hb Hfix Hsup Hn. unfold cosmos.IsSupportedCosmosSubChain in Hsup.
  apply matchChain_In in Hsup.
  destruct (GetStubChainID_range_aux chainName network Hb Hn) as (id & Eid).
  destruct (SupportsChainID_registered id Hb) as [st Hst].
  - exists (ToUpper chainName), network, id. repeat split; try assumption.
    rewrite <- Eid. unfold cosmos.GetStubChainID.
    rewrite List.Forall_forall in Hfix. rewrite (Hfix _ Hsup). reflexivity.
  - exists id, st. auto.
Qed.

End CosmosRegistry.

(** ** More on the builder *)

Section BuilderMore.

Context {dataValue dataCurrency dataPathSet : Type}.
Variable reg : Registry.
Variable rpc : @Ledger dataValue.
Variable lib : @DataLib dataValue dataCurrency dataPathSet.

(** X8. [getReceiverAndAmount] always returns the bind address as
    receiver, and an amount exactly when it returns no error; without an
    error the receiver is a non-empty valid address, both token
    configurations exist and the amount is the one [CalcSwapValue] gives
    for their decimals. *)
Theorem getReceiverAndAmount_result args multichainToken receiver amount err :
  getReceiverAndAmount reg args multichainToken = (receiver, amount, err) ->
  receiver = Bind args /\
  (err = None <-> is_Some amount) /\
  (err = None ->
   Bind args <> "" /\ IsValidAddress reg (Bind args) = true /\
   exists fromBridgeGetTokenConfig fromTokenCfg toTokenCfg,
     GetBridgeByChainID reg (FromChainID args) = Some fromBridgeGetTokenConfig /\
     fromBridgeGetTokenConfig (Token (ArgsERC20SwapInfo args)) = Some fromTokenCfg /\
     GetTokenConfig reg multichainToken = Some toTokenCfg /\
     amount = Some (CalcSwapValue reg (TokenID (ArgsERC20SwapInfo args)) (ChainID reg)
                      (OriginValue args) (Decimals fromTokenCfg) (Decimals toTokenCfg)
                      (OriginFrom args) (OriginTxTo args))).
Proof.
  unfold getReceiverAndAmount.
  destruct (bool_decide (Bind args = "")) eqn:Hempty; cbn [orb].
  { intros H; inversion H; subst. split; [reflexivity|].
    split; [split; [discriminate|intros [? ?]; discriminate]|discriminate]. }
  destruct (IsValidAddress reg (Bind args)) eqn:Hvalid; cbn [negb].
  2:{ intros H; inversion H; subst. split; [reflexivity|].
      split; [split; [discriminate|intros [? ?]; discriminate]|discriminate]. }
  destruct (GetBridgeByChainID reg (FromChainID args)) as [getCfg|] eqn:Hbridge.
  2:{ intros H; inversion H; subst. split; [reflexivity|].
      split; [split; [discriminate|intros [? ?]; discriminate]|discriminate]. }
  destruct (getCfg (Token (ArgsERC20SwapInfo args))) as [fromCfg|] eqn:Hfrom.
  2:{ intros H; inversion H; subst. split; [reflexivity|].
      split; [split; [discriminate|intros [? ?]; discriminate]|discriminate]. }
  destruct (GetTokenConfig reg multichainToken) as [toCfg|] eqn:Hto.
  2:{ intros H; inversion H; subst. split; [reflexivity|].
      split; [split; [discriminate|intros [? ?]; discriminate]|discriminate]. }
  intros H; inversion H; subst. split; [reflexivity|].
  split; [split; eauto|]. intros _.
  split; [apply bool_decide_eq_false in Hempty; exact Hempty|].
  split; [reflexivity|]. exists getCfg, fromCfg, toCfg. auto.
Qed.

(** X9. What a successful [getPaymentAmount] guarantees: the currency is
    registered and the amount is in the signed 64-bit range; a native
    currency yields what [data.NewAmount] made of the amount, any other
    currency an amount with the registered currency, the registered issuer
    and the value [data.NewNonNativeValue] made of the amount and the
    negated decimals.  An unregistered currency is reported for every
    amount, before the range check. *)
Theorem getPaymentAmount_success amount token :
  (forall amt,
     getPaymentAmount lib amount token = Ok amt ->
     exists currency,
       currencyMap lib !! Currency (TokenRippleExtra token) = Some currency /\
       - 2 ^ 63 <= amount < 2 ^ 63 /\
       if CurrencyIsNative lib currency then NewAmount lib amount = Ok amt
       else
         exists issuer value,
           issuerMap lib !! Issuer (TokenRippleExtra token) = Some issuer /\
           NewNonNativeValue lib amount (- int64 (Decimals token)) = Ok value /\
           amt = mkAmount value currency issuer) /\
  (currencyMap lib !! Currency (TokenRippleExtra token) = None ->
   getPaymentAmount lib amount token =
   Err (ErrNonExistCurrency (Currency (TokenRippleExtra token)))).
Proof.
  split.
  - intros amt. unfold getPaymentAmount.
    destruct (currencyMap lib !! Currency (TokenRippleExtra token)) as [currency|];
      [|discriminate].
    destruct (IsInt64 amount) eqn:Hrange; cbn [negb]; [|discriminate].
    apply IsInt64_spec in Hrange. rewrite (Int64_in_range amount Hrange).
    intros H. exists currency. split; [reflexivity|]. split; [exact Hrange|].
    destruct (CurrencyIsNative lib currency); [exact H|].
    destruct (issuerMap lib !! Issuer (TokenRippleExtra token)) as [issuer|];
      [|discriminate].
    destruct (NewNonNativeValue lib amount (- int64 (Decimals token))) as [value|];
      [|discriminate].
    inversion H; subst. eauto.
  - intros Hnone. unfold getPaymentAmount. rewrite Hnone. reflexivity.
Qed.

(** X10. [checkNativeBalance] panics exactly when the balance fetch
    returns neither a balance nor an error.  Otherwise it returns no
    error exactly when the balance, reduced by the amount for the payer
    and raised by it for the receiver, is at least 10,000,000, and the
    error it returns names the payer's side or the receiver's according
    to [isPay]. *)
Theorem checkNativeBalance_cases account amount isPay :
  (checkNativeBalance rpc account amount isPay = Panic <->
   GetBalance rpc account = (None, None)) /\
  (forall balance,
     nativeBalance rpc account = Some balance ->
     let remain :=
       match amount with
       | Some a => if isPay then balance - a else balance + a
       | None => balance
       end in
     (checkNativeBalance rpc account amount isPay = Done None <-> 10000000 <= remain) /\
     (remain < 10000000 ->
      checkNativeBalance rpc account amount isPay =
      Done (Some (if isPay then ErrInsufficientNativeSender account
                  else ErrInsufficientNativeReceiver account)))).
Proof.
  split.
  - unfold checkNativeBalance.
    destruct (GetBalance rpc account) as [[b|] [e|]];
      destruct amount as [a|], isPay; cbn [deref mbind outcome_bind];
      repeat match goal with
             | |- context [?x <? accountReserve] => destruct (x <? accountReserve)
             end;
      split; intros H; try discriminate H; reflexivity.
  - intros balance Hb remain.
    rewrite (checkNativeBalance_spec rpc account amount isPay balance Hb).
    fold remain. unfold accountReserve.
    destruct (Z.ltb_spec remain 10000000) as [Hlt|Hge].
    + split; [split; [discriminate|lia]|reflexivity].
    + split; [split; [lia|reflexivity]|lia].
Qed.

(** X11. [GetSeq] returns a nil pointer exactly when it returns an error,
    and the error wraps the account error.  [swapoutDefaultArgs] panics
    exactly when the token is configured and the sender's account cannot
    be fetched; whenever it returns, both pointers of the result are set,
    and with a configured token the sequence is the adjusted account
    sequence (zero for an account without one). *)
Theorem swapoutDefaultArgs_result txargs multichainToken :
  (forall e, GetAccount rpc (From txargs) = Err e ->
     GetSeq reg rpc txargs = (None, Some (ErrCannotGetAccount e))) /\
  (forall seq, GetAccount rpc (From txargs) = Ok seq ->
     GetSeq reg rpc txargs =
     (Some (AdjustNonce reg (From txargs) (uint64 (default 0 seq))), None)) /\
  (swapoutDefaultArgs reg rpc lib txargs multichainToken = Panic <->
   is_Some (GetTokenConfig reg multichainToken) /\
   exists e, GetAccount rpc (From txargs) = Err e) /\
  (forall extra,
     swapoutDefaultArgs reg rpc lib txargs multichainToken = Done extra ->
     is_Some (Sequence extra) /\ is_Some (Fee extra) /\
     (is_Some (GetTokenConfig reg multichainToken) ->
      exists seq, GetAccount rpc (From txargs) = Ok seq /\
        Sequence extra = Some (AdjustNonce reg (From txargs) (uint64 (default 0 seq))))).
Proof.
  unfold swapoutDefaultArgs, GetSeq, GetPoolNonce.
  split; [intros e ->; reflexivity|].
  split; [intros seq ->; destruct seq; reflexivity|].
  split; [split|].
  - destruct (GetTokenConfig reg multichainToken); [|discriminate].
    destruct (GetAccount rpc (From txargs)); [discriminate|]. eauto.
  - intros [[token Htok] [e He]]. rewrite Htok, He. reflexivity.
  - intros extra H.
    destruct (GetTokenConfig reg multichainToken) as [token|].
    + destruct (GetAccount rpc (From txargs)) as [seq|]; [|discriminate].
      cbn [deref mbind outcome_bind] in H. inversion H; subst.
      cbn [Sequence Fee]. split; [eauto|]. split; [eauto|]. intros _.
      exists seq. split; [reflexivity|]. destruct seq; reflexivity.
    + inversion H; subst. cbn [Sequence Fee].
      split; [eauto|]. split; [eauto|]. intros [? ?]; discriminate.
Qed.

(** X12. What [NewUnsignedPaymentTransaction] returns.  It panics
    exactly when the destination or the amount text does not parse.  A
    transaction it returns comes with its own signing hash and message;
    when it returns no transaction, the hash is all zeros and the message
    is empty. *)
Theorem NewUnsignedPaymentTransaction_result
    key keyseq txseq dest destinationTag amt fee memo path nodirect partial limit :
  let call :=
    NewUnsignedPaymentTransaction lib key keyseq txseq dest destinationTag amt fee
      memo path nodirect partial limit in
  (call = Panic <-> parseAccount lib dest = None \/ parseAmount lib amt = None) /\
  (forall payment hash msg,
     call = Done (Some payment, hash, msg) -> SigningHash lib payment = Ok (hash, msg)) /\
  (forall hash msg,
     call = Done (None, hash, msg) -> hash = replicate 32 0 /\ msg = []).
Proof.
  intros call. subst call. unfold NewUnsignedPaymentTransaction.
  destruct (parseAccount lib dest) as [destination|];
    [|cbn; repeat split; try discriminate; auto].
  destruct (parseAmount lib amt) as [amount|];
    [|cbn; repeat split; try discriminate; auto].
  cbn [deref mbind outcome_bind].
  destruct (NewValue lib fee true) as [fei|].
  2:{ repeat split; try discriminate.
      - intros [H|H]; discriminate H.
      - inversion H; reflexivity.
      - inversion H; reflexivity. }
  match goal with
  | |- context [SigningHash lib ?p] => destruct (SigningHash lib p) as [[h m]|] eqn:Hh
  end.
  - repeat split; try discriminate.
    + intros [H|H]; discriminate H.
    + intros payment hash msg H. inversion H; subst. exact Hh.
  - repeat split; try discriminate.
    + intros [H|H]; discriminate H.
    + inversion H; reflexivity.
    + inversion H; reflexivity.
Qed.

Lemma chain_check_passed args :
  negb (IsTestMode reg) && negb (bool_decide (ToChainID args = ChainID reg)) = false ->
  IsTestMode reg = true \/ ToChainID args = ChainID reg.
Proof.
  destruct (IsTestMode reg); [auto|]. cbn [negb andb].
  case_bool_decide; [auto|discriminate].
Qed.

Lemma BuildRawTransaction_inv args args' tx err :
  BuildRawTransaction reg rpc lib args = Done (args', tx, err) ->
  (exists e, err = Some e /\ tx = None /\ (args' = args \/ extraKept args args')) \/
  (err = None /\ extraKept args args' /\
   exists token receiver amount amt,
     preflightOk reg args token receiver amount /\
     getPaymentAmount lib amount token = Ok amt /\
     solvent reg rpc lib args token receiver amount amt /\
     forall payment, tx = Some payment ->
       exists hash msg, SigningHash lib payment = Ok (hash, msg)).
Proof.
  unfold BuildRawTransaction.
  destruct (negb (IsTestMode reg) && negb (bool_decide (ToChainID args = ChainID reg)))
    eqn:Hchain; [intros H; inversion H; eauto 10|].
  apply chain_check_passed in Hchain.
  case_bool_decide as Hfrom; [intros H; inversion H; eauto 10|].
  destruct (GetRouterMPC reg _ _) as [routerMPC|] eqn:Hmpc; [|intros H; inversion H; eauto 10].
  destruct (IsEqualIgnoreCase reg _ _) eqn:Heq; cbn [negb]; [|intros H; inversion H; eauto 10].
  destruct (ArgsSwapType args) eqn:Hswap; [|intros H; inversion H; eauto 10].
  case_bool_decide as Hpub; [intros H; inversion H; eauto 10|].
  case_bool_decide as Hmt; [intros H; inversion H; eauto 10|].
  destruct (GetTokenConfig reg _) as [token|] eqn:Htok; [|intros H; inversion H; eauto 10].
  destruct (getReceiverAndAmount reg args _) as [[receiver amount] [e|]] eqn:Hrecv;
    [intros H; inversion H; eauto 10|].
  intros H.
  match type of H with
  | (_ ≫= ?k) = _ =>
      assert (Hst : exists a s f,
        extraKept args a /\ From a = From args /\ k (a, s, f) = Done (args', tx, err))
  end.
  { unfold extraKept. destruct (Extra args) as [extra|] eqn:Hex.
    - cbn [mbind outcome_bind] in H. exists args. eauto 10.
    - destruct (swapoutDefaultArgs reg rpc lib args _) as [extra|];
        cbn [mbind outcome_bind] in H; [|discriminate].
      destruct extra as [[s|] [f|]]; cbn [Sequence Fee deref mbind outcome_bind] in H;
        try discriminate.
      exists (setExtra args (mkAllExtras (Some s) (Some f))), s, f.
      split; [eauto|]. split; [reflexivity|exact H]. }
  clear H. destruct Hst as (a & s & f & Hkept & Hfroma & H).
  cbv beta iota in H.
  destruct amount as [amount|]; cbn [deref mbind outcome_bind] in H; [|discriminate].
  destruct (getPaymentAmount lib amount token) as [amt|] eqn:Hamt;
    [|inversion H; subst; eauto 10].
  rewrite Hfroma in H.
  assert (Hpre : preflightOk reg args token receiver amount).
  { unfold preflightOk. cbv zeta. repeat split; try assumption. eauto. }
  match type of H with
  | (?c ≫= _) = _ => destruct c as [[e|]|] eqn:Hchecks
  end; cbn [mbind outcome_bind] in H; [inversion H; subst; eauto 10| |discriminate].
  assert (Hsolv : solvent reg rpc lib args token receiver amount amt).
  { unfold solvent. destruct (RippleExtraIsNative lib (TokenRippleExtra token)).
    - destruct (checkNativeBalance rpc (From args) _ true) as [[e1|]|];
        cbn [mbind outcome_bind] in Hchecks; try discriminate.
      split; [reflexivity|exact Hchecks].
    - destruct (checkNativeBalance rpc receiver None false) as [[e1|]|];
        cbn [mbind outcome_bind] in Hchecks; try discriminate.
      split; [reflexivity|]. inversion Hchecks. reflexivity. }
  destruct (NewUnsignedPaymentTransaction _ _ _ _ _ _ _ _ _ _ _ _ _)
    as [[[rawtx h] m]|] eqn:Hbuilt; cbn [mbind outcome_bind] in H; [|discriminate].
  inversion H; subst. right. split; [reflexivity|]. split; [exact Hkept|].
  exists token, receiver, amount, amt.
  split; [exact Hpre|]. split; [exact Hamt|]. split; [exact Hsolv|].
  intros payment ->. exists h, m.
  revert Hbuilt. unfold NewUnsignedPaymentTransaction.
  destruct (parseAccount lib receiver); [|discriminate].
  destruct (parseAmount lib _); [|discriminate]. cbn [deref mbind outcome_bind].
  destruct (NewValue lib f true); [|discriminate].
  match goal with
  | |- context [SigningHash lib ?p] => destruct (SigningHash lib p) as [[h' m']|] eqn:Hh
  end; [|discriminate].
  intros E. inversion E; subst. exact Hh.
Qed.


Lemma BuildRawTransaction_no_fetch args extra getAccount :
  Extra args = Some extra ->
  BuildRawTransaction reg (mkLedger (GetBalance rpc) (GetAccountLine rpc) getAccount) lib args =
  BuildRawTransaction reg rpc lib args.
Proof. intros Hex. unfold BuildRawTransaction. rewrite Hex. reflexivity. Qed.

Lemma BuildRawTransaction_rebuild_aux args args' tx err :
  (forall extra, GetTokenID reg (setExtra args extra) = GetTokenID reg args) ->
  BuildRawTransaction reg rpc lib args = Done (args', tx, err) ->
  is_Some (Extra args') ->
  BuildRawTransaction reg rpc lib args' = Done (args', tx, err).
Proof.
  intros Htid H Hfilled.
  destruct (Extra args) as [extra|] eqn:Hex.
  { destruct (BuildRawTransaction_inv _ _ _ _ H) as [(e & _ & _ & [->|Hk])|(_ & Hk & _)];
      try exact H; unfold extraKept in Hk; rewrite Hex in Hk; subst; exact H. }
  assert (Hnot : args' <> args).
  { intros ->. rewrite Hex in Hfilled. destruct Hfilled; discriminate. }
  revert H. unfold BuildRawTransaction at 1.
  destruct (negb (IsTestMode reg) && negb (bool_decide (ToChainID args = ChainID reg)))
    eqn:Hchain; [intros H; inversion H; subst; exfalso; apply Hnot; reflexivity|].
  destruct (bool_decide (From args = "")) eqn:Hfrom; [intros H; inversion H; subst; exfalso; apply Hnot; reflexivity|].
  destruct (GetRouterMPC reg _ _) as [routerMPC|] eqn:Hmpc; [|intros H; inversion H; subst; exfalso; apply Hnot; reflexivity].
  destruct (IsEqualIgnoreCase reg _ _) eqn:Heq; cbn [negb]; [|intros H; inversion H; subst; exfalso; apply Hnot; reflexivity].
  destruct (ArgsSwapType args) eqn:Hswap; [|intros H; inversion H; subst; exfalso; apply Hnot; reflexivity].
  destruct (bool_decide (GetMPCPublicKey reg (From args) = "")) eqn:Hpub;
    [intros H; inversion H; subst; exfalso; apply Hnot; reflexivity|].
  destruct (bool_decide (GetCachedMultichainToken reg _ _ = "")) eqn:Hmt; [intros H; inversion H; subst; exfalso; apply Hnot; reflexivity|].
  destruct (GetTokenConfig reg _) as [token|] eqn:Htok; [|intros H; inversion H; subst; exfalso; apply Hnot; reflexivity].
  destruct (getReceiverAndAmount reg args _) as [[receiver amount] [e|]] eqn:Hrecv;
    [intros H; inversion H; subst; exfalso; apply Hnot; reflexivity|].
  rewrite Hex.
  destruct (swapoutDefaultArgs reg rpc lib args _) as [extra|];
    cbn [mbind outcome_bind]; [|discriminate].
  destruct extra as [[s|] [f|]]; cbn [Sequence Fee deref mbind outcome_bind];
    try discriminate.
  intros H.
  assert (Hsame : BuildRawTransaction reg rpc lib
                    (setExtra args (mkAllExtras (Some s) (Some f))) = Done (args', tx, err)).
  { unfold BuildRawTransaction.
    cbn [setExtra ToChainID From ArgsSwapType ArgsERC20SwapInfo Extra Sequence Fee].
    rewrite Htid, Hchain, Hfrom, Hmpc, Heq, Hswap, Hpub, Hmt, Htok.
    change (getReceiverAndAmount reg (setExtra args (mkAllExtras (Some s) (Some f))))
      with (getReceiverAndAmount reg args).
    rewrite Hrecv. cbn [negb mbind outcome_bind]. exact H. }
  destruct (BuildRawTransaction_inv _ _ _ _ Hsame) as [(e & _ & _ & [->|Hk])|(_ & Hk & _)];
    try exact Hsame; unfold extraKept in Hk; cbn [setExtra Extra] in Hk; subst; exact Hsame.
Qed.


(** X13. A request that carries an [Extra] is returned as it is, and the
    sender's account is not fetched: the build gives the same result
    whatever [GetAccount] would answer. *)
Theorem BuildRawTransaction_given_extra args extra :
  Extra args = Some extra ->
  (forall args' tx err,
     BuildRawTransaction reg rpc lib args = Done (args', tx, err) -> args' = args) /\
  (forall getAccount,
     BuildRawTransaction reg
       (mkLedger (GetBalance rpc) (GetAccountLine rpc) getAccount) lib args =
     BuildRawTransaction reg rpc lib args).
Proof.
  intros Hex. split.
  - intros args' tx err. unfold BuildRawTransaction. rewrite Hex.
    destruct (negb (IsTestMode reg) && negb (bool_decide (ToChainID args = ChainID reg)));
      [intros H; inversion H; reflexivity|].
    destruct (bool_decide (From args = "")); [intros H; inversion H; reflexivity|].
    destruct (GetRouterMPC reg _ _); [|intros H; inversion H; reflexivity].
    destruct (negb (IsEqualIgnoreCase reg _ _)); [intros H; inversion H; reflexivity|].
    destruct (ArgsSwapType args); [|intros H; inversion H; reflexivity].
    destruct (bool_decide (GetMPCPublicKey reg (From args) = ""));
      [intros H; inversion H; reflexivity|].
    destruct (bool_decide (_ = "")); [intros H; inversion H; reflexivity|].
    destruct (GetTokenConfig reg _) as [token|]; [|intros H; inversion H; reflexivity].
    destruct (getReceiverAndAmount reg args _) as [[receiver amount] [e|]];
      [intros H; inversion H; reflexivity|].
    cbn [mbind outcome_bind].
    destruct amount as [amount|]; [|discriminate]. cbn [deref mbind outcome_bind].
    destruct (getPaymentAmount lib amount token) as [amt|];
      [|intros H; inversion H; reflexivity].
    match goal with
    | |- (?c ≫= _) = _ -> _ => destruct c as [[e|]|]
    end; cbn [mbind outcome_bind]; [intros H; inversion H; reflexivity| |discriminate].
    destruct (NewUnsignedPaymentTransaction _ _ _ _ _ _ _ _ _ _ _ _ _) as [[[rawtx h] m]|];
      cbn [mbind outcome_bind]; [|discriminate].
    intros H; inversion H; reflexivity.
  - intros getAccount. apply (BuildRawTransaction_no_fetch args extra). exact Hex.
Qed.


(** X14. Only the [Extra] slot of the request is ever changed, and only
    from nil to one whose sequence and fee are both set; a build that
    returns no error always returns the request with the slot set. *)
Theorem BuildRawTransaction_extra_slot args args' tx err :
  BuildRawTransaction reg rpc lib args = Done (args', tx, err) ->
  (args' = args \/
   Extra args = None /\
   exists sequence fee, args' = setExtra args (mkAllExtras (Some sequence) (Some fee))) /\
  (err = None -> is_Some (Extra args')).
Proof.
  intros H.
  assert (Hk : forall a, extraKept args a ->
            (a = args \/ Extra args = None /\
               exists sequence fee, a = setExtra args (mkAllExtras (Some sequence) (Some fee)))
            /\ is_Some (Extra a)).
  { intros a. unfold extraKept. destruct (Extra args) as [extra|] eqn:Hex.
    - intros ->. rewrite Hex. eauto.
    - intros (s & f & ->). cbn [setExtra Extra]. eauto 10. }
  destruct (BuildRawTransaction_inv _ _ _ _ H) as [(e & -> & _ & [->|Hkept])|(-> & Hkept & _)].
  - split; [auto|discriminate].
  - split; [apply Hk; exact Hkept|discriminate].
  - split; [apply Hk; exact Hkept|intros _; apply Hk; exact Hkept].
Qed.

(** X15. A build that returns with the [Extra] slot set can be repeated:
    building again from the returned request gives the same request,
    transaction and error, with the sequence and fee of the first build
    and without fetching the sender's account.  ([GetTokenID] is taken
    not to read the slot.) *)
Theorem BuildRawTransaction_rebuild args args' tx err getAccount :
  (forall extra, GetTokenID reg (setExtra args extra) = GetTokenID reg args) ->
  BuildRawTransaction reg rpc lib args = Done (args', tx, err) ->
  is_Some (Extra args') ->
  BuildRawTransaction reg
    (mkLedger (GetBalance rpc) (GetAccountLine rpc) getAccount) lib args' =
  Done (args', tx, err).
Proof.
  intros Htid H [extra Hex].
  rewrite (BuildRawTransaction_no_fetch args' extra getAccount Hex).
  apply (BuildRawTransaction_rebuild_aux args); eauto.
Qed.

(** X16. [BuildRawTransaction] never returns a transaction together with
    an error.  When it returns no error, the request passed every check
    before the [Extra] slot, the amount converted and every balance check
    passed; a transaction it returns has a signing hash. *)
Theorem BuildRawTransaction_checked args args' tx err :
  BuildRawTransaction reg rpc lib args = Done (args', tx, err) ->
  (is_Some err -> tx = None) /\
  (err = None ->
   exists token receiver amount amt,
     preflightOk reg args token receiver amount /\
     getPaymentAmount lib amount token = Ok amt /\
     solvent reg rpc lib args token receiver amount amt /\
     forall payment, tx = Some payment ->
       exists hash msg, SigningHash lib payment = Ok (hash, msg)).
Proof.
  intros H.
  destruct (BuildRawTransaction_inv _ _ _ _ H) as [(e & -> & -> & _)|(-> & _ & Hok)].
  - split; [reflexivity|discriminate].
  - split; [intros [? ?]; discriminate|intros _; exact Hok].
Qed.

End BuilderMore.

(** ** More on signing *)

Section SigningMore.

Context {dataValue dataCurrency dataPathSet : Type}.
Variable reg : Registry.
Variable lib : @DataLib dataValue dataCurrency dataPathSet.
Variable sgn : Signer.

Lemma length_copy dst src : length (copy dst src) = length dst.
Proof.
  unfold copy. rewrite length_app, length_take, length_drop. lia.
Qed.

Lemma MakeSignedTransaction_inv pubkey rsv transaction stx err :
  MakeSignedTransaction lib sgn pubkey rsv transaction = Done (stx, err) ->
  (stx = None /\ is_Some err) \/
  (err = None /\
   exists tx sig hash blob,
     transaction = TxPayment tx /\
     rsvToSig (Serialize sgn) rsv (isEd25519Pubkey pubkey) = Done sig /\
     Raw lib (withSignature tx sig) = Ok (hash, blob) /\
     stx = Some (withHash (withSignature tx sig) (copy (Hash tx) hash))).
Proof.
  unfold MakeSignedTransaction.
  destruct (rsvToSig _ _ _) as [sig|]; cbn [mbind outcome_bind]; [|discriminate].
  destruct transaction as [tx|]; [|intros H; inversion H; eauto].
  destruct (TxnSignature tx); cbn [deref mbind outcome_bind]; [|discriminate].
  destruct (Raw lib (withSignature tx sig)) as [[hash blob]|] eqn:Hraw;
    intros H; inversion H; subst; [|eauto].
  right. split; [reflexivity|]. exists tx, sig, hash, blob. auto.
Qed.

(** X17. What [MakeSignedTransaction] returns: either no transaction and
    an error, or, without error, the given payment with the decoded
    signature in its signature field and the hash of its serialization
    copied into its hash field, which keeps its length; no other field of
    the payment is changed. *)
Theorem MakeSignedTransaction_result pubkey rsv transaction stx err :
  MakeSignedTransaction lib sgn pubkey rsv transaction = Done (stx, err) ->
  (stx = None /\ is_Some err) \/
  (err = None /\
   exists tx signed sig hash blob,
     transaction = TxPayment tx /\ stx = Some signed /\
     rsvToSig (Serialize sgn) rsv (isEd25519Pubkey pubkey) = Done sig /\
     TxnSignature signed = Some sig /\
     Raw lib (withSignature tx sig) = Ok (hash, blob) /\
     Hash signed = copy (Hash tx) hash /\
     length (Hash signed) = length (Hash tx) /\
     sameBody signed tx).
Proof.
  intros H. destruct (MakeSignedTransaction_inv _ _ _ _ _ H)
    as [?|(-> & tx & sig & hash & blob & -> & Hsig & Hraw & ->)]; [auto|].
  right. split; [reflexivity|].
  exists tx, (withHash (withSignature tx sig) (copy (Hash tx) hash)), sig, hash, blob.
  cbn [withHash withSignature TxnSignature Hash].
  repeat (split; [first [reflexivity|assumption|apply length_copy]|]).
  unfold sameBody. cbn. repeat split.
Qed.

Lemma SignTransactionWithRippleKey_inv rawTx key keyseq stx h err :
  SignTransactionWithRippleKey lib sgn rawTx key keyseq = Done (stx, h, err) ->
  (stx = None /\ h = "" /\ is_Some err) \/
  (err = None /\
   exists tx msgHash msg sig rsv signed,
     rawTx = TxPayment tx /\
     SigningHash lib tx = Ok (msgHash, msg) /\
     Sign sgn (KeyPrivate key keyseq) msgHash (SigningPrefix lib tx ++ msg) = Ok sig /\
     Verify sgn (KeyPublic key keyseq) msgHash (SigningPrefix lib tx ++ msg) sig
       = (true, None) /\
     (if isEd25519Pubkey (KeyPublic key keyseq) then rsv = Sprintf_X sig
      else exists r s, ParseSignature sgn sig = Ok (r, s) /\ rsv = Sprintf_064X_064X_00 r s) /\
     MakeSignedTransaction lib sgn (KeyPublic key keyseq) rsv (TxPayment tx)
       = Done (Some signed, None) /\
     stx = Some signed /\ h = HashString lib (Hash signed)).
Proof.
  unfold SignTransactionWithRippleKey.
  destruct rawTx as [tx|]; [|intros H; inversion H; eauto].
  destruct (SigningHash lib tx) as [[msgHash msg]|] eqn:Hhash; [|intros H; inversion H; eauto].
  destruct (Sign sgn _ _ _) as [sig|] eqn:Hsign; [|intros H; inversion H; eauto].
  destruct (Verify sgn _ _ _ _) as [valid verr] eqn:Hver.
  destruct valid, verr; try (intros H; inversion H; eauto; fail).
  change (negb true || bool_decide (None <> None)) with false. cbv iota.
  assert (Htail : forall rsv,
    (made ← MakeSignedTransaction lib sgn (KeyPublic key keyseq) rsv (TxPayment tx);
     match made with
     | (Some stx0, None) => Done (Some stx0, HashString lib (Hash stx0), None)
     | (_, Some err0) => Done (None, "", Some err0)
     | (None, None) => Done (None, HashString lib (Hash tx), None)
     end) = Done (stx, h, err) ->
    (stx = None /\ h = "" /\ is_Some err) \/
    (err = None /\ exists signed,
       MakeSignedTransaction lib sgn (KeyPublic key keyseq) rsv (TxPayment tx)
         = Done (Some signed, None) /\
       stx = Some signed /\ h = HashString lib (Hash signed))).
  { intros rsv H.
    destruct (MakeSignedTransaction lib sgn _ rsv _) as [[made merr]|] eqn:Hmade;
      cbn [mbind outcome_bind] in H; [|discriminate].
    destruct (MakeSignedTransaction_inv _ _ _ _ _ Hmade)
      as [[-> [e ->]]|(-> & tx' & sig' & hash & blob & _ & _ & _ & ->)].
    - inversion H; eauto.
    - inversion H; subst. right. eauto. }
  destruct (isEd25519Pubkey (KeyPublic key keyseq)) eqn:Hed.
  - intros H. destruct (Htail _ H) as [?|(-> & signed & Hmade & -> & ->)]; [auto|].
    right. split; [reflexivity|].
    exists tx, msgHash, msg, sig, (Sprintf_X sig), signed. auto 10.
  - destruct (ParseSignature sgn sig) as [[r s]|] eqn:Hparse;
      [|intros H; inversion H; eauto].
    intros H. destruct (Htail _ H) as [?|(-> & signed & Hmade & -> & ->)]; [auto|].
    right. split; [reflexivity|].
    exists tx, msgHash, msg, sig, (Sprintf_064X_064X_00 r s), signed.
    repeat split; eauto.
Qed.

(** X18. The result of local-key signing has a transaction exactly when
    it has no error; with an error the hash text is empty, and with a
    transaction the hash text is that of the transaction's hash field. *)
Theorem SignTransactionWithRippleKey_shape rawTx key keyseq stx h err :
  SignTransactionWithRippleKey lib sgn rawTx key keyseq = Done (stx, h, err) ->
  (is_Some stx <-> err = None) /\
  (is_Some err -> h = "") /\
  (forall signed, stx = Some signed -> h = HashString lib (Hash signed)).
Proof.
  intros H. destruct (SignTransactionWithRippleKey_inv _ _ _ _ _ _ H)
    as [(-> & -> & [e ->])|(-> & tx & msgHash & msg & sig & rsv & signed &
                              _ & _ & _ & _ & _ & _ & -> & ->)].
  - split; [split; [intros [? ?]; discriminate|discriminate]|].
    split; [reflexivity|discriminate].
  - split; [split; eauto|]. split; [intros [? ?]; discriminate|].
    intros s' E. inversion E. reflexivity.
Qed.

(** X19. The signature that local-key signing stores is the one it
    verified.  With an EdDSA key and a signature made of bytes the stored
    signature field is the signature itself; with any other key whose
    parsed R and S fit in 32 bytes it is their canonical serialization.
    Nothing else of the payment is changed but the hash field. *)
Theorem SignTransactionWithRippleKey_stores_signature rawTx key keyseq signed h err :
  SignTransactionWithRippleKey lib sgn rawTx key keyseq = Done (Some signed, h, err) ->
  exists tx msgHash msg sig,
    rawTx = TxPayment tx /\
    SigningHash lib tx = Ok (msgHash, msg) /\
    Sign sgn (KeyPrivate key keyseq) msgHash (SigningPrefix lib tx ++ msg) = Ok sig /\
    Verify sgn (KeyPublic key keyseq) msgHash (SigningPrefix lib tx ++ msg) sig
      = (true, None) /\
    sameBody signed tx /\
    (isEd25519Pubkey (KeyPublic key keyseq) = true -> Forall isByte sig ->
     TxnSignature signed = Some sig) /\
    (isEd25519Pubkey (KeyPublic key keyseq) = false ->
     forall r s, ParseSignature sgn sig = Ok (r, s) ->
       0 <= r < 2 ^ 256 -> 0 <= s < 2 ^ 256 ->
       TxnSignature signed = Some (Serialize sgn r s)).
Proof.
  intros H. destruct (SignTransactionWithRippleKey_inv _ _ _ _ _ _ H)
    as [(E & _)|(-> & tx & msgHash & msg & sig & rsv & signed' &
                 -> & Hhash & Hsign & Hver & Hrsv & Hmade & E & ->)]; [discriminate|].
  inversion E; subst signed'. clear E.
  exists tx, msgHash, msg, sig. repeat (split; [assumption||reflexivity|]).
  destruct (MakeSignedTransaction_inv _ _ _ _ _ Hmade)
    as [(E & _)|(_ & tx' & sig' & hash & blob & Etx & Hsig & Hraw & E)]; [discriminate|].
  inversion Etx; subst tx'. inversion E; subst signed. clear E Etx.
  split; [unfold sameBody; cbn; repeat split|].
  cbn [withHash withSignature TxnSignature]. split.
  - intros Hed Hbytes. rewrite Hed in Hrsv, Hsig. subst rsv.
    unfold rsvToSig in Hsig. rewrite FromHex_Sprintf_X in Hsig by assumption.
    inversion Hsig. reflexivity.
  - intros Hed r s Hparse Hr Hs. rewrite Hed in Hrsv, Hsig.
    destruct Hrsv as (r' & s' & Hparse' & ->). rewrite Hparse in Hparse'.
    inversion Hparse'; subst r' s'.
    rewrite rsvToSig_ecdsa_encoded in Hsig by assumption.
    inversion Hsig. reflexivity.
Qed.

Lemma MPCSignTransaction_local rawTx args :
  SignWithPrivateKey reg = true ->
  fst (MPCSignTransaction reg lib sgn rawTx args) = [].
Proof.
  intros Hmode. unfold MPCSignTransaction.
  destruct rawTx as [tx|]; [|reflexivity].
  destruct (verifyTransactionWithArgs lib sgn tx args); [reflexivity|].
  rewrite Hmode. destruct (HexToECDSA sgn _); reflexivity.
Qed.

(** X20. [MPCSignTransaction] sends at most one request to the oracle.
    It sends none in local-key mode, and a request it sends comes after
    the entry guard passed and the signing hash was computed, carries the
    JSON of the request's extra arguments as context, and has as content
    the text of the signing hash or, for an EdDSA key, the hex text of
    signing prefix and message. *)
Theorem MPCSignTransaction_requests rawTx args :
  (length (fst (MPCSignTransaction reg lib sgn rawTx args)) <= 1)%nat /\
  (SignWithPrivateKey reg = true -> fst (MPCSignTransaction reg lib sgn rawTx args) = []) /\
  (forall call,
     In call (fst (MPCSignTransaction reg lib sgn rawTx args)) ->
     SignWithPrivateKey reg = false /\
     callContext call = GetExtraArgsJSON reg args /\
     exists tx msgHash msg,
       rawTx = TxPayment tx /\
       verifyTransactionWithArgs lib sgn tx args = None /\
       SigningHash lib tx = Ok (msgHash, msg) /\
       callContent call =
         if isEd25519Pubkey (FromHex (GetMPCPublicKey reg (From args)))
         then ToHex sgn (SigningPrefix lib tx ++ msg)
         else HashString lib msgHash).
Proof.
  split; [|split; [apply MPCSignTransaction_local|]].
  - unfold MPCSignTransaction.
    destruct rawTx as [tx|]; [|simpl; lia].
    destruct (verifyTransactionWithArgs lib sgn tx args); [simpl; lia|].
    destruct (SignWithPrivateKey reg); [destruct (HexToECDSA sgn _); simpl; lia|].
    destruct (SigningHash lib tx) as [[msgHash msg]|]; [|simpl; lia].
    match goal with
    | |- context [match ?r with Done _ => _ | Panic => _ end] => destruct r
    end; simpl; lia.
  - intros call. unfold MPCSignTransaction.
    destruct rawTx as [tx|]; [|intros []].
    destruct (verifyTransactionWithArgs lib sgn tx args) eqn:Hguard; [intros []|].
    destruct (SignWithPrivateKey reg); [destruct (HexToECDSA sgn _); intros []|].
    destruct (SigningHash lib tx) as [[msgHash msg]|] eqn:Hhash; [|intros []].
    destruct (isEd25519Pubkey (FromHex (GetMPCPublicKey reg (From args)))).
    + destruct (strFrom 2 (GetMPCPublicKey reg (From args)));
        cbn [mbind outcome_bind fst]; [|intros []].
      intros [<-|[]]. cbn [callContext callContent]. eauto 10.
    + cbn [fst]. intros [<-|[]]. cbn [callContext callContent]. eauto 10.
Qed.

(** X21. The entry guard of [MPCSignTransaction], in either mode: a raw
    transaction that is not a payment, a payment of another transaction
    type, or a destination whose text does not match the request's bind
    address up to case ends the call with the corresponding error, no
    transaction, an empty hash text and no request to the oracle. *)
Theorem MPCSignTransaction_entry_guard args :
  MPCSignTransaction reg lib sgn TxOther args =
    ([], Done (None, "", Some ErrNotPaymentAssertion)) /\
  (forall tx tag,
     TxType tx = OtherTransactionType tag ->
     MPCSignTransaction reg lib sgn (TxPayment tx) args =
       ([], Done (None, "", Some ErrNotPaymentTransaction))) /\
  (forall tx,
     TxType tx = PAYMENT ->
     EqualFold sgn (AccountString lib (Destination tx)) (Bind args) = false ->
     MPCSignTransaction reg lib sgn (TxPayment tx) args =
       ([], Done (None, "", Some ErrVerifyReceiver))).
Proof.
  split; [reflexivity|]. split.
  - intros tx tag Htype. unfold MPCSignTransaction, verifyTransactionWithArgs.
    rewrite Htype. reflexivity.
  - intros tx Htype Hfold. unfold MPCSignTransaction, verifyTransactionWithArgs.
    rewrite Htype, Hfold. reflexivity.
Qed.

(** X22. On the remote path the signature stored in the returned
    transaction is the signature that was verified: the oracle answered
    the one request with exactly one RSV text, its decoding was accepted
    by [Verify] for the sender's key, the signing hash and the prefixed
    message, and it is the signature field of the result, which otherwise
    differs from the raw payment in the hash field only. *)
Theorem MPCSignTransaction_stores_verified rawTx args signed h err :
  SignWithPrivateKey reg = false ->
  snd (MPCSignTransaction reg lib sgn rawTx args) = Done (Some signed, h, err) ->
  err = None /\ h = HashString lib (Hash signed) /\
  exists tx msgHash msg call keyID rsv sig,
    rawTx = TxPayment tx /\
    fst (MPCSignTransaction reg lib sgn rawTx args) = [call] /\
    SigningHash lib tx = Ok (msgHash, msg) /\
    DoSignOne sgn (callSignType call) (callPubkey call) (callContent call)
      (callContext call) = Ok (keyID, [rsv]) /\
    rsvToSig (Serialize sgn) rsv
      (isEd25519Pubkey (FromHex (GetMPCPublicKey reg (From args)))) = Done sig /\
    Verify sgn (FromHex (GetMPCPublicKey reg (From args))) msgHash
      (SigningPrefix lib tx ++ msg) sig = (true, None) /\
    TxnSignature signed = Some sig /\
    sameBody signed tx.
Proof.
  intros Hmode. unfold MPCSignTransaction.
  destruct rawTx as [tx|]; [|discriminate].
  destruct (verifyTransactionWithArgs lib sgn tx args); [discriminate|].
  rewrite Hmode.
  destruct (SigningHash lib tx) as [[msgHash msg]|] eqn:Hhash; [|discriminate].
  set (pubkey := FromHex (GetMPCPublicKey reg (From args))).
  match goal with
  | |- context [match ?r with Done _ => _ | Panic => _ end] => destruct r as [call|]
  end; [|discriminate].
  cbn [fst snd].
  destruct (DoSignOne sgn _ _ _ _) as [[keyID rsvs]|] eqn:Hsign; [|discriminate].
  destruct rsvs as [|rsv [|rsv2 rest]]; cbn [length Nat.eqb negb]; try discriminate.
  cbn [head deref mbind outcome_bind].
  destruct (rsvToSig _ rsv _) as [sig|] eqn:Hsig; cbn [mbind outcome_bind]; [|discriminate].
  destruct (Verify sgn _ _ _ _) as [valid verr] eqn:Hver.
  destruct valid, verr; try discriminate.
  change (negb true || bool_decide (None <> None)) with false. cbv iota.
  destruct (MakeSignedTransaction lib sgn pubkey rsv (TxPayment tx))
    as [[made merr]|] eqn:Hmade; cbn [mbind outcome_bind]; [|discriminate].
  destruct (MakeSignedTransaction_inv _ _ _ _ _ Hmade)
    as [[-> [e ->]]|(-> & tx' & sig' & hash & blob & Etx & Hsig' & Hraw & ->)];
    [discriminate|].
  inversion Etx; subst tx'. fold pubkey in Hsig'.
  rewrite Hsig in Hsig'. inversion Hsig'; subst sig'.
  intros H. inversion H; subst. split; [reflexivity|]. split; [reflexivity|].
  exists tx, msgHash, msg, call, keyID, rsv, sig.
  repeat (split; [assumption||reflexivity|]).
  unfold sameBody. cbn. repeat split.
Qed.

(** X23. The result of [MPCSignTransaction], in either mode, has a
    transaction exactly when it has no error; with an error the hash text
    is empty, and with a transaction the hash text is that of the
    transaction's hash field. *)
Theorem MPCSignTransaction_shape rawTx args stx h err :
  snd (MPCSignTransaction reg lib sgn rawTx args) = Done (stx, h, err) ->
  (is_Some stx <-> err = None) /\
  (is_Some err -> h = "") /\
  (forall signed, stx = Some signed -> h = HashString lib (Hash signed)).
Proof.
  assert (Hbad : forall e : error,
    (is_Some (@None (@Payment dataValue dataCurrency dataPathSet)) <-> Some e = None) /\
    (is_Some (Some e) -> "" = "") /\
    (forall signed : (@Payment dataValue dataCurrency dataPathSet), None = Some signed -> "" = HashString lib (Hash signed))).
  { intros e. split; [split; [intros [? ?]; discriminate|discriminate]|].
    split; [reflexivity|discriminate]. }
  assert (Hgood : forall signed : (@Payment dataValue dataCurrency dataPathSet),
    (is_Some (Some signed) <-> @None error = None) /\
    (is_Some (@None error) -> HashString lib (Hash signed) = "") /\
    (forall signed', Some signed = Some signed' ->
       HashString lib (Hash signed) = HashString lib (Hash signed'))).
  { intros signed. split; [split; eauto|]. split; [intros [? ?]; discriminate|].
    intros s' E. inversion E. reflexivity. }
  unfold MPCSignTransaction.
  destruct rawTx as [tx|]; [|intros H; inversion H; apply Hbad].
  destruct (verifyTransactionWithArgs lib sgn tx args);
    [intros H; inversion H; apply Hbad|].
  destruct (SignWithPrivateKey reg).
  { destruct (HexToECDSA sgn _) as [d|]; [|intros H; inversion H; apply Hbad].
    cbn [snd]. unfold SignTransactionWithPrivateKey. intros H.
    destruct (SignTransactionWithRippleKey_inv _ _ _ _ _ _ H)
      as [(-> & -> & [e ->])|(-> & tx' & msgHash & msg & sig & rsv & signed &
                                _ & _ & _ & _ & _ & _ & -> & ->)];
      [apply Hbad|apply Hgood]. }
  destruct (SigningHash lib tx) as [[msgHash msg]|]; [|intros H; inversion H; apply Hbad].
  match goal with
  | |- context [match ?r with Done _ => _ | Panic => _ end] => destruct r as [call|]
  end; [|discriminate].
  cbn [snd].
  destruct (DoSignOne sgn _ _ _ _) as [[keyID rsvs]|]; [|intros H; inversion H; apply Hbad].
  destruct (negb (length rsvs =? 1)%nat); [intros H; inversion H; apply Hbad|].
  destruct (head rsvs) as [rsv|]; cbn [deref mbind outcome_bind]; [|discriminate].
  destruct (rsvToSig _ rsv _) as [sig|]; cbn [mbind outcome_bind]; [|discriminate].
  destruct (Verify sgn _ _ _ _) as [valid verr].
  destruct valid, verr; try (intros H; inversion H; apply Hbad).
  change (negb true || bool_decide (None <> None)) with false. cbv iota.
  destruct (MakeSignedTransaction lib sgn _ rsv (TxPayment tx))
    as [[made merr]|] eqn:Hmade; cbn [mbind outcome_bind]; [|discriminate].
  destruct (MakeSignedTransaction_inv _ _ _ _ _ Hmade)
    as [[-> [e ->]]|(-> & tx' & sig' & hash & blob & _ & _ & _ & ->)];
    intros H; inversion H; [apply Hbad|apply Hgood].
Qed.

End SigningMore.

(** ** More on the signature codec *)

Lemma list_ascii_of_string_app s t :
  list_ascii_of_string (String.append s t) = list_ascii_of_string s ++ list_ascii_of_string t.
Proof.
  induction s as [|c s IH]; [reflexivity|].
  simpl. f_equal. exact IH.
Qed.

Lemma decode_fmtXbytes_app bs t :
  Forall isByte bs ->
  hex.decode (fmtXbytes bs ++ t) = (bs ++ fst (hex.decode t), snd (hex.decode t)).
Proof.
  induction 1 as [|v l Hv Hl IH].
  - cbn [fmtXbytes app]. destruct (hex.decode t); reflexivity.
  - cbn [fmtXbytes app hex.decode].
    rewrite !fromHexChar_upperDigit by auto using byte_hi_digit, byte_lo_digit.
    rewrite IH, pack_byte by assumption. reflexivity.
Qed.

Lemma decode_encode_app bs t :
  Forall isByte bs ->
  hex.decode (hex.encode bs ++ t) = (bs ++ fst (hex.decode t), snd (hex.decode t)).
Proof.
  induction 1 as [|v l Hv Hl IH].
  - cbn [hex.encode app]. destruct (hex.decode t); reflexivity.
  - cbn [hex.encode app hex.decode].
    rewrite !fromHexChar_lowerDigit by auto using byte_hi_digit, byte_lo_digit.
    rewrite IH, pack_byte by assumption. reflexivity.
Qed.

Lemma scanDigits_encode_value l acc :
  Forall isByte l ->
  scanDigits acc (hex.encode l) = Some (fold_left (fun a v => 256 * a + v) l acc).
Proof.
  intros Hl. revert acc. induction Hl as [|v l Hv Hl IH]; intros acc; [reflexivity|].
  cbn [hex.encode scanDigits fold_left].
  rewrite !fromHexChar_lowerDigit by auto using byte_hi_digit, byte_lo_digit.
  rewrite IH. do 2 f_equal.
  rewrite shiftr4_div, land15_mod. pose proof (Z.div_mod v 16). lia.
Qed.

Lemma SetString16_encode_value l :
  l <> [] -> Forall isByte l ->
  SetString16 (hex.EncodeToString l) = Some (beValue l).
Proof.
  intros Hne Hl. destruct l as [|v l]; [congruence|].
  unfold hex.EncodeToString. cbn [hex.encode].
  set (c := hex.lowerDigit (Z.shiftr v 4)).
  set (rest := hex.lowerDigit (Z.land v 15) :: hex.encode l).
  change (string_of_list_ascii (c :: rest)) with (String c (string_of_list_ascii rest)).
  rewrite SetString16_unsigned by apply fromHexChar_lowerDigit_some.
  rewrite list_ascii_of_string_of_list_ascii.
  apply (scanDigits_encode_value (v :: l) 0 Hl).
Qed.

(** [rsvToSig] on a text whose decoding starts with the 64 bytes [bs]. *)
Lemma rsvToSig_of_decoded (Serialize : Z -> Z -> list Z) rsv bs more e :
  Forall isByte bs -> length bs = 64%nat ->
  hex.decode (list_ascii_of_string rsv) = (bs ++ more, e) ->
  rsvToSig Serialize rsv false =
  Done (Serialize (beValue (take 32 bs)) (beValue (drop 32 bs))).
Proof.
  intros Hb Hlen Hdec. unfold rsvToSig, hex.DecodeString. rewrite Hdec.
  set (b := mkSlice _ _).
  assert (Hback : backing b = bs ++ (more ++
            replicate (length (list_ascii_of_string rsv) / 2 - length (bs ++ more)) 0)).
  { subst b. cbn [backing]. rewrite <- app_assoc. reflexivity. }
  assert (Hcap : (64 <= cap b)%nat).
  { unfold cap. rewrite Hback, length_app. lia. }
  rewrite (reslice_ok b 0 32) by lia. cbn [mbind outcome_bind].
  rewrite (reslice_ok b 32 64) by lia. cbn [mbind outcome_bind].
  unfold elems. cbn [backing len]. fold (backing b). rewrite Hback.
  assert (E1 : take (32 - 0) (drop 0 (bs ++ (more ++
            replicate (length (list_ascii_of_string rsv) / 2 - length (bs ++ more)) 0)))
          = take 32 bs).
  { rewrite drop_0. change (32 - 0)%nat with 32%nat. apply take_app_le. lia. }
  assert (E2 : take (64 - 32) (drop 32 (bs ++ (more ++
            replicate (length (list_ascii_of_string rsv) / 2 - length (bs ++ more)) 0)))
          = drop 32 bs).
  { change (64 - 32)%nat with 32%nat. rewrite drop_app_le by lia.
    rewrite take_app_le by (rewrite length_drop; lia).
    apply take_ge. rewrite length_drop. lia. }
  rewrite E1, E2.
  rewrite !SetString16_encode_value; [reflexivity|..].
  all: try (apply Forall_drop; assumption); try (apply Forall_take; assumption).
  all: intros E; apply (f_equal length) in E;
    rewrite ?length_drop, ?length_take in E; cbn [length] in E; lia.
Qed.

(** X24. On the ECDSA path [rsvToSig] reads R and S as the big-endian
    integers of the first 32 and the next 32 bytes of the RSV text, in
    upper or lower case, and ignores whatever follows the first 128
    characters: the recovery byte, further bytes, or text that is not
    hex at all. *)
Theorem rsvToSig_reads_64_bytes (Serialize : Z -> Z -> list Z) (bs : list Z) (rest : string) :
  Forall isByte bs -> length bs = 64%nat ->
  rsvToSig Serialize (String.append (Sprintf_X bs) rest) false =
    Done (Serialize (beValue (take 32 bs)) (beValue (drop 32 bs))) /\
  rsvToSig Serialize (String.append (hex.EncodeToString bs) rest) false =
    Done (Serialize (beValue (take 32 bs)) (beValue (drop 32 bs))).
Proof.
  intros Hb Hlen. split.
  - apply (rsvToSig_of_decoded Serialize _ bs
             (fst (hex.decode (list_ascii_of_string rest)))
             (snd (hex.decode (list_ascii_of_string rest))) Hb Hlen).
    unfold Sprintf_X.
    rewrite list_ascii_of_string_app, list_ascii_of_string_of_list_ascii.
    apply decode_fmtXbytes_app. assumption.
  - apply (rsvToSig_of_decoded Serialize _ bs
             (fst (hex.decode (list_ascii_of_string rest)))
             (snd (hex.decode (list_ascii_of_string rest))) Hb Hlen).
    unfold hex.EncodeToString.
    rewrite list_ascii_of_string_app, list_ascii_of_string_of_list_ascii.
    apply decode_encode_app. assumption.
Qed.

(** ** The further properties on the examples *)

Lemma GetStubChainID_range_witness :
  exists id,
    cosmos.GetStubChainID cosmos.asciiUpper 1000000000000 "sei" "testnet"
      = cosmos.Returns id /\
    1000000000000 <= id < 1000000000000 + Z.abs 1000000000000.
Proof.
  apply (GetStubChainID_range cosmos.asciiUpper 1000000000000 "sei" "testnet").
  - lia.
  - right. left. reflexivity.
Defined.

Lemma GetStubChainID_unknown_network_witness :
  cosmos.GetStubChainID cosmos.asciiUpper 1000000000000 "sei" "staging"
    = cosmos.Fatalf "staging" /\
  cosmos.GetStubChainID cosmos.asciiUpper 0 "sei" "mainnet" = cosmos.Panics.
Proof.
  split.
  - apply (proj1 (GetStubChainID_unknown_network cosmos.asciiUpper 1000000000000
                    "sei" "staging")).
    intros [H|[H|H]]; discriminate H.
  - apply (proj2 (GetStubChainID_unknown_network cosmos.asciiUpper 0 "sei" "mainnet")).
    + left. reflexivity.
    + reflexivity.
Defined.

Lemma GetStubChainID_consecutive_witness :
  cosmos.GetStubChainID cosmos.asciiUpper 1000000000000 "sei" cosmos.testnetNetWork =
    cosmos.Returns ((1000005457225 - 1000000000000 + 1) mod 1000000000000 + 1000000000000) /\
  cosmos.GetStubChainID cosmos.asciiUpper 1000000000000 "sei" cosmos.devnetNetWork =
    cosmos.Returns ((1000005457225 - 1000000000000 + 2) mod 1000000000000 + 1000000000000).
Proof.
  apply (GetStubChainID_consecutive cosmos.asciiUpper 1000000000000 "sei" 1000005457225).
  - lia.
  - reflexivity.
Defined.

Lemma SupportsChainID_initial_witness :
  exists answer st,
    cosmos.SupportsChainID cosmos.asciiUpper cosmos.decimal 1000000000000
      cosmos.initialState 1000005457226 = cosmos.Returns (answer, st) /\
    cosmos.supportedChainIDsInit st = true /\
    (answer = true <->
     cosmos.registered cosmos.asciiUpper cosmos.decimal 1000000000000 cosmos.ChainsList
       (cosmos.decimal 1000005457226)).
Proof.
  apply (SupportsChainID_initial cosmos.asciiUpper cosmos.decimal 1000000000000
           1000005457226).
  lia.
Defined.

Lemma SupportsChainID_listed_witness :
  exists id st,
    cosmos.GetStubChainID cosmos.asciiUpper 1000000000000 "OSMOSIS" "devnet"
      = cosmos.Returns id /\
    cosmos.SupportsChainID cosmos.asciiUpper cosmos.decimal 1000000000000
      cosmos.initialState id = cosmos.Returns (true, st).
Proof.
  apply (SupportsChainID_listed cosmos.asciiUpper cosmos.decimal 1000000000000
           "OSMOSIS" "devnet").
  - lia.
  - right. left. reflexivity.
  - right. right. reflexivity.
Defined.

Lemma SupportsChainID_once_witness :
  exists st answer',
    cosmos.SupportsChainID cosmos.asciiUpper cosmos.decimal 1000000000000 st 7
      = cosmos.Returns (answer', st) /\
    cosmos.SupportsChainID cosmos.asciiUpper cosmos.decimal 1000000000000
      cosmos.initialState 7 = cosmos.Returns (answer', st).
Proof.
  eexists.
  eapply (SupportsChainID_once cosmos.asciiUpper cosmos.decimal 1000000000000
            1000005457226 _ true 7).
  vm_compute. reflexivity.
Defined.

Lemma IsSupportedCosmosSubChain_supported_witness :
  exists id st,
    cosmos.GetStubChainID cosmos.asciiUpper 1000000000000 "coreum" "mainnet"
      = cosmos.Returns id /\
    cosmos.SupportsChainID cosmos.asciiUpper cosmos.decimal 1000000000000
      cosmos.initialState id = cosmos.Returns (true, st).
Proof.
  apply (IsSupportedCosmosSubChain_supported cosmos.asciiUpper cosmos.decimal
           1000000000000 "coreum" "mainnet").
  - lia.
  - repeat constructor.
  - reflexivity.
  - left. reflexivity.
Defined.

Lemma getReceiverAndAmount_result_witness :
  "rReceiver" = Bind (Demo.args None) /\
  Bind (Demo.args None) <> "" /\
  IsValidAddress (Demo.registry Demo.xrp Demo.ecPubkeyHex false) (Bind (Demo.args None)) = true.
Proof.
  destruct (getReceiverAndAmount_result (Demo.registry Demo.xrp Demo.ecPubkeyHex false)
              (Demo.args None) "xrp-token" "rReceiver" (Some 15000000) None eq_refl)
    as (Hrecv & _ & Hok).
  destruct (Hok eq_refl) as (Hne & Hvalid & _).
  split; [exact Hrecv|]. split; [exact Hne|exact Hvalid].
Defined.

Lemma getPaymentAmount_success_witness :
  (exists currency,
     currencyMap Demo.lib !! Currency (TokenRippleExtra Demo.usd) = Some currency /\
     - 2 ^ 63 <= 2500 < 2 ^ 63 /\
     if CurrencyIsNative Demo.lib currency
     then NewAmount Demo.lib 2500 = Ok (mkAmount 2500 "USD" [7])
     else
       exists issuer value,
         issuerMap Demo.lib !! Issuer (TokenRippleExtra Demo.usd) = Some issuer /\
         NewNonNativeValue Demo.lib 2500 (- int64 (Decimals Demo.usd)) = Ok value /\
         mkAmount 2500 "USD" [7] = mkAmount value currency issuer) /\
  getPaymentAmount Demo.lib (2 ^ 70) (mkTokenConfig 6 (mkRippleExtra "EUR" "rIssuer")) =
  Err (ErrNonExistCurrency "EUR").
Proof.
  split.
  - apply (proj1 (getPaymentAmount_success Demo.lib 2500 Demo.usd)). reflexivity.
  - apply (proj2 (getPaymentAmount_success Demo.lib (2 ^ 70)
                    (mkTokenConfig 6 (mkRippleExtra "EUR" "rIssuer")))).
    reflexivity.
Defined.

Lemma checkNativeBalance_cases_witness :
  checkNativeBalance (Demo.ledger 12000000 0 0 (Ok None)) "rRouter" (Some 1000000) true
    = Done None /\
  checkNativeBalance (Demo.ledger 12000000 0 0 (Ok None)) "rReceiver" (Some 5) false
    = Done (Some (ErrInsufficientNativeReceiver "rReceiver")).
Proof.
  split.
  - apply (proj1 (proj2 (checkNativeBalance_cases (Demo.ledger 12000000 0 0 (Ok None))
                           "rRouter" (Some 1000000) true) 12000000 eq_refl)).
    lia.
  - apply (proj2 (proj2 (checkNativeBalance_cases (Demo.ledger 12000000 0 0 (Ok None))
                           "rReceiver" (Some 5) false) 0 eq_refl)).
    lia.
Defined.

Lemma swapoutDefaultArgs_result_witness :
  swapoutDefaultArgs (Demo.registry Demo.xrp Demo.ecPubkeyHex false)
    (Demo.ledger 0 0 0 (Err (ErrExternal "actNotFound"))) Demo.lib (Demo.args None)
    "xrp-token" = Panic /\
  is_Some (Sequence (mkAllExtras (Some 5) (Some "10"))) /\
  is_Some (Fee (mkAllExtras (Some 5) (Some "10"))).
Proof.
  split.
  - apply (proj2 (proj1 (proj2 (proj2 (swapoutDefaultArgs_result
             (Demo.registry Demo.xrp Demo.ecPubkeyHex false)
             (Demo.ledger 0 0 0 (Err (ErrExternal "actNotFound"))) Demo.lib
             (Demo.args None) "xrp-token"))))).
    split; [eexists; reflexivity|eexists; reflexivity].
  - destruct (proj2 (proj2 (proj2 (swapoutDefaultArgs_result
             (Demo.registry Demo.xrp Demo.ecPubkeyHex false)
             (Demo.ledger 0 0 0 (Ok (Some 5))) Demo.lib
             (Demo.args None) "xrp-token"))) (mkAllExtras (Some 5) (Some "10")) eq_refl)
      as (Hseq & Hfee & _).
    split; [exact Hseq|exact Hfee].
Defined.

Lemma NewUnsignedPaymentTransaction_result_witness :
  exists payment,
    NewUnsignedPaymentTransaction Demo.lib Demo.key None 7 "rReceiver" None "1" "10"
      "" "" false false false = Done (Some payment, [1; 1], [2; 2]) /\
    SigningHash Demo.lib payment = Ok ([1; 1], [2; 2]).
Proof.
  eexists. split.
  - vm_compute. reflexivity.
  - eapply (proj1 (proj2 (NewUnsignedPaymentTransaction_result Demo.lib Demo.key None 7
                           "rReceiver" None "1" "10" "" "" false false false))).
    vm_compute. reflexivity.
Defined.

Lemma BuildRawTransaction_given_extra_witness :
  BuildRawTransaction (Demo.registry Demo.xrp Demo.ecPubkeyHex false)
    (mkLedger (GetBalance (Demo.ledger 100000000 50000000 0 (Ok None)))
       (GetAccountLine (Demo.ledger 100000000 50000000 0 (Ok None)))
       (fun _ => Err (ErrExternal "timeout")))
    Demo.lib (Demo.args (Some (mkAllExtras (Some 7) (Some "10")))) =
  BuildRawTransaction (Demo.registry Demo.xrp Demo.ecPubkeyHex false)
    (Demo.ledger 100000000 50000000 0 (Ok None)) Demo.lib
    (Demo.args (Some (mkAllExtras (Some 7) (Some "10")))).
Proof.
  apply (proj2 (BuildRawTransaction_given_extra
                  (Demo.registry Demo.xrp Demo.ecPubkeyHex false)
                  (Demo.ledger 100000000 50000000 0 (Ok None)) Demo.lib
                  (Demo.args (Some (mkAllExtras (Some 7) (Some "10"))))
                  (mkAllExtras (Some 7) (Some "10")) eq_refl)
           (fun _ => Err (ErrExternal "timeout"))).
Defined.

Lemma BuildRawTransaction_extra_slot_witness :
  exists args' tx,
    BuildRawTransaction (Demo.registry Demo.xrp Demo.ecPubkeyHex false)
      (Demo.ledger 100000000 50000000 0 (Ok (Some 5))) Demo.lib (Demo.args None)
      = Done (args', tx, None) /\
    (args' = Demo.args None \/
     Extra (Demo.args None) = None /\
     exists sequence fee,
       args' = setExtra (Demo.args None) (mkAllExtras (Some sequence) (Some fee))) /\
    is_Some (Extra args').
Proof.
  eexists. eexists. split.
  - vm_compute. reflexivity.
  - edestruct (BuildRawTransaction_extra_slot
                 (Demo.registry Demo.xrp Demo.ecPubkeyHex false)
                 (Demo.ledger 100000000 50000000 0 (Ok (Some 5))) Demo.lib (Demo.args None))
      as [H1 H2]; [vm_compute; reflexivity|].
    split; [exact H1|exact (H2 eq_refl)].
Defined.

Lemma BuildRawTransaction_rebuild_witness :
  exists args' tx,
    BuildRawTransaction (Demo.registry Demo.xrp Demo.ecPubkeyHex false)
      (Demo.ledger 100000000 50000000 0 (Ok (Some 5))) Demo.lib (Demo.args None)
      = Done (args', tx, None) /\
    BuildRawTransaction (Demo.registry Demo.xrp Demo.ecPubkeyHex false)
      (mkLedger (GetBalance (Demo.ledger 100000000 50000000 0 (Ok (Some 5))))
         (GetAccountLine (Demo.ledger 100000000 50000000 0 (Ok (Some 5))))
         (fun _ => Err (ErrExternal "timeout")))
      Demo.lib args' = Done (args', tx, None).
Proof.
  eexists. eexists. split.
  - vm_compute. reflexivity.
  - eapply (BuildRawTransaction_rebuild
              (Demo.registry Demo.xrp Demo.ecPubkeyHex false)
              (Demo.ledger 100000000 50000000 0 (Ok (Some 5))) Demo.lib (Demo.args None)).
    + intros extra. reflexivity.
    + vm_compute. reflexivity.
    + eexists. reflexivity.
Defined.

Lemma BuildRawTransaction_checked_witness :
  exists args' tx,
    BuildRawTransaction (Demo.registry Demo.xrp Demo.ecPubkeyHex false)
      (Demo.ledger 100000000 50000000 0 (Ok (Some 5))) Demo.lib (Demo.args None)
      = Done (args', tx, None) /\
    exists token receiver amount amt,
      preflightOk (Demo.registry Demo.xrp Demo.ecPubkeyHex false) (Demo.args None)
        token receiver amount /\
      getPaymentAmount Demo.lib amount token = Ok amt /\
      solvent (Demo.registry Demo.xrp Demo.ecPubkeyHex false)
        (Demo.ledger 100000000 50000000 0 (Ok (Some 5))) Demo.lib (Demo.args None)
        token receiver amount amt /\
      forall payment, tx = Some payment ->
        exists hash msg, SigningHash Demo.lib payment = Ok (hash, msg).
Proof.
  eexists. eexists. split.
  - vm_compute. reflexivity.
  - eapply (fun H => proj2 (BuildRawTransaction_checked
              (Demo.registry Demo.xrp Demo.ecPubkeyHex false)
              (Demo.ledger 100000000 50000000 0 (Ok (Some 5))) Demo.lib (Demo.args None)
              _ _ None H) eq_refl).
    vm_compute. reflexivity.
Defined.

Lemma MakeSignedTransaction_result_witness :
  exists signed,
    MakeSignedTransaction Demo.lib (Demo.signer (Err (ErrExternal "")) true)
      (FromHex Demo.edPubkeyHex) "0A0B" (TxPayment Demo.payment) = Done (Some signed, None) /\
    TxnSignature signed = Some [10; 11] /\
    length (Hash signed) = length (Hash Demo.payment) /\
    sameBody signed Demo.payment.
Proof.
  eexists. split; [vm_compute; reflexivity|].
  edestruct (MakeSignedTransaction_result Demo.lib (Demo.signer (Err (ErrExternal "")) true)
               (FromHex Demo.edPubkeyHex) "0A0B" (TxPayment Demo.payment))
    as [[E _]|(_ & tx & signed & sig & hash & blob & Etx & Es & Hsig & Hts & _ & _ & Hlen & Hsame)];
    [vm_compute; reflexivity|discriminate E|].
  inversion Etx; subst tx. inversion Es; subst signed.
  vm_compute in Hsig. inversion Hsig; subst sig.
  split; [exact Hts|]. split; [exact Hlen|exact Hsame].
Defined.

Lemma SignTransactionWithRippleKey_shape_witness :
  exists signed h,
    SignTransactionWithRippleKey Demo.lib (Demo.signer (Err (ErrExternal "")) true)
      (TxPayment Demo.payment) Demo.key None = Done (Some signed, h, None) /\
    h = HashString Demo.lib (Hash signed).
Proof.
  eexists. eexists. split; [vm_compute; reflexivity|].
  edestruct (SignTransactionWithRippleKey_shape Demo.lib
               (Demo.signer (Err (ErrExternal "")) true)
               (TxPayment Demo.payment) Demo.key None) as (_ & _ & Hh);
    [vm_compute; reflexivity|].
  apply Hh. reflexivity.
Defined.

Lemma SignTransactionWithRippleKey_stores_signature_witness :
  exists signed h,
    SignTransactionWithRippleKey Demo.lib (Demo.signer (Err (ErrExternal "")) true)
      (TxPayment Demo.payment) Demo.key None = Done (Some signed, h, None) /\
    TxnSignature signed = Some [1; 2] /\
    sameBody signed Demo.payment.
Proof.
  eexists. eexists. split; [vm_compute; reflexivity|].
  edestruct (SignTransactionWithRippleKey_stores_signature Demo.lib
               (Demo.signer (Err (ErrExternal "")) true)
               (TxPayment Demo.payment) Demo.key None)
    as (tx & msgHash & msg & sig & Etx & _ & Hsign & _ & Hsame & _ & Hec);
    [vm_compute; reflexivity|].
  inversion Etx; subst tx. split; [|exact Hsame].
  apply (Hec eq_refl 1 2); [|lia|lia].
  vm_compute in Hsign. inversion Hsign. reflexivity.
Defined.

Lemma MPCSignTransaction_requests_witness :
  SignWithPrivateKey (Demo.registry Demo.xrp Demo.ecPubkeyHex false) = false /\
  callContext (mkSignCall SignTypeED25519 Demo.ecPubkeyHex "HASH" "{}") = "{}".
Proof.
  destruct (proj2 (proj2 (MPCSignTransaction_requests
              (Demo.registry Demo.xrp Demo.ecPubkeyHex false) Demo.lib
              (Demo.signer (Ok ("key-1", ["aa"; "bb"])) true)
              (TxPayment Demo.payment) (Demo.args None)))
              (mkSignCall SignTypeED25519 Demo.ecPubkeyHex "HASH" "{}"))
    as (Hmode & Hctx & _).
  - left. reflexivity.
  - split; [exact Hmode|exact Hctx].
Defined.

Lemma MPCSignTransaction_entry_guard_witness :
  MPCSignTransaction (Demo.registry Demo.xrp Demo.ecPubkeyHex true) Demo.lib
    (Demo.signer (Ok ("key-1", ["aa"])) true) (TxPayment Demo.payment)
    (mkBuildTxArgs "swap-1" ERC20SwapType "56" "ripple" "rRouter" "rSomeoneElse"
       "0xfrom" "0xto" 15000000 (mkERC20SwapInfo "0xtoken" "XRP") None) =
  ([], Done (None, "", Some ErrVerifyReceiver)).
Proof.
  apply (proj2 (proj2 (MPCSignTransaction_entry_guard
           (Demo.registry Demo.xrp Demo.ecPubkeyHex true) Demo.lib
           (Demo.signer (Ok ("key-1", ["aa"])) true)
           (mkBuildTxArgs "swap-1" ERC20SwapType "56" "ripple" "rRouter" "rSomeoneElse"
              "0xfrom" "0xto" 15000000 (mkERC20SwapInfo "0xtoken" "XRP") None)))
           Demo.payment).
  - reflexivity.
  - reflexivity.
Defined.

Lemma MPCSignTransaction_stores_verified_witness :
  exists signed h,
    snd (MPCSignTransaction (Demo.registry Demo.xrp Demo.edPubkeyHex false) Demo.lib
           (Demo.signer (Ok ("key-1", ["0A0B"])) true) (TxPayment Demo.payment)
           (Demo.args None)) = Done (Some signed, h, None) /\
    TxnSignature signed = Some [10; 11] /\
    sameBody signed Demo.payment.
Proof.
  eexists. eexists. split; [vm_compute; reflexivity|].
  edestruct (MPCSignTransaction_stores_verified
               (Demo.registry Demo.xrp Demo.edPubkeyHex false) Demo.lib
               (Demo.signer (Ok ("key-1", ["0A0B"])) true) (TxPayment Demo.payment)
               (Demo.args None))
    as (_ & _ & tx & msgHash & msg & call & keyID & rsv & sig &
        Etx & _ & _ & Hsign & Hsig & _ & Hts & Hsame);
    [reflexivity|vm_compute; reflexivity|].
  inversion Etx; subst tx. vm_compute in Hsign. inversion Hsign; subst keyID rsv.
  vm_compute in Hsig. inversion Hsig; subst sig.
  split; [exact Hts|exact Hsame].
Defined.

Lemma MPCSignTransaction_shape_witness :
  exists h,
    snd (MPCSignTransaction (Demo.registry Demo.xrp Demo.edPubkeyHex false) Demo.lib
           (Demo.signer (Ok ("key-1", ["0A0B"])) false) (TxPayment Demo.payment)
           (Demo.args None)) = Done (None, h, Some (ErrVerifySignature false None)) /\
    h = "".
Proof.
  eexists. split; [vm_compute; reflexivity|].
  edestruct (MPCSignTransaction_shape
               (Demo.registry Demo.xrp Demo.edPubkeyHex false) Demo.lib
               (Demo.signer (Ok ("key-1", ["0A0B"])) false) (TxPayment Demo.payment)
               (Demo.args None)) as (_ & Hh & _);
    [vm_compute; reflexivity|].
  apply Hh. eexists. reflexivity.
Defined.

Lemma rsvToSig_reads_64_bytes_witness :
  rsvToSig (fun r s => [r; s])
    (String.append (Sprintf_X (replicate 63 0 ++ [9])) "1b-not-hex") false =
  Done [beValue (take 32 (replicate 63 0 ++ [9])); beValue (drop 32 (replicate 63 0 ++ [9]))].
Proof.
  apply (proj1 (rsvToSig_reads_64_bytes (fun r s => [r; s]) (replicate 63 0 ++ [9])
                  "1b-not-hex"
                  ltac:(apply Forall_app; split;
                        [apply Forall_replicate; unfold isByte; lia
                        |repeat constructor; unfold isByte; lia])
                  eq_refl)).
Defined.
